(** * weForth: a shallow embedding of the eForth virtual machine of
      [src/ceforth.cpp] and the properties of its outer and inner interpreter.

    The development follows the source top-down: the build configuration and
    the machine integers, the bounded [List] container, the global machine
    state, the parameter memory, the dictionary, the compiler helpers, the
    inner interpreter [nest], the built-in words of [dict_compile], the outer
    interpreter [forth_core] and the driver [forth_vm].  The theorems come
    last. *)

From Stdlib Require Import ZArith String Ascii Bool Lia.
From stdpp Require Import base tactics option list.

#[local] Open Scope string_scope.
#[local] Open Scope Z_scope.

(** ** Build configuration and machine integers *)

(** Modelled from the spec: [config.h] and [ceforth.h] are not among the
    sources.  The container sizes [E4_RS_SZ], [E4_SS_SZ], [E4_DICT_SZ] and
    [E4_PMEM_SZ], the build flavour [DO_WASM] and the width of the host's
    [long] (used by [strtol]) are build-time parameters of the program; the
    float flavour ([USE_FLOAT]) is outside the core and taken as 0. *)
Class Config := {
  E4_RS_SZ   : Z;
  E4_SS_SZ   : Z;
  E4_DICT_SZ : Z;
  E4_PMEM_SZ : Z;
  DO_WASM    : bool;
  LONG_BITS  : Z
}.

Definition USE_FLOAT : Z := 0.

(** Modelled from the spec: the integer types of [ceforth.h].  [IU] is an
    unsigned 16-bit instruction unit, [DU] a signed cell (32 bits in the
    integer flavour), [U32] what the cast [UINT] yields; all are carried by
    [Z] with the wrap-around written out. *)
Definition IU_SZ : Z := 2.    (* sizeof(IU) *)
Definition DU_SZ : Z := 4.    (* sizeof(DU) *)

Definition to_IU (x : Z) : Z := x mod 65536.
Definition UINT (x : Z) : Z := x mod 4294967296.
Definition to_DU (x : Z) : Z := (x + 2147483648) mod 4294967296 - 2147483648.
Definition to_U8 (x : Z) : Z := x mod 256.

Definition DU0 : Z := 0.
Definition DU1 : Z := 1.

(** Modelled from the spec: the macros of [ceforth.h].  [EXT_FLAG] is the high
    bit of an IU; [UDF_ATTR] and [IMM_ATTR] are the two attribute bits of a
    dictionary entry; the alignment helpers round up to 2, 4 or 16 bytes, and
    [DALIGN] is 4-byte for the 32-bit cell environment (WASM), 2-byte
    otherwise. *)
Definition EXT_FLAG : Z := 32768.
Definition UDF_ATTR : Z := 1.
Definition IMM_ATTR : Z := 2.

Definition ALIGN2 (sz : Z) : Z := sz + Z.land (- sz) 1.
Definition ALIGN4 (sz : Z) : Z := sz + Z.land (- sz) 3.
Definition ALIGN16 (sz : Z) : Z := sz + Z.land (- sz) 15.
Definition DALIGN `{Config} (sz : Z) : Z := if DO_WASM then ALIGN4 sz else ALIGN2 sz.

Definition BOOL (f : bool) : Z := if f then -1 else 0.

(** The primitive opcodes: [typedef enum { EXIT=0|EXT_FLAG, NOP, ... MAX_OP }]. *)
Definition EXIT  : Z := EXT_FLAG.
Definition NOP   : Z := EXT_FLAG + 1.
Definition NEXT  : Z := EXT_FLAG + 2.
Definition LOOP  : Z := EXT_FLAG + 3.
Definition LIT   : Z := EXT_FLAG + 4.
Definition VAR   : Z := EXT_FLAG + 5.
Definition STR   : Z := EXT_FLAG + 6.
Definition DOTQ  : Z := EXT_FLAG + 7.
Definition BRAN  : Z := EXT_FLAG + 8.
Definition ZBRAN : Z := EXT_FLAG + 9.
Definition VBRAN : Z := EXT_FLAG + 10.
Definition DOES  : Z := EXT_FLAG + 11.
Definition FOR   : Z := EXT_FLAG + 12.
Definition DO    : Z := EXT_FLAG + 13.
Definition KEY   : Z := EXT_FLAG + 14.
Definition MAX_OP : Z := EXT_FLAG + 15.

Definition not_EXT_FLAG (w : Z) : Z := Z.land w (EXT_FLAG - 1).   (* w & ~EXT_FLAG on an IU *)
Definition has_EXT_FLAG (w : Z) : bool := negb (Z.land w EXT_FLAG =? 0).

Definition USER_AREA : Z := ALIGN16 (not_EXT_FLAG MAX_OP).
Definition IS_PRIM (w : Z) : bool := has_EXT_FLAG w && (w <? MAX_OP).

(** ** Results: the machine either goes on, or leaves the defined behaviour *)

Inductive fault : Type :=
  | Undefined (what : string)     (* out-of-range access, null pointer, division by zero *)
  | Host (what : string)          (* a host collaborator that is not part of the core *)
  | OutOfFuel.

Inductive result (A : Type) : Type :=
  | Ok (a : A)
  | Err (e : fault).
Arguments Ok {A} a.
Arguments Err {A} e.

(** ** The bounded container [List<T, N>] *)

(** Modelled from the spec: the template [List] of [ceforth.h] is a bounded
    array [v] of capacity [N] with the depth [idx]; [operator[]] indexes from
    the top for negative indices.  Cells keep their value after a pop.  An
    access outside [0, N) is outside the defined behaviour. *)
Record List (A : Type) := mkList { v : list A; idx : Z }.
Arguments mkList {A} v idx.
Arguments v {A} l.
Arguments idx {A} l.

Module Lst.
Section Ops.
Context {A : Type}.

Definition new (N : Z) (a0 : A) : List A := mkList (replicate (Z.to_nat N) a0) 0.

Definition in_range (N i : Z) : bool := (0 <=? i) && (i <? N).

Definition push (N : Z) (t : A) (l : List A) : result (List A) :=
  if in_range N (idx l)
  then Ok (mkList (<[Z.to_nat (idx l) := t]> (v l)) (idx l + 1))
  else Err (Undefined "List full").

Definition pop (N : Z) (l : List A) : result (A * List A) :=
  if in_range N (idx l - 1)
  then match v l !! Z.to_nat (idx l - 1) with
       | Some t => Ok (t, mkList (v l) (idx l - 1))
       | None => Err (Undefined "List empty")
       end
  else Err (Undefined "List empty").

(* T& operator[](int i) { return i < 0 ? v[idx + i] : v[i]; } *)
Definition slot (l : List A) (i : Z) : Z := if i <? 0 then idx l + i else i.

Definition get (N : Z) (l : List A) (i : Z) : result A :=
  if in_range N (slot l i)
  then match v l !! Z.to_nat (slot l i) with
       | Some t => Ok t
       | None => Err (Undefined "List index")
       end
  else Err (Undefined "List index").

Definition set (N : Z) (l : List A) (i : Z) (t : A) : result (List A) :=
  if in_range N (slot l i)
  then Ok (mkList (<[Z.to_nat (slot l i) := t]> (v l)) (idx l))
  else Err (Undefined "List index").

Definition clear (i : Z) (l : List A) : List A := mkList (v l) i.

(* the live part of the container, bottom first *)
Definition live (l : List A) : list A := take (Z.to_nat (idx l)) (v l).
End Ops.
End Lst.

(** ** Characters, C strings and the two string streams *)

Definition byte_of (c : ascii) : Z := Z.of_N (N_of_ascii c).
Definition char_of (b : Z) : ascii := ascii_of_N (Z.to_N (to_U8 b)).

Fixpoint bytes_of (s : string) : list Z :=
  match s with
  | EmptyString => []
  | String c s' => byte_of c :: bytes_of s'
  end.

Definition strlen (s : string) : Z := Z.of_nat (String.length s).

(** Modelled from the spec: [STRLEN] of [ceforth.h], the length of a C string
    with its terminating NUL, rounded up to IU alignment (the layout comment
    of the source: [str name \0], [strlen+1], 2-byte aligned). *)
Definition STRLEN (s : string) : Z := ALIGN2 (strlen s + 1).

(** The [sz] bytes that [pmem.push((U8* )s, sz)] copies from the C string [s]:
    its characters, the NUL, and (when [STRLEN] rounds up) the byte behind the
    NUL, taken as 0. *)
Definition cstr_bytes (s : string) : list Z :=
  bytes_of s ++ replicate (Z.to_nat (STRLEN s - strlen s)) 0.

(** A C string cannot hold a NUL character. *)
Fixpoint cstr_ok (s : string) : bool :=
  match s with
  | EmptyString => true
  | String c s' => negb (byte_of c =? 0) && cstr_ok s'
  end.

(** [strcmp(s1, s2) == 0] and [strcasecmp(s1, s2) == 0] (C locale). *)
Definition tolower (c : ascii) : ascii :=
  let b := byte_of c in
  if (65 <=? b) && (b <=? 90) then char_of (b + 32) else c.

Fixpoint strcmp_eq (s1 s2 : string) : bool :=
  match s1, s2 with
  | EmptyString, EmptyString => true
  | String c1 r1, String c2 r2 => (byte_of c1 =? byte_of c2) && strcmp_eq r1 r2
  | _, _ => false
  end.

Fixpoint strcasecmp_eq (s1 s2 : string) : bool :=
  match s1, s2 with
  | EmptyString, EmptyString => true
  | String c1 r1, String c2 r2 =>
      (byte_of (tolower c1) =? byte_of (tolower c2)) && strcasecmp_eq r1 r2
  | _, _ => false
  end.

(** [std::isspace] in the C locale. *)
Definition isspace (c : ascii) : bool :=
  let b := byte_of c in (b =? 32) || ((9 <=? b) && (b <=? 13)).

(** The input stream [fin]: the characters not yet read and the two state
    bits that decide whether an extraction is attempted at all. *)
Record istream := mkIn { ibuf : string; ieof : bool; ifail : bool }.

Definition igood (i : istream) : bool := negb (ieof i || ifail i).

(* fin.clear(); fin.str(line); *)
Definition istream_str (line : string) : istream := mkIn line false false.

Fixpoint skip_ws (s : string) : string :=
  match s with
  | String c r => if isspace c then skip_ws r else s
  | EmptyString => EmptyString
  end.

Fixpoint span_token (s : string) : string * string :=
  match s with
  | String c r =>
      if isspace c then (EmptyString, s)
      else let (t, rest) := span_token r in (String c t, rest)
  | EmptyString => (EmptyString, EmptyString)
  end.

Definition is_empty (s : string) : bool :=
  match s with EmptyString => true | _ => false end.

(** [fin >> str]: [None] when the extraction fails ([str] is then left as it
    was), otherwise the token. *)
Definition extract (i : istream) : option string * istream :=
  if igood i then
    match skip_ws (ibuf i) with
    | EmptyString => (None, mkIn EmptyString true true)
    | r => let (t, rest) := span_token r in (Some t, mkIn rest (is_empty rest) false)
    end
  else (None, mkIn (ibuf i) (ieof i) true).

Fixpoint span_delim (c : ascii) (s : string) : string * string * bool :=
  match s with
  | String a r =>
      if (byte_of a =? byte_of c) then (EmptyString, r, true)
      else let '(t, rest, found) := span_delim c r in (String a t, rest, found)
  | EmptyString => (EmptyString, EmptyString, false)
  end.

(** [getline(fin, str, c)]: [None] when the stream was not good ([str] is left
    as it was); otherwise the characters up to the delimiter, which is consumed. *)
Definition getline (c : ascii) (i : istream) : option string * istream :=
  if igood i then
    let '(t, rest, found) := span_delim c (ibuf i) in
    (Some t, mkIn rest (negb found) (is_empty (ibuf i)))
  else (None, mkIn (ibuf i) (ieof i) true).

(** The output stream [fout]: the buffered text and the [basefield] that
    [setbase] selects ([setbase] of anything but 8, 10, 16 clears it, and a
    cleared field prints decimal). *)
Inductive basefield := Dec | Oct | Hex | NoBase.

Record ostream := mkOut { obuf : string; obase : basefield }.

Definition setbase (b : Z) : basefield :=
  if b =? 8 then Oct else if b =? 10 then Dec else if b =? 16 then Hex else NoBase.

Definition digit_char (d : Z) : ascii :=
  if 9 <? d then char_of (d - 10 + 97) else char_of (d + 48).

Fixpoint udigits (fuel : nat) (b n : Z) (acc : string) : string :=
  match fuel with
  | O => acc
  | S f =>
      let acc' := String (digit_char (n mod b)) acc in
      if n / b =? 0 then acc' else udigits f b (n / b) acc'
  end.

Definition unum (b n : Z) : string := udigits 64 b n EmptyString.

(** [operator<<(int)] and [operator<<(unsigned)]: decimal prints the value,
    octal and hexadecimal print the 32-bit pattern. *)
Definition fmt_int (f : basefield) (n : Z) : string :=
  match f with
  | Hex => unum 16 (UINT n)
  | Oct => unum 8 (UINT n)
  | _ => if n <? 0 then String "-"%char (unum 10 (- n)) else unum 10 n
  end.

Definition fmt_uint (f : basefield) (n : Z) : string :=
  match f with
  | Hex => unum 16 n
  | Oct => unum 8 n
  | _ => unum 10 n
  end.

(* setw(w): right-justified, filled with blanks *)
Definition padded (w : Z) (s : string) : string :=
  let n := Z.to_nat (w - strlen s) in
  (fix pad (k : nat) : string :=
     match k with O => s | S k' => String " "%char (pad k') end) n.

(** ** The global machine state *)

(** Modelled from the spec: the record [Code] of [ceforth.h]: the name (a
    pointer, either to a string literal of the program or into PMEM, the NFA),
    the native function pointer [xt], the attribute flags and the [pfa].
    Native function pointers are abstract: the pointer of the k-th built-in of
    [dict_compile] is carried by the number k, and a primitive of [op_prim]
    carries its opcode in [xt]. *)
Inductive name_ptr :=
  | NullName
  | Static (s : string)
  | Nfa (a : Z).

Record Code := mkCode { name : name_ptr; xt : Z; attr : Z; pfa : Z }.

Definition blank_code : Code := mkCode NullName 0 0 0.

(* typedef enum { STOP=0, HOLD, QUERY, NEST, IO } vm_state; *)
Inductive vm_state := STOP | HOLD | QUERY | NEST | IO.

Definition vm_eqb (a b : vm_state) : bool :=
  match a, b with
  | STOP, STOP | HOLD, HOLD | QUERY, QUERY | NEST, NEST | IO, IO => true
  | _, _ => false
  end.

(** All globals and function-local statics of the translation unit.  [sent]
    collects what the host callback [fout_cb] has received, oldest first;
    [clock] holds the readings that the host's [millis()] will return. *)
Record VMs := mkVM {
  rs      : List Z;          (* List<DU, E4_RS_SZ> rs *)
  ss      : List Z;          (* List<DU, E4_SS_SZ> ss *)
  dict    : List Code;       (* List<Code, E4_DICT_SZ> dict *)
  pmem    : List Z;          (* List<U8, E4_PMEM_SZ> pmem *)
  XT0     : Z;               (* Code::XT0 *)
  IP      : Z;               (* IU IP *)
  VM      : vm_state;
  top     : Z;               (* DU top *)
  compile : bool;
  ucase   : bool;
  base    : option Z;        (* IU *base, as an offset from MEM0; None is the null pointer *)
  dflt    : option Z;        (* IU *dflt *)
  fin     : istream;
  fout    : ostream;
  pad     : string;
  sent    : list string;     (* calls of fout_cb *)
  init    : bool;            (* static bool init, of forth_init *)
  t0      : Z;               (* static long t0, of time_up *)
  clock   : list Z           (* millis() *)
}.

Definition HERE (s : VMs) : Z := idx (pmem s).

(** Field updates. *)
Definition set_rs (x : List Z) (s : VMs) : VMs :=
  mkVM x (ss s) (dict s) (pmem s) (XT0 s) (IP s) (VM s) (top s) (compile s) (ucase s)
       (base s) (dflt s) (fin s) (fout s) (pad s) (sent s) (init s) (t0 s) (clock s).
Definition set_ss (x : List Z) (s : VMs) : VMs :=
  mkVM (rs s) x (dict s) (pmem s) (XT0 s) (IP s) (VM s) (top s) (compile s) (ucase s)
       (base s) (dflt s) (fin s) (fout s) (pad s) (sent s) (init s) (t0 s) (clock s).
Definition set_dict (x : List Code) (s : VMs) : VMs :=
  mkVM (rs s) (ss s) x (pmem s) (XT0 s) (IP s) (VM s) (top s) (compile s) (ucase s)
       (base s) (dflt s) (fin s) (fout s) (pad s) (sent s) (init s) (t0 s) (clock s).
Definition set_pmem (x : List Z) (s : VMs) : VMs :=
  mkVM (rs s) (ss s) (dict s) x (XT0 s) (IP s) (VM s) (top s) (compile s) (ucase s)
       (base s) (dflt s) (fin s) (fout s) (pad s) (sent s) (init s) (t0 s) (clock s).
Definition set_XT0 (x : Z) (s : VMs) : VMs :=
  mkVM (rs s) (ss s) (dict s) (pmem s) x (IP s) (VM s) (top s) (compile s) (ucase s)
       (base s) (dflt s) (fin s) (fout s) (pad s) (sent s) (init s) (t0 s) (clock s).
Definition set_IP (x : Z) (s : VMs) : VMs :=
  mkVM (rs s) (ss s) (dict s) (pmem s) (XT0 s) x (VM s) (top s) (compile s) (ucase s)
       (base s) (dflt s) (fin s) (fout s) (pad s) (sent s) (init s) (t0 s) (clock s).
Definition set_VM (x : vm_state) (s : VMs) : VMs :=
  mkVM (rs s) (ss s) (dict s) (pmem s) (XT0 s) (IP s) x (top s) (compile s) (ucase s)
       (base s) (dflt s) (fin s) (fout s) (pad s) (sent s) (init s) (t0 s) (clock s).
Definition set_top (x : Z) (s : VMs) : VMs :=
  mkVM (rs s) (ss s) (dict s) (pmem s) (XT0 s) (IP s) (VM s) x (compile s) (ucase s)
       (base s) (dflt s) (fin s) (fout s) (pad s) (sent s) (init s) (t0 s) (clock s).
Definition set_compile (x : bool) (s : VMs) : VMs :=
  mkVM (rs s) (ss s) (dict s) (pmem s) (XT0 s) (IP s) (VM s) (top s) x (ucase s)
       (base s) (dflt s) (fin s) (fout s) (pad s) (sent s) (init s) (t0 s) (clock s).
Definition set_ucase (x : bool) (s : VMs) : VMs :=
  mkVM (rs s) (ss s) (dict s) (pmem s) (XT0 s) (IP s) (VM s) (top s) (compile s) x
       (base s) (dflt s) (fin s) (fout s) (pad s) (sent s) (init s) (t0 s) (clock s).
Definition set_base (x : option Z) (s : VMs) : VMs :=
  mkVM (rs s) (ss s) (dict s) (pmem s) (XT0 s) (IP s) (VM s) (top s) (compile s) (ucase s)
       x (dflt s) (fin s) (fout s) (pad s) (sent s) (init s) (t0 s) (clock s).
Definition set_dflt (x : option Z) (s : VMs) : VMs :=
  mkVM (rs s) (ss s) (dict s) (pmem s) (XT0 s) (IP s) (VM s) (top s) (compile s) (ucase s)
       (base s) x (fin s) (fout s) (pad s) (sent s) (init s) (t0 s) (clock s).
Definition set_fin (x : istream) (s : VMs) : VMs :=
  mkVM (rs s) (ss s) (dict s) (pmem s) (XT0 s) (IP s) (VM s) (top s) (compile s) (ucase s)
       (base s) (dflt s) x (fout s) (pad s) (sent s) (init s) (t0 s) (clock s).
Definition set_fout (x : ostream) (s : VMs) : VMs :=
  mkVM (rs s) (ss s) (dict s) (pmem s) (XT0 s) (IP s) (VM s) (top s) (compile s) (ucase s)
       (base s) (dflt s) (fin s) x (pad s) (sent s) (init s) (t0 s) (clock s).
Definition set_pad (x : string) (s : VMs) : VMs :=
  mkVM (rs s) (ss s) (dict s) (pmem s) (XT0 s) (IP s) (VM s) (top s) (compile s) (ucase s)
       (base s) (dflt s) (fin s) (fout s) x (sent s) (init s) (t0 s) (clock s).
Definition set_sent (x : list string) (s : VMs) : VMs :=
  mkVM (rs s) (ss s) (dict s) (pmem s) (XT0 s) (IP s) (VM s) (top s) (compile s) (ucase s)
       (base s) (dflt s) (fin s) (fout s) (pad s) x (init s) (t0 s) (clock s).
Definition set_t0 (x : Z) (s : VMs) : VMs :=
  mkVM (rs s) (ss s) (dict s) (pmem s) (XT0 s) (IP s) (VM s) (top s) (compile s) (ucase s)
       (base s) (dflt s) (fin s) (fout s) (pad s) (sent s) (init s) x (clock s).
Definition set_clock (x : list Z) (s : VMs) : VMs :=
  mkVM (rs s) (ss s) (dict s) (pmem s) (XT0 s) (IP s) (VM s) (top s) (compile s) (ucase s)
       (base s) (dflt s) (fin s) (fout s) (pad s) (sent s) (init s) (t0 s) x.

(** ** The monad of machine actions: state passing with faults *)

Definition M (A : Type) : Type := VMs -> result (A * VMs).

Definition ret {A} (a : A) : M A := fun s => Ok (a, s).
Definition bind {A B} (m : M A) (k : A -> M B) : M B :=
  fun s => match m s with
           | Ok (a, s') => k a s'
           | Err e => Err e
           end.
Definition raise {A} (e : fault) : M A := fun _ => Err e.
Definition undefined {A} (what : string) : M A := raise (Undefined what).
Definition gets {A} (f : VMs -> A) : M A := fun s => Ok (f s, s).
Definition modify (f : VMs -> VMs) : M unit := fun s => Ok (tt, f s).
Definition lift {A} (r : result A) : M A :=
  fun s => match r with Ok a => Ok (a, s) | Err e => Err e end.

Declare Scope vm_scope.
Delimit Scope vm_scope with vm.
Notation "x <- m ;; k" := (bind m (fun x => k))
  (at level 100, m at next level, right associativity) : vm_scope.
Notation "m ;; k" := (bind m (fun _ => k))
  (at level 100, right associativity) : vm_scope.
#[local] Open Scope vm_scope.

(** What a run leaves behind, and what it returns. *)
Definition exec {A} (m : M A) (s : VMs) : result VMs :=
  match m s with Ok (_, s') => Ok s' | Err e => Err e end.
Definition eval {A} (m : M A) (s : VMs) : result A :=
  match m s with Ok (a, _) => Ok a | Err e => Err e end.

Definition nl : string := String (ascii_of_nat 10) EmptyString.
Definition dquote : ascii := ascii_of_nat 34.

(** The view of a [std::string] through [c_str()]: the characters before the
    first NUL. *)
Fixpoint c_str (s : string) : string :=
  match s with
  | EmptyString => EmptyString
  | String c r => if byte_of c =? 0 then EmptyString else String c (c_str r)
  end.

(** The C string that starts a list of bytes; [None] when no NUL ends it. *)
Fixpoint cstr_from (l : list Z) : option string :=
  match l with
  | [] => None
  | b :: r => if b =? 0 then Some EmptyString
              else match cstr_from r with
                   | Some s => Some (String (char_of b) s)
                   | None => None
                   end
  end.

Section Machine.
Context `{cfg : Config}.

(** *** Stacks *)
Definition rs_push (x : Z) : M unit :=
  l <- gets rs;; l' <- lift (Lst.push E4_RS_SZ x l);; modify (set_rs l').
Definition rs_pop : M Z :=
  l <- gets rs;; p <- lift (Lst.pop E4_RS_SZ l);; modify (set_rs (snd p));; ret (fst p).
Definition rs_get (i : Z) : M Z := l <- gets rs;; lift (Lst.get E4_RS_SZ l i).
Definition rs_set (i x : Z) : M unit :=
  l <- gets rs;; l' <- lift (Lst.set E4_RS_SZ l i x);; modify (set_rs l').

Definition ss_push (x : Z) : M unit :=
  l <- gets ss;; l' <- lift (Lst.push E4_SS_SZ x l);; modify (set_ss l').
Definition ss_pop : M Z :=
  l <- gets ss;; p <- lift (Lst.pop E4_SS_SZ l);; modify (set_ss (snd p));; ret (fst p).
Definition ss_get (i : Z) : M Z := l <- gets ss;; lift (Lst.get E4_SS_SZ l i).

(* inline void PUSH(DU v) { ss.push(top); top = v; } *)
Definition PUSH (x : Z) : M unit :=
  t <- gets top;; ss_push t;; modify (set_top (to_DU x)).
(* inline DU POP() { DU n=top; top=ss.pop(); return n; } *)
Definition POP : M Z :=
  n <- gets top;; t <- ss_pop;; modify (set_top t);; ret n.

(** *** Parameter memory *)
Definition pmem_push (b : Z) : M unit :=
  l <- gets pmem;; l' <- lift (Lst.push E4_PMEM_SZ (to_U8 b) l);; modify (set_pmem l').

Fixpoint pmem_push_n (bs : list Z) : M unit :=
  match bs with
  | [] => ret tt
  | b :: r => pmem_push b;; pmem_push_n r
  end.

(* a byte of the array, by absolute offset from MEM0 *)
Definition rd8 (a : Z) : M Z :=
  l <- gets pmem;;
  if Lst.in_range E4_PMEM_SZ a
  then match v l !! Z.to_nat a with
       | Some b => ret b
       | None => undefined "pmem read"
       end
  else undefined "pmem read".
Definition wr8 (a b : Z) : M unit :=
  l <- gets pmem;;
  if Lst.in_range E4_PMEM_SZ a
  then modify (set_pmem (mkList (<[Z.to_nat a := to_U8 b]> (v l)) (idx l)))
  else undefined "pmem write".

(* little-endian IU and DU at a byte offset *)
Definition rd16 (a : Z) : M Z :=
  b0 <- rd8 a;; b1 <- rd8 (a + 1);; ret (b0 + 256 * b1).
Definition wr16 (a x : Z) : M unit :=
  wr8 a (to_IU x);; wr8 (a + 1) (to_IU x / 256).
Definition rd32 (a : Z) : M Z :=
  b0 <- rd8 a;; b1 <- rd8 (a + 1);; b2 <- rd8 (a + 2);; b3 <- rd8 (a + 3);;
  ret (to_DU (b0 + 256 * b1 + 65536 * b2 + 16777216 * b3)).
Definition wr32 (a x : Z) : M unit :=
  wr8 a (UINT x);; wr8 (a + 1) (UINT x / 256);;
  wr8 (a + 2) (UINT x / 65536);; wr8 (a + 3) (UINT x / 16777216).

(* #define MEM(a) (MEM0 + (IU)UINT(a)) *)
Definition MEM (a : Z) : Z := to_IU (UINT a).
(* IGET(ip): the IU at MEM(ip) *)
Definition IGET (ip : Z) : M Z := rd16 (MEM ip).
(* &pmem[a], through List::operator[] *)
Definition pmem_at (a : Z) : M Z := l <- gets pmem;; ret (Lst.slot l a).
(* CELL(a): the DU at &pmem[a] *)
Definition CELL (a : Z) : M Z := p <- pmem_at a;; rd32 p.
Definition CELL_set (a x : Z) : M unit := p <- pmem_at a;; wr32 p x.
(* SETJMP(a): the IU at &pmem[a] becomes HERE *)
Definition SETJMP (a : Z) : M unit := p <- pmem_at a;; h <- gets HERE;; wr16 p h.

(* the C string at a byte offset *)
Definition cstr_at (a : Z) : M string :=
  l <- gets pmem;;
  if Lst.in_range E4_PMEM_SZ a
  then match cstr_from (drop (Z.to_nat a) (v l)) with
       | Some s => ret s
       | None => undefined "unterminated string"
       end
  else undefined "pmem read".

(* void add_iu(IU i) { pmem.push((U8* )&i, sizeof(IU)); } *)
Definition add_iu (i : Z) : M unit :=
  pmem_push_n [to_IU i; to_IU i / 256].
(* void add_du(DU v) { pmem.push((U8* )&v, sizeof(DU)); } *)
Definition add_du (x : Z) : M unit :=
  pmem_push_n [UINT x; UINT x / 256; UINT x / 65536; UINT x / 16777216].
(* int add_str(const char *s) *)
Definition add_str (s : string) : M Z :=
  let sz := STRLEN s in
  pmem_push_n (cstr_bytes s);; ret sz.

(** *** Output *)
Definition fout_str (s : string) : M unit :=
  o <- gets fout;; modify (set_fout (mkOut (obuf o ++ s)%string (obase o))).
Definition fout_setbase (b : Z) : M unit :=
  o <- gets fout;; modify (set_fout (mkOut (obuf o) (setbase b))).
Definition fout_int (n : Z) : M unit :=
  o <- gets fout;; fout_str (fmt_int (obase o) n).
Definition fout_uint (n : Z) : M unit :=
  o <- gets fout;; fout_str (fmt_uint (obase o) n).

(** Modelled from the spec: the macro [ENDL] of [ceforth.h] ends the line
    and hands the buffered output to the host callback [fout_cb], which
    empties the buffer. *)
Definition ENDL : M unit :=
  fout_str nl;;
  o <- gets fout;; q <- gets sent;;
  modify (set_sent (q ++ [obuf o]));;
  modify (set_fout (mkOut EmptyString (obase o))).

(** *** Input *)
(* char *word() { if (!(fin >> pad)) pad.clear(); return (char* )pad.c_str(); } *)
Definition word : M string :=
  i <- gets fin;;
  let (r, i') := extract i in
  modify (set_fin i');;
  modify (set_pad (match r with Some t => t | None => EmptyString end));;
  p <- gets pad;; ret (c_str p).

(* inline char *scan(char c) { getline(fin, pad, c); return (char* )pad.c_str(); } *)
Definition scan (c : ascii) : M string :=
  i <- gets fin;;
  let (r, i') := getline c i in
  modify (set_fin i');;
  p0 <- gets pad;;
  modify (set_pad (match r with Some t => t | None => p0 end));;
  p <- gets pad;; ret (c_str p).

(* *base, *dflt *)
Definition rd_base : M Z :=
  b <- gets base;;
  match b with Some a => rd16 a | None => undefined "null base" end.
Definition wr_base (x : Z) : M unit :=
  b <- gets base;;
  match b with Some a => wr16 a x | None => undefined "null base" end.

(** *** Dictionary *)
Definition dict_get (i : Z) : M Code := l <- gets dict;; lift (Lst.get E4_DICT_SZ l i).
Definition dict_set (i : Z) (c : Code) : M unit :=
  l <- gets dict;; l' <- lift (Lst.set E4_DICT_SZ l i c);; modify (set_dict l').
Definition dict_push (c : Code) : M unit :=
  l <- gets dict;; l' <- lift (Lst.push E4_DICT_SZ c l);; modify (set_dict l').

(* the string a name pointer designates *)
Definition name_str (n : name_ptr) : M string :=
  match n with
  | NullName => undefined "null name"
  | Static s => ret (c_str s)
  | Nfa a => cstr_at a
  end.

(** Modelled from the spec: the attribute tests [IS_UDF(w)] and [IS_IMM(w)]
    of [ceforth.h] look at the flags of [dict[w]]. *)
Definition IS_UDF (w : Z) : M bool :=
  c <- dict_get w;; ret (negb (Z.land (attr c) UDF_ATTR =? 0)).
Definition IS_IMM (w : Z) : M bool :=
  c <- dict_get w;; ret (negb (Z.land (attr c) IMM_ATTR =? 0)).

(** Modelled from the spec: [Code::xtoff()] is the offset of the native
    function from the base [XT0], as an IU. *)
Definition xtoff (c : Code) : M Z := x0 <- gets XT0;; ret (to_IU (xt c - x0)).

(* auto streq = [](const char *s1, const char *s2) { ... } *)
Definition streq (s1 s2 : string) : M bool :=
  u <- gets ucase;; ret (if u then strcasecmp_eq s1 s2 else strcmp_eq s1 s2).

(* for (IU i = dict.idx - 1; !v && i > 0; --i) if (streq(s, dict[i].name)) v = i; *)
Fixpoint find_loop (n : nat) (s : string) : M Z :=
  match n with
  | O => ret 0
  | S k =>
      c <- dict_get (Z.of_nat n);;
      nm <- name_str (name c);;
      e <- streq s nm;;
      if e then ret (Z.of_nat n) else find_loop k s
  end.

Definition find (s : string) : M Z :=
  d <- gets dict;;
  find_loop (Z.to_nat (to_IU (idx d - 1))) s.

(** *** Colon word compiler *)

(* Code op_prim[] = { Code(";", EXIT), Code("nop", NOP), ... } *)
Definition op_prim : list Code :=
  [ mkCode (Static ";") EXIT 0 0;      mkCode (Static "nop") NOP 0 0;
    mkCode (Static "next") NEXT 0 0;   mkCode (Static "loop") LOOP 0 0;
    mkCode (Static "lit") LIT 0 0;     mkCode (Static "var") VAR 0 0;
    mkCode (Static "str") STR 0 0;     mkCode (Static "dotq") DOTQ 0 0;
    mkCode (Static "bran") BRAN 0 0;   mkCode (Static "0bran") ZBRAN 0 0;
    mkCode (Static "vbran") VBRAN 0 0; mkCode (Static "does>") DOES 0 0;
    mkCode (Static "for") FOR 0 0;     mkCode (Static "do") DO 0 0;
    mkCode (Static "key") KEY 0 0 ].

(** Modelled from the spec: the constructor [Code(name, xt, im)] of
    [ceforth.h]; it lowers [XT0] to the smallest function pointer seen, so
    that [XT0] is the fixed base of the offsets. *)
Definition new_Code (n : name_ptr) (fp : Z) (im : bool) : M Code :=
  x0 <- gets XT0;;
  (if fp <? x0 then modify (set_XT0 fp) else ret tt);;
  ret (mkCode n fp (if im then IMM_ATTR else 0) 0).

(** [(FPTR)~0], a pointer with all bits set. *)
Definition FPTR_ones : Z := 18446744073709551615.

Definition colon (nm : string) : M unit :=
  nfa <- gets HERE;;                          (* char *nfa = (char* )&pmem[HERE] *)
  pmem_push_n (cstr_bytes nm);;               (* pmem.push((U8* )name, sz) *)
  c <- new_Code (Nfa nfa) FPTR_ones false;;   (* Code c(nfa, (FPTR)~0, false) *)
  h <- gets HERE;;
  dict_push (mkCode (name c) (xt c) UDF_ATTR (to_IU h)).

Definition add_w (w : Z) : M unit :=
  c <- (if IS_PRIM w
        then match op_prim !! Z.to_nat (not_EXT_FLAG w) with
             | Some c => ret c
             | None => undefined "op_prim index"
             end
        else dict_get w);;
  ip <- (if has_EXT_FLAG w then ret (to_IU (xt c))
         else if negb (Z.land (attr c) UDF_ATTR =? 0)
              then ret (Z.lor (pfa c) EXT_FLAG)
              else xtoff c);;
  add_iu ip.

Definition add_var (op : Z) : M unit :=
  add_w op;;
  (if op =? VBRAN then add_iu 0 else ret tt);;
  (if DO_WASM
   then l <- gets pmem;; modify (set_pmem (mkList (v l) (DALIGN (idx l))))
   else ret tt);;
  (if op =? VAR then add_du DU0 else ret tt).

Definition def_word (nm : string) : M Z :=
  if is_empty nm then fout_str " name?";; ENDL;; ret 0
  else
    w <- find nm;;
    (if negb (w =? 0) then fout_str nm;; fout_str " reDef? ";; ENDL else ret tt);;
    colon nm;;
    ret 1.

(** *** Inner interpreter *)

(* #define UNNEST() (VM = (IP=UINT(rs.pop())) ? HOLD : STOP) *)
Definition UNNEST : M unit :=
  r <- rs_pop;;
  let ip := to_IU (UINT r) in
  modify (set_IP ip);;
  modify (set_VM (if ip =? 0 then STOP else HOLD)).

Definition IP_add (n : Z) : M unit := ip <- gets IP;; modify (set_IP (to_IU (ip + n))).
Definition IP_jump : M unit := ip <- gets IP;; t <- IGET ip;; modify (set_IP t).

(** The host's [key()] only notifies the host; it leaves the machine state
    as it is. *)
Definition key : M unit := ret tt.

(* LAST: dict[dict.idx-1] *)
Definition LAST : M Code := d <- gets dict;; dict_get (idx d - 1).

(** One turn of the loop of [nest]: fetch, advance, dispatch.  [exec_xt] is
    [Code::exec], the call of the native function at [XT0 + ix].  The traces
    that [nest], [CALL] and [forth_vm] print with [printf] and [rs_dump] go
    to the standard output of the host, not to [fout], and change nothing:
    they are left out. *)
Definition nest_step (exec_xt : Z -> M unit) : M unit :=
  ip <- gets IP;;
  ix <- IGET ip;;
  IP_add IU_SZ;;
  if ix =? EXIT then UNNEST
  else if ix =? NOP then ret tt
  else if ix =? NEXT then
    r <- rs_get (-1);;
    let r' := to_DU (r - DU1) in
    rs_set (-1) r';;
    if r' >? - DU1 then IP_jump
    else rs_pop;; IP_add IU_SZ
  else if ix =? LOOP then
    r <- rs_get (-1);;
    let r' := to_DU (r + DU1) in
    rs_set (-1) r';;
    lim <- rs_get (-2);;
    if lim >? r' then IP_jump
    else rs_pop;; rs_pop;; IP_add IU_SZ
  else if ix =? LIT then
    t <- gets top;; ss_push t;;
    ip <- gets IP;; x <- rd32 (MEM ip);;
    modify (set_top x);;
    IP_add DU_SZ
  else if ix =? VAR then
    ip <- gets IP;; PUSH (DALIGN ip);; UNNEST
  else if ix =? STR then
    ip <- gets IP;; s <- cstr_at (MEM ip);;
    let len := to_IU (STRLEN s) in
    PUSH ip;; PUSH len;; IP_add len
  else if ix =? DOTQ then
    ip <- gets IP;; s <- cstr_at (MEM ip);;
    fout_str s;; IP_add (STRLEN s)
  else if ix =? BRAN then IP_jump
  else if ix =? ZBRAN then
    f <- POP;;
    if negb (f =? 0) then IP_add IU_SZ else IP_jump
  else if ix =? VBRAN then
    ip <- gets IP;; PUSH (DALIGN (ip + IU_SZ));;
    IP_jump;;
    ip' <- gets IP;;
    if ip' =? 0 then UNNEST else ret tt
  else if ix =? DOES then
    c <- LAST;;
    ip <- gets IP;;
    wr16 (MEM (pfa c) + IU_SZ) ip;;
    UNNEST
  else if ix =? FOR then x <- POP;; rs_push x
  else if ix =? DO then
    x <- ss_pop;; rs_push x;; y <- POP;; rs_push y
  else if ix =? KEY then key;; modify (set_VM IO)
  else if has_EXT_FLAG ix then
    ip <- gets IP;; rs_push ip;; modify (set_IP (not_EXT_FLAG ix))
  else exec_xt ix.

(* while (VM==NEST && IP) { ... } *)
Fixpoint nest_loop (exec_xt : Z -> M unit) (fuel : nat) : M unit :=
  match fuel with
  | O => raise OutOfFuel
  | S f =>
      vm <- gets VM;; ip <- gets IP;;
      if vm_eqb vm NEST && negb (ip =? 0)
      then nest_step exec_xt;; nest_loop exec_xt f
      else ret tt
  end.

Definition nest (exec_xt : Z -> M unit) (fuel : nat) : M unit :=
  modify (set_VM NEST);; nest_loop exec_xt fuel.

(** *** IO and debug functions *)

(* void spaces(int n): n blanks *)
Definition spaces (n : Z) : M unit :=
  fout_str (padded n EmptyString).

Definition s_quote (op : Z) : M unit :=
  t <- scan dquote;;
  match t with
  | EmptyString => undefined "s_quote: nothing scanned"
  | String _ s =>                                (* scan(dquote) + 1 *)
      c <- gets compile;;
      if c then add_w op;; add_str s;; ret tt
      else
        h <- gets HERE;;
        let h0 := to_IU h in                       (* IU h0 = HERE *)
        len <- add_str s;;
        PUSH h0;;
        PUSH len;;
        l <- gets pmem;; modify (set_pmem (mkList (v l) h0))   (* HERE = h0 *)
  end.

(** Modelled from the spec: the arithmetic macros of [ceforth.h] ([MOD],
    [ABS], and [GT], [LT], [EQ], [ZEQ], written with the comparisons of [Z]
    below) are those of C++ on integers.  Division and remainder truncate; a
    zero divisor and the overflowing quotient are outside the defined
    behaviour. *)
Definition cdiv (lo hi n d : Z) : M Z :=
  if d =? 0 then undefined "division by zero"
  else let q := Z.quot n d in
       if (lo <=? q) && (q <=? hi) then ret q else undefined "division overflow".
Definition cmod (n d : Z) : M Z :=
  if d =? 0 then undefined "division by zero" else ret (Z.rem n d).
Definition DU_MIN : Z := -2147483648.
Definition DU_MAX : Z := 2147483647.
Definition DU2_MIN : Z := -9223372036854775808.
Definition DU2_MAX : Z := 9223372036854775807.
Definition ABS (x : Z) : Z := to_DU (if x <? 0 then - x else x).

(** The lambda [rdx] of [ss_dump]: the digits of [x] in radix [b], written
    backwards into a buffer of 34 characters. *)
Fixpoint rdx_loop (fuel : nat) (b n i : Z) (acc : string) : M (Z * string) :=
  match fuel with
  | O => ret (i, acc)
  | S f =>
      d <- cmod n b;;
      let d := to_U8 d in
      q <- cdiv DU_MIN DU_MAX n b;;
      let acc' := String (digit_char d) acc in
      if negb (q =? 0) && negb (i - 1 =? 0)
      then rdx_loop f b q (i - 1) acc'
      else ret (i - 1, acc')
  end.

Definition rdx (x b : Z) : M string :=
  p <- rdx_loop 33 b (ABS x) 33 EmptyString;;
  if x <? DU0
  then if fst p =? 0 then undefined "rdx buffer"
       else ret (c_str (String "-"%char (snd p)))
  else ret (c_str (snd p)).

Fixpoint ss_dump_loop (n : nat) (i : Z) : M unit :=
  match n with
  | O => ret tt
  | S k =>
      x <- ss_get i;; b <- rd_base;; s <- rdx x b;;
      fout_str s;; fout_str " ";;
      ss_dump_loop k (i + 1)
  end.

Definition ss_dump (forced : bool) : M unit :=
  if DO_WASM && negb forced then fout_str "ok";; ENDL
  else
    t <- gets top;; ss_push t;;
    l <- gets ss;;
    ss_dump_loop (Z.to_nat (idx l)) 0;;
    t' <- ss_pop;; modify (set_top t');;
    fout_str "-> ok";; ENDL.

(** The host clock [millis()]. *)
Definition millis : M Z :=
  c <- gets clock;;
  match c with
  | t :: r => modify (set_clock r);; ret t
  | [] => raise (Host "millis")
  end.

(** *** The built-in words of [dict_compile] *)

Definition CODE (n : string) (body : M unit) : string * bool * M unit := (n, false, body).
Definition IMMD (n : string) (body : M unit) : string * bool * M unit := (n, true, body).

Definition top_is (x : Z) : M unit := modify (set_top (to_DU x)).
Definition host (what : string) : M unit := raise (Host what).
Definition name_with_quote (s : string) : string := (s ++ String dquote EmptyString)%string.

(* IU w = VM==QUERY ? find(word()) : POP(); *)
Definition word_or_pop : M Z :=
  vm <- gets VM;;
  if vm_eqb vm QUERY then s <- word;; find s else x <- POP;; ret (to_IU x).

(* CODE("'", IU w = find(word()); if (w) PUSH(w)); *)
Definition tick : M unit :=
  s <- word;; w <- find s;; if negb (w =? 0) then PUSH w else ret tt.

(* CODE("variable", def_word(word()); add_var(VAR)); *)
Definition variable : M unit :=
  s <- word;; def_word s;; add_var VAR.

(* CODE("create", def_word(word()); add_var(VBRAN)); *)
Definition create : M unit :=
  s <- word;; def_word s;; add_var VBRAN.

(** The table, in the order of the source.  [CALL] is the proxy of the
    inner interpreter, used by [exec].  The printers [words], [see], [dump],
    [dict], [mstat] and the words [rnd], [delay], [included], [JS]/[bye]
    belong to the host side and raise [Host]. *)
Definition builtins (CALL : Z -> M unit) : list (string * bool * M unit) :=
  [ CODE "nul "    (ret tt);
    (* stack ops *)
    CODE "dup"     (t <- gets top;; PUSH t);
    CODE "drop"    (x <- ss_pop;; top_is x);
    CODE "over"    (x <- ss_get (-1);; PUSH x);
    CODE "swap"    (n <- ss_pop;; PUSH n);
    CODE "rot"     (n <- ss_pop;; m <- ss_pop;; ss_push n;; PUSH m);
    CODE "-rot"    (n <- ss_pop;; m <- ss_pop;; PUSH m;; PUSH n);
    CODE "nip"     (ss_pop;; ret tt);
    CODE "pick"    (i <- gets top;; x <- ss_get (- i);; top_is x);
    (* stack ops - double *)
    CODE "2dup"    (x <- ss_get (-1);; PUSH x;; y <- ss_get (-1);; PUSH y);
    CODE "2drop"   (ss_pop;; x <- ss_pop;; top_is x);
    CODE "2over"   (x <- ss_get (-3);; PUSH x;; y <- ss_get (-3);; PUSH y);
    CODE "2swap"   (n <- ss_pop;; m <- ss_pop;; l <- ss_pop;; ss_push n;; PUSH l;; PUSH m);
    CODE "?dup"    (t <- gets top;; if negb (t =? DU0) then PUSH t else ret tt);
    (* ALU ops *)
    CODE "+"       (n <- ss_pop;; t <- gets top;; top_is (t + n));
    CODE "*"       (n <- ss_pop;; t <- gets top;; top_is (t * n));
    CODE "-"       (n <- ss_pop;; t <- gets top;; top_is (n - t));
    CODE "/"       (n <- ss_pop;; t <- gets top;; q <- cdiv DU_MIN DU_MAX n t;; top_is q);
    CODE "mod"     (n <- ss_pop;; t <- gets top;; r <- cmod n t;; top_is r);
    CODE "*/"      (a <- ss_pop;; b <- ss_pop;; t <- gets top;;
                    q <- cdiv DU2_MIN DU2_MAX (a * b) t;; top_is q);
    CODE "/mod"    (n <- ss_pop;; t <- gets top;; m <- cmod n t;; ss_push m;;
                    q <- cdiv DU_MIN DU_MAX n t;; top_is (UINT q));
    CODE "*/mod"   (a <- ss_pop;; b <- ss_pop;; t <- gets top;;
                    m <- cmod (a * b) t;; ss_push (to_DU m);;
                    q <- cdiv DU2_MIN DU2_MAX (a * b) t;; top_is (UINT q));
    CODE "and"     (t <- gets top;; n <- ss_pop;; top_is (Z.land (UINT t) (UINT n)));
    CODE "or"      (t <- gets top;; n <- ss_pop;; top_is (Z.lor (UINT t) (UINT n)));
    CODE "xor"     (t <- gets top;; n <- ss_pop;; top_is (Z.lxor (UINT t) (UINT n)));
    CODE "abs"     (t <- gets top;; top_is (ABS t));
    CODE "negate"  (t <- gets top;; top_is (- t));
    CODE "invert"  (t <- gets top;; top_is (Z.lnot (UINT t)));
    CODE "rshift"  (n <- ss_pop;; t <- gets top;;
                    if UINT t <? 32 then top_is (Z.shiftr (UINT n) (UINT t))
                    else undefined "shift count");
    CODE "lshift"  (n <- ss_pop;; t <- gets top;;
                    if UINT t <? 32 then top_is (Z.shiftl (UINT n) (UINT t))
                    else undefined "shift count");
    CODE "max"     (n <- ss_pop;; t <- gets top;; top_is (if t >? n then t else n));
    CODE "min"     (n <- ss_pop;; t <- gets top;; top_is (if t <? n then t else n));
    CODE "2*"      (t <- gets top;; top_is (t * 2));
    CODE "2/"      (t <- gets top;; top_is (Z.quot t 2));
    CODE "1+"      (t <- gets top;; top_is (t + 1));
    CODE "1-"      (t <- gets top;; top_is (t - 1));
    (* logic ops *)
    CODE "0="      (t <- gets top;; top_is (BOOL (t =? 0)));
    CODE "0<"      (t <- gets top;; top_is (BOOL (t <? DU0)));
    CODE "0>"      (t <- gets top;; top_is (BOOL (t >? DU0)));
    CODE "="       (n <- ss_pop;; t <- gets top;; top_is (BOOL (n =? t)));
    CODE ">"       (n <- ss_pop;; t <- gets top;; top_is (BOOL (n >? t)));
    CODE "<"       (n <- ss_pop;; t <- gets top;; top_is (BOOL (n <? t)));
    CODE "<>"      (n <- ss_pop;; t <- gets top;; top_is (BOOL (negb (n =? t))));
    CODE ">="      (n <- ss_pop;; t <- gets top;; top_is (BOOL (negb (n <? t))));
    CODE "<="      (n <- ss_pop;; t <- gets top;; top_is (BOOL (negb (n >? t))));
    CODE "u<"      (n <- ss_pop;; t <- gets top;; top_is (BOOL (UINT n <? UINT t)));
    CODE "u>"      (n <- ss_pop;; t <- gets top;; top_is (BOOL (UINT n >? UINT t)));
    (* IO ops *)
    CODE "case!"   (x <- POP;; modify (set_ucase (x =? DU0)));
    CODE "base"    (b <- gets base;;
                    match b with Some a => PUSH a | None => undefined "null base" end);
    CODE "decimal" (wr_base 10;; fout_setbase 10);
    CODE "hex"     (wr_base 16;; fout_setbase 16);
    CODE "bl"      (fout_str " ");
    CODE "cr"      ENDL;
    CODE "."       (x <- POP;; fout_int x;; fout_str " ");
    CODE "u."      (x <- POP;; fout_uint (UINT x);; fout_str " ");
    CODE ".r"      (b <- rd_base;; fout_setbase b;; w <- POP;; x <- POP;;
                    o <- gets fout;; fout_str (padded w (fmt_int (obase o) x)));
    CODE "u.r"     (b <- rd_base;; fout_setbase b;; w <- POP;; x <- POP;;
                    o <- gets fout;; fout_str (padded w (fmt_uint (obase o) (UINT x))));
    CODE "type"    (POP;; a <- POP;; s <- cstr_at (MEM a);; fout_str s);
    IMMD "key"     (c <- gets compile;; if c then add_w KEY else key);
    CODE "emit"    (x <- POP;; fout_str (String (char_of x) EmptyString));
    CODE "space"   (spaces 1);
    CODE "spaces"  (n <- POP;; spaces n);
    (* literal ops *)
    CODE "["       (modify (set_compile false));
    CODE "]"       (modify (set_compile true));
    IMMD "("       (scan ")"%char;; ret tt);
    IMMD ".("      (s <- scan ")"%char;; fout_str s);
    IMMD "\"       (scan (ascii_of_nat 10);; ret tt);
    IMMD (name_with_quote "s") (s_quote STR);
    IMMD (name_with_quote ".") (s_quote DOTQ);
    (* branching ops *)
    IMMD "if"      (add_w ZBRAN;; h <- gets HERE;; PUSH h;; add_iu 0);
    IMMD "else"    (add_w BRAN;; h <- gets HERE;; add_iu 0;;
                    a <- POP;; SETJMP a;; PUSH (to_IU h));
    IMMD "then"    (a <- POP;; SETJMP a);
    (* loops *)
    IMMD "begin"   (h <- gets HERE;; PUSH h);
    IMMD "again"   (add_w BRAN;; a <- POP;; add_iu a);
    IMMD "until"   (add_w ZBRAN;; a <- POP;; add_iu a);
    IMMD "while"   (add_w ZBRAN;; h <- gets HERE;; PUSH h;; add_iu 0);
    IMMD "repeat"  (add_w BRAN;; t <- POP;; a <- POP;; add_iu a;; SETJMP (to_IU t));
    (* for...next loops *)
    IMMD "for"     (add_w FOR;; h <- gets HERE;; PUSH h);
    IMMD "next"    (add_w NEXT;; a <- POP;; add_iu a);
    IMMD "aft"     (POP;; add_w BRAN;; h <- gets HERE;; add_iu 0;;
                    h' <- gets HERE;; PUSH h';; PUSH (to_IU h));
    (* do...loop loops *)
    IMMD "do"      (add_w DO;; h <- gets HERE;; PUSH h);
    CODE "i"       (x <- rs_get (-1);; PUSH x);
    CODE "leave"   (rs_pop;; rs_pop;; UNNEST);
    IMMD "loop"    (add_w LOOP;; a <- POP;; add_iu a);
    (* return stack ops *)
    CODE ">r"      (x <- POP;; rs_push x);
    CODE "r>"      (x <- rs_pop;; PUSH x);
    CODE "r@"      (x <- rs_get (-1);; PUSH x);
    (* compiler ops *)
    CODE ":"       (s <- word;; r <- def_word s;; modify (set_compile (negb (r =? 0))));
    IMMD ";"       (add_w EXIT;; modify (set_compile false));
    CODE "exit"    UNNEST;
    CODE "variable" variable;
    CODE "constant" (s <- word;; def_word s;;
                     add_w LIT;; x <- POP;; add_du x;;
                     add_w EXIT);
    IMMD "immediate" (c <- dict_get (-1);;
                      dict_set (-1) (mkCode (name c) (xt c) (Z.lor (attr c) IMM_ATTR) (pfa c)));
    (* metacompiler *)
    CODE "exec"    (w <- POP;; CALL (to_IU w));
    CODE "create"  create;
    IMMD "does>"   (add_w DOES);
    IMMD "to"      (w <- word_or_pop;;
                    if w =? 0 then ret tt
                    else
                      c <- gets compile;;
                      if c then
                        add_w LIT;; add_du w;;
                        t <- find "to";; add_w t
                      else
                        x <- POP;; e <- dict_get w;;
                        wr32 (MEM (pfa e) + IU_SZ) x);
    IMMD "is"      (w <- word_or_pop;;
                    if w =? 0 then ret tt
                    else
                      c <- gets compile;;
                      if c then
                        add_w LIT;; add_du w;;
                        t <- find "is";; add_w t
                      else
                        e <- dict_get w;; x <- POP;; d <- dict_get x;;
                        dict_set x (mkCode (name d) (xt e) (attr d) (pfa d)));
    (* memory access *)
    CODE "@"       (x <- POP;; let w := to_IU (UINT x) in
                    if w <? USER_AREA then y <- IGET w;; PUSH y
                    else y <- CELL w;; PUSH y);
    CODE "!"       (x <- POP;; let w := to_IU (UINT x) in y <- POP;; CELL_set w y);
    CODE ","       (n <- POP;; add_du n);
    CODE "n,"      (x <- POP;; add_iu (to_IU (UINT x)));
    CODE "cells"   (x <- POP;; PUSH (to_IU (UINT x) * DU_SZ));
    CODE "allot"   (x <- POP;; let n := to_IU (UINT x) in
                    pmem_push_n (replicate (Z.to_nat (DU_SZ * ((n + DU_SZ - 1) / DU_SZ))) 0));
    CODE "th"      (x <- POP;; t <- gets top;; top_is (t + to_IU x * DU_SZ));
    CODE "+!"      (x <- POP;; let w := to_IU (UINT x) in
                    y <- POP;; z <- CELL w;; CELL_set w (z + y));
    CODE "?"       (x <- POP;; let w := to_IU (UINT x) in
                    y <- CELL w;; fout_int y;; fout_str " ");
    (* debug ops *)
    CODE "abort"   (modify (set_top (- DU1));;
                    l <- gets ss;; modify (set_ss (Lst.clear 0 l));;
                    r <- gets rs;; modify (set_rs (Lst.clear 0 r)));
    CODE "here"    (h <- gets HERE;; PUSH h);
    CODE "'"       tick;
    CODE ".s"      (ss_dump true);
    CODE "depth"   (l <- gets ss;; PUSH (idx l));
    CODE "r"       (l <- gets rs;; PUSH (idx l));
    CODE "words"   (host "words");
    CODE "see"     (host "see");
    CODE "dump"    (host "dump");
    CODE "dict"    (host "dict_dump");
    CODE "forget"  (s <- word;; w <- find s;;
                    if w =? 0 then ret tt
                    else
                      fb <- find "boot";;
                      let b := to_IU (fb + 1) in
                      if w >? b then
                        c <- dict_get w;; nm <- name_str (name c);;
                        l <- gets pmem;; modify (set_pmem (Lst.clear (pfa c - STRLEN nm) l));;
                        d <- gets dict;; modify (set_dict (Lst.clear w d))
                      else
                        l <- gets pmem;; modify (set_pmem (Lst.clear USER_AREA l));;
                        d <- gets dict;; modify (set_dict (Lst.clear b d)));
    (* OS ops *)
    CODE "mstat"   (host "mem_stat");
    CODE "ms"      (t <- millis;; PUSH t);
    CODE "rnd"     (host "RND");
    CODE "delay"   (host "delay");
    CODE "included" (host "forth_include");
    (if DO_WASM then CODE "JS" (host "native_api") else CODE "bye" (host "exit"));
    CODE "boot"    (fb <- find "boot";;
                    d <- gets dict;; modify (set_dict (Lst.clear (fb + 1) d));;
                    l <- gets pmem;; modify (set_pmem (Lst.clear DU_SZ l))) ].

(** The call of a native function by its pointer; a pointer that is not the
    address of a built-in is outside the defined behaviour. *)
Definition call_xt (CALL : Z -> M unit) (fp : Z) : M unit :=
  if 0 <=? fp
  then match builtins CALL !! Z.to_nat fp with
       | Some e => snd e
       | None => undefined "call of a wild pointer"
       end
  else undefined "call of a wild pointer".

(** Modelled from the spec: [Code::exec(ix)] is the native call of the
    function at [XT0 + ix]. *)
Definition Code_exec (CALL : Z -> M unit) (ix : Z) : M unit :=
  x0 <- gets XT0;; call_xt CALL (x0 + ix).

(** [CALL], the proxy of the inner interpreter.  The fuel bounds the turns
    of every loop of [nest] and the depth of [exec] inside built-ins. *)
Fixpoint CALL (fuel : nat) (w : Z) : M unit :=
  match fuel with
  | O => raise OutOfFuel
  | S f =>
      u <- IS_UDF w;;
      if u then
        rs_push DU0;;
        c <- dict_get w;;
        modify (set_IP (pfa c));;
        nest (Code_exec (CALL f)) f
      else
        c <- dict_get w;;
        call_xt (CALL f) (xt c)
  end.

(** *** Outer interpreter *)

Definition digit_val (c : ascii) : option Z :=
  let b := byte_of c in
  if (48 <=? b) && (b <=? 57) then Some (b - 48)
  else if (97 <=? b) && (b <=? 122) then Some (b - 87)
  else if (65 <=? b) && (b <=? 90) then Some (b - 55)
  else None.

(* the longest run of digits of the radix: value, characters left, digits seen *)
Fixpoint digits_run (b : Z) (s : string) (acc : Z) (seen : bool) : Z * string * bool :=
  match s with
  | String c r =>
      match digit_val c with
      | Some d => if d <? b then digits_run b r (acc * b + d) true else (acc, s, seen)
      | None => (acc, s, seen)
      end
  | EmptyString => (acc, s, seen)
  end.

Definition is_x (c : ascii) : bool := (byte_of c =? 120) || (byte_of c =? 88).
Definition is_hex_digit (c : ascii) : bool :=
  match digit_val c with Some d => d <? 16 | None => false end.

(** [strtol(s, &p, b)] of the C library: the value, what [p] points at, and
    whether [errno] was set. *)
Definition strtol (s : string) (b : Z) : Z * string * bool :=
  if (b <? 0) || (b =? 1) || (36 <? b) then (0, s, true)
  else
    let s1 := skip_ws s in
    let '(neg, s2) :=
      match s1 with
      | String "-"%char r => (true, r)
      | String "+"%char r => (false, r)
      | _ => (false, s1)
      end in
    let '(b', s3) :=
      match s2 with
      | String "0"%char (String x (String h r)) =>
          if ((b =? 0) || (b =? 16)) && is_x x && is_hex_digit h
          then (16, String h r)
          else (if b =? 0 then 8 else b, s2)
      | String "0"%char _ => (if b =? 0 then 8 else b, s2)
      | _ => (if b =? 0 then 10 else b, s2)
      end in
    let '(n, rest, seen) := digits_run b' s3 0 false in
    if seen then
      let x := if neg then - n else n in
      let lo := - 2 ^ (LONG_BITS - 1) in
      let hi := 2 ^ (LONG_BITS - 1) - 1 in
      if x <? lo then (lo, rest, true)
      else if hi <? x then (hi, rest, true)
      else (x, rest, false)
    else (0, s, false).

Definition parse_number (idiom : string) : M (Z * bool) :=
  b0 <- rd_base;;
  let '(b, s) :=
    match idiom with
    | String "%"%char r => (2, r)
    | String "&"%char r => (10, r)
    | String "#"%char r => (10, r)
    | String "$"%char r => (16, r)
    | _ => (b0, idiom)
    end in
  let '(n, p, errno) := strtol s b in
  ret (to_DU n, errno || negb (is_empty p)).

(** [forth_core], aka QUERY: one token. *)
Definition forth_core (fuel : nat) (idiom : string) : M unit :=
  modify (set_VM QUERY);;
  w <- find idiom;;
  if negb (w =? 0) then
    c <- gets compile;;
    imm <- (if c then IS_IMM w else ret false);;     (* compile && !IS_IMM(w) *)
    if c && negb imm then add_w w
    else CALL fuel w
  else
    r <- parse_number idiom;;
    let '(n, err) := r in
    (if err then
       fout_str idiom;; fout_str "? ";; ENDL;;
       modify (set_compile false);;
       modify (set_VM STOP)
     else ret tt);;
    c <- gets compile;;
    if c then add_w LIT;; add_du n
    else PUSH n.

(** *** The external command processor *)

Fixpoint dict_compile_loop (l : list (string * bool * M unit)) (k : Z) : M unit :=
  match l with
  | [] => ret tt
  | e :: r =>
      c <- new_Code (Static (fst (fst e))) k (snd (fst e));;
      dict_push c;;
      dict_compile_loop r (k + 1)
  end.

Definition dict_compile : M unit :=
  dict_compile_loop (builtins (fun _ => ret tt)) 0.

(* for (int i=pmem.idx; i<USER_AREA; i+=sizeof(IU)) add_iu(0xffff); *)
Fixpoint pad_user_area (n : nat) : M unit :=
  match n with
  | O => ret tt
  | S k => add_iu 65535;; pad_user_area k
  end.

Definition forth_init : M unit :=
  i <- gets init;;
  if i then ret tt
  else
    h <- gets HERE;; modify (set_base (Some (MEM h)));;
    add_iu 10;;
    h' <- gets HERE;; modify (set_dflt (Some (MEM h')));;
    add_iu USE_FLOAT;;
    h2 <- gets HERE;;
    pad_user_area (Z.to_nat ((USER_AREA - h2 + IU_SZ - 1) / IU_SZ));;
    dict_compile.

(* auto time_up = []() { static long t0 = 0; long t1 = millis();
                         return (t1 >= t0) ? (t0 = t1 + t0, 1) : 0; }; *)
Definition time_up : M bool :=
  t1 <- millis;;
  z <- gets t0;;
  if t1 >=? z then modify (set_t0 (t1 + z));; ret true else ret false.

Definition is_yield (vm : vm_state) : bool := vm_eqb vm HOLD || vm_eqb vm IO.

(* while (resume || fin >> idiom) { ... } *)
Fixpoint forth_vm_loop (fuel : nat) (n : nat) (resume : bool) : M unit :=
  match n with
  | O => raise OutOfFuel
  | S k =>
      go <- (if resume then ret (Some EmptyString)
             else i <- gets fin;;
                  let (r, i') := extract i in
                  modify (set_fin i');; ret r);;
      match go with
      | None => ret tt
      | Some idiom =>
          (if resume then nest (Code_exec (CALL fuel)) fuel
           else forth_core fuel (c_str idiom));;
          vm <- gets VM;;
          let resume' := vm_eqb vm HOLD in
          up <- (if resume' then time_up else ret false);;
          if resume' && up then ret tt
          else forth_vm_loop fuel k resume'
      end
  end.

(** [forth_vm(line, hook)]: the result is whether the machine yielded. *)
Definition forth_vm (fuel : nat) (line : string) : M bool :=
  vm <- gets VM;;
  let resume := is_yield vm in
  (if resume then r <- rs_pop;; modify (set_IP (to_IU (UINT r)))
   else
     o <- gets fout;; modify (set_fout (mkOut EmptyString (obase o)));;
     modify (set_fin (istream_str (c_str line))));;
  forth_vm_loop fuel fuel resume;;
  vm' <- gets VM;;
  let yield := is_yield vm' in
  c <- gets compile;;
  (if yield then ip <- gets IP;; rs_push ip
   else if negb c then ss_dump false
   else ret tt);;
  ret yield.

End Machine.

(** The machine before [forth_init]: empty containers, [top = -1],
    [VM = QUERY], null [base] and [dflt], [XT0 = ~0].  The cells of the
    containers, which the program leaves uninitialised, are taken as 0. *)
Definition vm0 `{Config} (ticks : list Z) : VMs :=
  {| rs := Lst.new E4_RS_SZ 0;
     ss := Lst.new E4_SS_SZ 0;
     dict := Lst.new E4_DICT_SZ blank_code;
     pmem := Lst.new E4_PMEM_SZ 0;
     XT0 := FPTR_ones;
     IP := 0;
     VM := QUERY;
     top := - DU1;
     compile := false;
     ucase := false;
     base := None;
     dflt := None;
     fin := mkIn EmptyString false false;
     fout := mkOut EmptyString Dec;
     pad := EmptyString;
     sent := [];
     init := false;
     t0 := 0;
     clock := ticks |}.

(** ** Observations and concrete builds *)

(** The parameter stack as [ss_dump] shows it: the live cells of [ss], bottom
    first, then the cached [top]. *)
Definition stack (s : VMs) : list Z := Lst.live (ss s) ++ [top s].

Fixpoint concat_str (l : list string) : string :=
  match l with
  | [] => EmptyString
  | x :: r => (x ++ concat_str r)%string
  end.

(** Everything written to [fout]: what the host callback received, then what
    is still buffered. *)
Definition output (s : VMs) : string := (concat_str (sent s) ++ obuf (fout s))%string.

Fixpoint prefix_of (p s : string) : bool :=
  match p, s with
  | EmptyString, _ => true
  | String a p', String b s' => (byte_of a =? byte_of b) && prefix_of p' s'
  | _, _ => false
  end.

Fixpoint contains (p s : string) : bool :=
  prefix_of p s || match s with
                   | EmptyString => false
                   | String _ s' => contains p s'
                   end.

(** The builds the runs below are stated for: stacks of 32 cells, 400
    dictionary entries, 32 KiB of parameter memory, in the WASM flavour
    (32-bit [long]) or the host flavour (64-bit [long]). *)
Definition build (wasm : bool) : Config :=
  {| E4_RS_SZ := 32; E4_SS_SZ := 32; E4_DICT_SZ := 400; E4_PMEM_SZ := 32768;
     DO_WASM := wasm; LONG_BITS := if wasm then 32 else 64 |}.

Module Run.
Section Build.
Variable wasm : bool.
#[local] Instance cfg : Config := build wasm.

(** Fuel that is enough for every run below. *)
Definition fuel : nat := 200.

(** The machine after [forth_init]. *)
Definition booted : result VMs := exec forth_init (vm0 []).

Definition feed (f : nat) (r : result VMs) (line : string) : result VMs :=
  match r with
  | Ok s => exec (forth_vm f line) s
  | Err e => Err e
  end.

(** The input lines processed one after the other, each by a call of
    [forth_vm] with fuel [f], from the initial state. *)
Definition session (f : nat) (lines : list string) : result VMs :=
  fold_left (feed f) lines booted.

(** The booted machine as a state, and the booted machine with a text
    waiting in the input stream. *)
Definition start : VMs :=
  match booted with Ok s => s | Err _ => vm0 [] end.
Definition reading (txt : string) : VMs := set_fin (istream_str txt) start.

(** The booted machine with a quoted string waiting in the input. *)
Definition quoting : VMs := reading (" hello" ++ String dquote " 1")%string.

(** One token given to [forth_core]. *)
Definition core (idiom : string) (r : result VMs) : result VMs :=
  match r with
  | Ok s => exec (forth_core fuel idiom) s
  | Err e => Err e
  end.

(** [forth_init] called once more. *)
Definition again (r : result VMs) : result VMs :=
  match r with
  | Ok s => exec forth_init s
  | Err e => Err e
  end.

(** The layout of a word made by [create]: the opcode at its pfa, the IU
    just before the target stored behind the opcode, and its data cell. *)
Definition created (nm : string) (r : result VMs) : result (Z * Z * Z) :=
  match r with
  | Ok s =>
      match (w <- find nm;; c <- dict_get w;;
             op <- rd16 (pfa c);; tgt <- rd16 (pfa c + IU_SZ);;
             before <- rd16 (tgt - IU_SZ);;
             cell <- rd32 (DALIGN (pfa c + 2 * IU_SZ));;
             ret (op, before, cell)) s with
      | Ok (x, _) => Ok x
      | Err e => Err e
      end
  | Err e => Err e
  end.
End Build.

Definition ok (r : result VMs) : bool :=
  match r with Ok _ => true | Err _ => false end.

(** The text of a result, for statements about the output. *)
Definition text (r : result VMs) : result string :=
  match r with Ok s => Ok (output s) | Err e => Err e end.

Definition shows (p : string) (r : result VMs) : bool :=
  match r with Ok s => contains p (output s) | Err _ => false end.

Definition stack_of (r : result VMs) : result (list Z) :=
  match r with Ok s => Ok (stack s) | Err e => Err e end.

(** The size of the dictionary, the write offset and the [base] pointer. *)
Definition extent (r : result VMs) : result (Z * Z * option Z) :=
  match r with Ok s => Ok (idx (dict s), HERE s, base s) | Err e => Err e end.

(** The compile flag and the machine state. *)
Definition mode (r : result VMs) : result (bool * vm_state) :=
  match r with Ok s => Ok (compile s, VM s) | Err e => Err e end.
End Run.

(** ** Shapes used by the statements *)

Section Shapes.
Context `{cfg : Config}.

(** The arrays have the capacity of their container. *)
Definition pmem_wf (s : VMs) : Prop := Z.of_nat (length (v (pmem s))) = E4_PMEM_SZ.
Definition ss_wf (s : VMs) : Prop := Z.of_nat (length (v (ss s))) = E4_SS_SZ.
Definition dict_wf (s : VMs) : Prop :=
  Z.of_nat (length (v (dict s))) = E4_DICT_SZ /\ E4_DICT_SZ <= 65536.

(** What bytes pushed at the write offset leave in the array. *)
Definition blit (bs : list Z) (l : List Z) : List Z :=
  mkList (take (Z.to_nat (idx l)) (v l) ++ bs ++ drop (Z.to_nat (idx l) + length bs) (v l))
         (idx l + Z.of_nat (length bs)).

(** Where [add_var(VAR)] leaves the write offset, and what it leaves in
    the array. *)
Definition after_var (h : Z) : Z := (if DO_WASM then DALIGN (h + 2) else h + 2) + 4.

Definition var_image (l : List Z) : List Z :=
  let l1 := blit [5; 128] l in
  blit [0; 0; 0; 0] (if DO_WASM then mkList (v l1) (DALIGN (idx l1)) else l1).

(** The dictionary entry that [colon] makes for a name written at [h]. *)
Definition colon_code (h : Z) (nm : string) : Code :=
  mkCode (Nfa h) FPTR_ones UDF_ATTR (to_IU (h + STRLEN nm)).

(** The token that [fin >> pad] leaves in [pad] ([word] clears [pad] when the
    extraction fails). *)
Definition token_of (r : option string) : string :=
  match r with Some t => t | None => EmptyString end.

Fixpoint has_char (c : ascii) (t : string) : bool :=
  match t with
  | EmptyString => false
  | String a r => (byte_of a =? byte_of c) || has_char c r
  end.

(** [find] only reads the dictionary, the parameter memory and the case flag:
    the same search as a function of these three. *)
Definition name_in (pm : List Z) (n : name_ptr) : result string :=
  match n with
  | NullName => Err (Undefined "null name")
  | Static t => Ok (c_str t)
  | Nfa a =>
      if Lst.in_range E4_PMEM_SZ a
      then match cstr_from (drop (Z.to_nat a) (v pm)) with
           | Some t => Ok t
           | None => Err (Undefined "unterminated string")
           end
      else Err (Undefined "pmem read")
  end.

Fixpoint find_in (d : List Code) (pm : List Z) (uc : bool) (n : nat) (nm : string)
  : result Z :=
  match n with
  | O => Ok 0
  | S k =>
      match Lst.get E4_DICT_SZ d (Z.of_nat n) with
      | Ok c =>
          match name_in pm (name c) with
          | Ok t =>
              if (if uc then strcasecmp_eq nm t else strcmp_eq nm t)
              then Ok (Z.of_nat n)
              else find_in d pm uc k nm
          | Err e => Err e
          end
      | Err e => Err e
      end
  end.

Definition find_pure (d : List Code) (pm : List Z) (uc : bool) (nm : string) : result Z :=
  find_in d pm uc (Z.to_nat (to_IU (idx d - 1))) nm.

Definition with_state {A} (r : result A) (s : VMs) : result (A * VMs) :=
  match r with Ok a => Ok (a, s) | Err e => Err e end.

(** [m2] does whatever [m1] does, wherever [m1] does not fail (by running out
    of fuel or otherwise). *)
Definition extends {A} (m1 m2 : M A) : Prop :=
  forall s r, m1 s = Ok r -> m2 s = Ok r.

End Shapes.

(** ** Further functions of the source, and shapes for their properties *)

Section Further.
Context `{cfg : Config}.

(** [pfa2didx], the reverse lookup of [see]: from a compiled IU back to a
    dictionary index (a primitive stands for itself). *)
Fixpoint pfa2didx_loop (n : nat) (ix p : Z) : M Z :=
  match n with
  | O => ret 0                                         (* not found *)
  | S k =>
      c <- dict_get (Z.of_nat n);;
      if has_EXT_FLAG ix then                          (* colon word? *)
        if pfa c =? p then ret (Z.of_nat n) else pfa2didx_loop k ix p
      else
        x <- xtoff c;;
        if x =? p then ret (Z.of_nat n) else pfa2didx_loop k ix p
  end.

Definition pfa2didx (ix : Z) : M Z :=
  if IS_PRIM ix then ret ix
  else
    d <- gets dict;;
    pfa2didx_loop (Z.to_nat (idx d - 1)) ix (not_EXT_FLAG ix).

(** The body that [dict_compile] registers under a name, as [CODE] and
    [IMMD] give it. *)
Fixpoint body_of (nm : string) (l : list (string * bool * M unit)) : option (M unit) :=
  match l with
  | [] => None
  | e :: r => if String.eqb (fst (fst e)) nm then Some (snd e) else body_of nm r
  end.

Definition builtin (C : Z -> M unit) (nm : string) : M unit :=
  match body_of nm (builtins C) with
  | Some b => b
  | None => undefined "no such built-in"
  end.

(** Whether the dictionary entry [j] carries the name [nm], as [find]
    compares. *)
Definition entry_matches (nm : string) (j : Z) : M bool :=
  c <- dict_get j;; t <- name_str (name c);; streq nm t.

(** Every live dictionary entry has a name, and a name kept in the parameter
    memory is a C string that ends below [HERE]. *)
Definition name_settled (pm : List Z) (c : Code) : bool :=
  match name c with
  | NullName => false
  | Static _ => true
  | Nfa a =>
      (0 <=? a) && (idx pm <=? E4_PMEM_SZ) &&
      match cstr_from (drop (Z.to_nat a) (v pm)) with
      | Some t => a + strlen t <? idx pm
      | None => false
      end
  end.

Definition names_settled (s : VMs) : bool :=
  forallb (name_settled (pmem s)) (Lst.live (dict s)).

(** The state that [colon] leaves: the name written at [HERE], and the new
    entry at the top of the dictionary. *)
Definition after_colon (nm : string) (s : VMs) : VMs :=
  set_dict (mkList (<[Z.to_nat (idx (dict s)) := colon_code (HERE s) nm]> (v (dict s)))
                   (idx (dict s) + 1))
    (set_XT0 (if FPTR_ones <? XT0 s then FPTR_ones else XT0 s)
       (set_pmem (blit (map to_U8 (cstr_bytes nm)) (pmem s)) s)).

(** The return stack has the capacity of its container. *)
Definition rs_wf (s : VMs) : Prop := Z.of_nat (length (v (rs s))) = E4_RS_SZ.

(** A value that a cell holds without wrap-around. *)
Definition in_DU (x : Z) : Prop := -2147483648 <= x <= 2147483647.

(** The writes of [wr16] and [wr32] on the array. *)
Definition poke16 (a x : Z) (l : List Z) : List Z :=
  mkList (<[Z.to_nat (a + 1) := to_U8 (to_IU x / 256)]>
            (<[Z.to_nat a := to_U8 (to_IU x)]> (v l))) (idx l).

Definition poke32 (a x : Z) (l : List Z) : List Z :=
  mkList (<[Z.to_nat (a + 3) := to_U8 (UINT x / 16777216)]>
            (<[Z.to_nat (a + 2) := to_U8 (UINT x / 65536)]>
               (<[Z.to_nat (a + 1) := to_U8 (UINT x / 256)]>
                  (<[Z.to_nat a := to_U8 (UINT x)]> (v l))))) (idx l).

(** A string of digits of a radix: every character is a digit below it. *)
Fixpoint all_digits (b : Z) (t : string) : bool :=
  match t with
  | EmptyString => true
  | String c r =>
      match digit_val c with
      | Some d => (d <? b) && all_digits b r
      | None => false
      end
  end.

End Further.

(** Further concrete states: the machine after some input lines. *)
Module Probe.
Definition after (wasm : bool) (lines : list string) : VMs :=
  match Run.session wasm Run.fuel lines with
  | Ok s => s
  | Err _ => vm0 (H := build wasm) []
  end.

Definition reading (wasm : bool) (lines : list string) (txt : string) : VMs :=
  set_fin (istream_str txt) (after wasm lines).
End Probe.

(** * Properties *)

(** ** Laws of the machine actions *)

Section Laws.
Context `{cfg : Config}.

Lemma str_app_assoc (a b c : string) : ((a ++ b) ++ c = a ++ b ++ c)%string.
Proof. induction a as [|x a IH]; cbn; [reflexivity | rewrite IH; reflexivity]. Qed.

Lemma bind_Ok {A B} (m : M A) (k : A -> M B) s a s1 :
  m s = Ok (a, s1) -> bind m k s = k a s1.
Proof. intros H. unfold bind. rewrite H. reflexivity. Qed.

Lemma in_range_true (N i : Z) : 0 <= i < N -> Lst.in_range N i = true.
Proof.
  intros H. unfold Lst.in_range.
  apply andb_true_iff; split; [apply Z.leb_le | apply Z.ltb_lt]; lia.
Qed.

Lemma to_DU_small (x : Z) : -2147483648 <= x < 2147483648 -> to_DU x = x.
Proof. intros H. unfold to_DU. rewrite Z.mod_small by lia. lia. Qed.

(** *** Alignment *)

Lemma ALIGN4_ge (x : Z) : x <= ALIGN4 x <= x + 3.
Proof.
  unfold ALIGN4.
  assert (E : Z.land (- x) 3 = (- x) mod 4)
    by (change 3 with (Z.ones 2); apply Z.land_ones; lia).
  rewrite E. pose proof (Z.mod_pos_bound (- x) 4). lia.
Qed.

Lemma ALIGN2_ge (x : Z) : x <= ALIGN2 x <= x + 1.
Proof.
  unfold ALIGN2.
  assert (E : Z.land (- x) 1 = (- x) mod 2)
    by (change 1 with (Z.ones 1); apply Z.land_ones; lia).
  rewrite E. pose proof (Z.mod_pos_bound (- x) 2). lia.
Qed.

Lemma DALIGN_ge (x : Z) : x <= DALIGN x <= x + 3.
Proof.
  unfold DALIGN. destruct DO_WASM.
  - apply ALIGN4_ge.
  - pose proof (ALIGN2_ge x). lia.
Qed.

Lemma after_var_gt (h : Z) : h + 6 <= after_var h <= h + 9.
Proof.
  unfold after_var. pose proof (DALIGN_ge (h + 2)). destruct DO_WASM; lia.
Qed.

(** *** Bytes pushed to the parameter memory *)

Lemma pmem_push_n_Ok (bs : list Z) : forall s,
  pmem_wf s ->
  0 <= HERE s ->
  HERE s + Z.of_nat (length bs) <= E4_PMEM_SZ ->
  pmem_push_n bs s = Ok (tt, set_pmem (blit (map to_U8 bs) (pmem s)) s).
Proof.
  induction bs as [|b bs IH]; intros s Hwf H0 Hroom.
  - cbn. unfold ret, blit, set_pmem. cbn.
    rewrite Nat.add_0_r, take_drop, Z.add_0_r.
    destruct s as [? ? ? [pv pi] ? ? ? ? ? ? ? ? ? ? ? ? ? ? ?]; reflexivity.
  - unfold HERE, pmem_wf in *. cbn [length] in Hroom.
    cbn [pmem_push_n]. unfold pmem_push at 1.
    unfold bind at 1. unfold bind at 1. unfold gets at 1. unfold bind at 1.
    unfold lift, Lst.push.
    rewrite in_range_true by lia.
    unfold modify.
    rewrite IH; unfold HERE, pmem_wf; cbn [pmem set_pmem v idx].
    + f_equal. f_equal. unfold set_pmem, blit.
      cbn [pmem rs ss dict XT0 IP VM top compile ucase base dflt fin fout pad sent
           init t0 clock v idx length map].
      f_equal. f_equal.
      * replace (Z.to_nat (idx (pmem s) + 1)) with (S (Z.to_nat (idx (pmem s)))) by lia.
        assert (Hlt : (Z.to_nat (idx (pmem s)) < length (v (pmem s)))%nat) by lia.
        rewrite (take_S_r _ _ (to_U8 b)) by (apply list_lookup_insert_eq; exact Hlt).
        rewrite take_insert_ge by lia.
        rewrite <- app_assoc. cbn [app]. f_equal. f_equal. f_equal.
        rewrite drop_insert_lt by lia. f_equal. lia.
      * lia.
    + rewrite length_insert. exact Hwf.
    + lia.
    + lia.
Qed.

Lemma blit_length (bs : list Z) (l : List Z) :
  0 <= idx l -> (Z.to_nat (idx l) + length bs <= length (v l))%nat ->
  length (v (blit bs l)) = length (v l).
Proof.
  intros H0 H. unfold blit. cbn [v].
  rewrite !length_app, length_take, length_drop. lia.
Qed.

Lemma blit_lookup_lt (bs : list Z) (l : List Z) (i : nat) :
  (i < Z.to_nat (idx l))%nat -> (Z.to_nat (idx l) <= length (v l))%nat ->
  v (blit bs l) !! i = v l !! i.
Proof.
  intros Hi Hl. unfold blit. cbn [v].
  rewrite lookup_app_l by (rewrite length_take; lia).
  apply lookup_take_lt. exact Hi.
Qed.

Lemma blit_lookup_in (bs : list Z) (l : List Z) (k : nat) :
  (k < length bs)%nat -> (Z.to_nat (idx l) <= length (v l))%nat ->
  v (blit bs l) !! (Z.to_nat (idx l) + k)%nat = bs !! k.
Proof.
  intros Hk Hl. unfold blit. cbn [v].
  rewrite lookup_app_r by (rewrite length_take; lia).
  rewrite length_take.
  replace (Z.to_nat (idx l) + k - Z.to_nat (idx l) `min` length (v l))%nat with k by lia.
  apply lookup_app_l. exact Hk.
Qed.

Lemma add_iu_Ok (x : Z) (s : VMs) :
  pmem_wf s -> 0 <= HERE s -> HERE s + 2 <= E4_PMEM_SZ ->
  add_iu x s = Ok (tt, set_pmem (blit [to_U8 (to_IU x); to_U8 (to_IU x / 256)] (pmem s)) s).
Proof. intros. unfold add_iu. rewrite pmem_push_n_Ok; auto. Qed.

Lemma add_du_Ok (x : Z) (s : VMs) :
  pmem_wf s -> 0 <= HERE s -> HERE s + 4 <= E4_PMEM_SZ ->
  add_du x s = Ok (tt, set_pmem (blit [to_U8 (UINT x); to_U8 (UINT x / 256);
                                       to_U8 (UINT x / 65536); to_U8 (UINT x / 16777216)]
                                      (pmem s)) s).
Proof. intros. unfold add_du. rewrite pmem_push_n_Ok; auto. Qed.

Lemma rd8_Ok (a b : Z) (s : VMs) :
  0 <= a < E4_PMEM_SZ -> v (pmem s) !! Z.to_nat a = Some b -> rd8 a s = Ok (b, s).
Proof.
  intros Ha Hb. unfold rd8, bind, gets.
  rewrite in_range_true by exact Ha. rewrite Hb. reflexivity.
Qed.

Lemma rd16_Ok (a b0 b1 : Z) (s : VMs) :
  0 <= a -> a + 1 < E4_PMEM_SZ ->
  v (pmem s) !! Z.to_nat a = Some b0 ->
  v (pmem s) !! Z.to_nat (a + 1) = Some b1 ->
  rd16 a s = Ok (b0 + 256 * b1, s).
Proof.
  intros H0 H1 Hb0 Hb1. unfold rd16.
  rewrite (bind_Ok _ _ _ _ _ (rd8_Ok a b0 s ltac:(lia) Hb0)).
  rewrite (bind_Ok _ _ _ _ _ (rd8_Ok (a + 1) b1 s ltac:(lia) Hb1)).
  reflexivity.
Qed.

Lemma rd32_Ok (a b0 b1 b2 b3 : Z) (s : VMs) :
  0 <= a -> a + 3 < E4_PMEM_SZ ->
  v (pmem s) !! Z.to_nat a = Some b0 ->
  v (pmem s) !! Z.to_nat (a + 1) = Some b1 ->
  v (pmem s) !! Z.to_nat (a + 2) = Some b2 ->
  v (pmem s) !! Z.to_nat (a + 3) = Some b3 ->
  rd32 a s = Ok (to_DU (b0 + 256 * b1 + 65536 * b2 + 16777216 * b3), s).
Proof.
  intros H0 H1 Hb0 Hb1 Hb2 Hb3. unfold rd32.
  rewrite (bind_Ok _ _ _ _ _ (rd8_Ok a b0 s ltac:(lia) Hb0)).
  rewrite (bind_Ok _ _ _ _ _ (rd8_Ok (a + 1) b1 s ltac:(lia) Hb1)).
  rewrite (bind_Ok _ _ _ _ _ (rd8_Ok (a + 2) b2 s ltac:(lia) Hb2)).
  rewrite (bind_Ok _ _ _ _ _ (rd8_Ok (a + 3) b3 s ltac:(lia) Hb3)).
  reflexivity.
Qed.

(** *** Strings in memory *)

Lemma byte_of_range (c : ascii) : 0 <= byte_of c < 256.
Proof. unfold byte_of. pose proof (N_ascii_bounded c). lia. Qed.

Lemma char_of_byte_of (c : ascii) : char_of (byte_of c) = c.
Proof.
  unfold char_of, to_U8. pose proof (byte_of_range c).
  rewrite Z.mod_small by lia. unfold byte_of. rewrite N2Z.id.
  apply ascii_N_embedding.
Qed.

Lemma c_str_ok (t : string) : cstr_ok t = true -> c_str t = t.
Proof.
  induction t as [|c t IH]; cbn; [reflexivity|].
  intros H. apply andb_true_iff in H as [Hc Ht].
  apply negb_true_iff in Hc. rewrite Hc, IH by exact Ht. reflexivity.
Qed.

Lemma cstr_from_bytes (t : string) (r : list Z) :
  cstr_ok t = true ->
  cstr_from (map to_U8 (bytes_of t) ++ 0 :: r) = Some t.
Proof.
  induction t as [|c t IH]; cbn; [reflexivity|].
  intros H. apply andb_true_iff in H as [Hc Ht].
  apply negb_true_iff in Hc.
  pose proof (byte_of_range c).
  assert (E : to_U8 (byte_of c) = byte_of c) by (unfold to_U8; apply Z.mod_small; lia).
  rewrite E, Hc, IH by exact Ht. rewrite char_of_byte_of. reflexivity.
Qed.

Lemma strlen_nonneg (t : string) : 0 <= strlen t.
Proof. unfold strlen. lia. Qed.

Lemma length_bytes_of (t : string) : Z.of_nat (length (bytes_of t)) = strlen t.
Proof.
  unfold strlen. induction t as [|c t IH]; cbn [bytes_of length String.length]; lia.
Qed.

Lemma STRLEN_bounds (t : string) : strlen t + 1 <= STRLEN t <= strlen t + 2.
Proof. unfold STRLEN. pose proof (ALIGN2_ge (strlen t + 1)). lia. Qed.

Lemma length_cstr_bytes (t : string) : Z.of_nat (length (cstr_bytes t)) = STRLEN t.
Proof.
  unfold cstr_bytes. pose proof (STRLEN_bounds t). pose proof (length_bytes_of t).
  rewrite length_app, length_replicate. lia.
Qed.

Lemma cstr_from_cstr_bytes (t : string) (r : list Z) :
  cstr_ok t = true ->
  cstr_from (map to_U8 (cstr_bytes t) ++ r) = Some t.
Proof.
  intros Hok. unfold cstr_bytes. pose proof (STRLEN_bounds t).
  destruct (Z.to_nat (STRLEN t - strlen t)) as [|k] eqn:E; [lia|].
  cbn [replicate]. rewrite map_app. cbn [map]. rewrite <- app_assoc. cbn [app].
  change (to_U8 0) with 0.
  apply cstr_from_bytes. exact Hok.
Qed.

Lemma cstr_at_blit (t : string) (l : List Z) (s : VMs) :
  cstr_ok t = true ->
  0 <= idx l -> idx l < E4_PMEM_SZ -> (Z.to_nat (idx l) <= length (v l))%nat ->
  v (pmem s) = v (blit (map to_U8 (cstr_bytes t)) l) ->
  cstr_at (idx l) s = Ok (t, s).
Proof.
  intros Hok H0 H1 Hl Hv. unfold cstr_at, bind, gets.
  rewrite in_range_true by lia.
  rewrite Hv. unfold blit. cbn [v].
  rewrite drop_app_length' by (rewrite length_take; lia).
  rewrite cstr_from_cstr_bytes by exact Hok. reflexivity.
Qed.

Lemma strcmp_eq_refl (t : string) : strcmp_eq t t = true.
Proof. induction t as [|c t IH]; cbn; [reflexivity|]. rewrite Z.eqb_refl. exact IH. Qed.

Lemma strcasecmp_eq_refl (t : string) : strcasecmp_eq t t = true.
Proof. induction t as [|c t IH]; cbn; [reflexivity|]. rewrite Z.eqb_refl. exact IH. Qed.

(** *** Input and output *)

Lemma word_Ok (s : VMs) :
  word s = Ok (c_str (token_of (fst (extract (fin s)))),
               set_pad (token_of (fst (extract (fin s)))) (set_fin (snd (extract (fin s))) s)).
Proof.
  unfold word, bind, gets, modify, ret, token_of.
  destruct (extract (fin s)) as [r i']. reflexivity.
Qed.

Lemma span_delim_app (c : ascii) (a rest : string) :
  has_char c a = false ->
  span_delim c (a ++ String c rest) = (a, rest, true).
Proof.
  induction a as [|x a IH]; cbn; intros H.
  - rewrite Z.eqb_refl. reflexivity.
  - apply orb_false_iff in H as [Hx Ha]. rewrite Hx, IH by exact Ha. reflexivity.
Qed.

Lemma scan_Ok (c : ascii) (s : VMs) :
  scan c s =
    Ok (c_str (match fst (getline c (fin s)) with Some t => t | None => pad s end),
        set_pad (match fst (getline c (fin s)) with Some t => t | None => pad s end)
          (set_fin (snd (getline c (fin s))) s)).
Proof.
  unfold scan, bind, gets, modify, ret.
  destruct (getline c (fin s)) as [r i']. reflexivity.
Qed.

Lemma fout_str_Ok (t : string) (s : VMs) :
  fout_str t s = Ok (tt, set_fout (mkOut (obuf (fout s) ++ t)%string (obase (fout s))) s).
Proof. reflexivity. Qed.

Lemma ENDL_Ok (s : VMs) :
  ENDL s = Ok (tt, set_fout (mkOut EmptyString (obase (fout s)))
                    (set_sent (sent s ++ [(obuf (fout s) ++ nl)%string]) s)).
Proof. reflexivity. Qed.

Lemma str_app_empty (a : string) : (a ++ "")%string = a.
Proof. induction a as [|x a IH]; cbn; [reflexivity | rewrite IH; reflexivity]. Qed.

Lemma concat_str_snoc (l : list string) (y : string) :
  concat_str (l ++ [y]) = (concat_str l ++ y)%string.
Proof.
  induction l as [|x l IH]; cbn.
  - apply str_app_empty.
  - rewrite IH, str_app_assoc. reflexivity.
Qed.

(** A line handed to the host: the text written so far grows by the line. *)
Lemma output_flushed (s s' : VMs) (x : string) :
  sent s' = (sent s ++ [(obuf (fout s) ++ x)%string])%list ->
  obuf (fout s') = EmptyString ->
  output s' = (output s ++ x)%string.
Proof.
  intros Hs Hb. unfold output. rewrite Hs, Hb, concat_str_snoc.
  rewrite str_app_empty, str_app_assoc. reflexivity.
Qed.

(** *** The parameter stack *)

Lemma ss_push_Ok (x : Z) (s : VMs) :
  0 <= idx (ss s) < E4_SS_SZ ->
  ss_push x s = Ok (tt, set_ss (mkList (<[Z.to_nat (idx (ss s)) := x]> (v (ss s)))
                                       (idx (ss s) + 1)) s).
Proof.
  intros H. unfold ss_push, bind, gets, lift, Lst.push, modify.
  rewrite in_range_true by exact H. reflexivity.
Qed.

Lemma PUSH_Ok (x : Z) (s : VMs) :
  0 <= idx (ss s) < E4_SS_SZ ->
  PUSH x s = Ok (tt, set_top (to_DU x)
                       (set_ss (mkList (<[Z.to_nat (idx (ss s)) := top s]> (v (ss s)))
                                       (idx (ss s) + 1)) s)).
Proof.
  intros H. unfold PUSH.
  rewrite (bind_Ok _ _ _ _ _ eq_refl).
  rewrite (bind_Ok _ _ _ _ _ (ss_push_Ok _ _ H)). reflexivity.
Qed.

Lemma live_push (x : Z) (l : List Z) :
  0 <= idx l -> (Z.to_nat (idx l) < length (v l))%nat ->
  Lst.live (mkList (<[Z.to_nat (idx l) := x]> (v l)) (idx l + 1)) = (Lst.live l ++ [x])%list.
Proof.
  intros H0 Hl. unfold Lst.live. cbn [v idx].
  replace (Z.to_nat (idx l + 1)) with (S (Z.to_nat (idx l))) by lia.
  rewrite (take_S_r _ _ x) by (apply list_lookup_insert_eq; exact Hl).
  rewrite take_insert_ge by lia. reflexivity.
Qed.

(** *** The dictionary *)

Lemma name_str_pure (n : name_ptr) (s : VMs) :
  name_str n s = with_state (name_in (pmem s) n) s.
Proof.
  destruct n as [|t|a]; cbn; try reflexivity.
  unfold cstr_at, bind, gets.
  destruct (Lst.in_range E4_PMEM_SZ a); [|reflexivity].
  destruct (cstr_from _); reflexivity.
Qed.

Lemma find_loop_pure (nm : string) (s : VMs) (n : nat) :
  find_loop n nm s = with_state (find_in (dict s) (pmem s) (ucase s) n nm) s.
Proof.
  induction n as [|k IH]; [reflexivity|].
  cbn [find_loop find_in].
  unfold bind at 1. unfold dict_get. unfold bind at 1. unfold gets at 1. unfold lift.
  destruct (Lst.get E4_DICT_SZ (dict s) (Z.of_nat (S k))) as [c|e]; [|reflexivity].
  unfold bind at 1. rewrite name_str_pure.
  destruct (name_in (pmem s) (name c)) as [t|e]; [|reflexivity].
  cbn [with_state]. unfold bind at 1. unfold streq, bind, gets, ret.
  destruct (if ucase s then strcasecmp_eq nm t else strcmp_eq nm t); [reflexivity|].
  apply IH.
Qed.

Lemma find_is_pure (nm : string) (s : VMs) :
  find nm s = with_state (find_pure (dict s) (pmem s) (ucase s) nm) s.
Proof. unfold find, bind, gets. apply find_loop_pure. Qed.

Lemma find_eval (nm : string) (s : VMs) (w : Z) :
  eval (find nm) s = Ok w -> find nm s = Ok (w, s).
Proof.
  unfold eval. rewrite find_is_pure.
  destruct (find_pure _ _ _ _); cbn [with_state]; intros H; [|discriminate].
  injection H as ->. reflexivity.
Qed.

Lemma rd16_pure (a : Z) (s : VMs) :
  rd16 a s =
    with_state
      (if Lst.in_range E4_PMEM_SZ a && Lst.in_range E4_PMEM_SZ (a + 1)
       then match v (pmem s) !! Z.to_nat a, v (pmem s) !! Z.to_nat (a + 1) with
            | Some b0, Some b1 => Ok (b0 + 256 * b1)
            | _, _ => Err (Undefined "pmem read")
            end
       else Err (Undefined "pmem read")) s.
Proof.
  unfold rd16, rd8. unfold bind, gets, ret, undefined, raise.
  destruct (Lst.in_range E4_PMEM_SZ a); [|reflexivity].
  destruct (v (pmem s) !! Z.to_nat a); cbn [andb].
  - destruct (Lst.in_range E4_PMEM_SZ (a + 1)); [|reflexivity].
    destruct (v (pmem s) !! Z.to_nat (a + 1)); reflexivity.
  - destruct (Lst.in_range E4_PMEM_SZ (a + 1)); [|reflexivity].
    destruct (v (pmem s) !! Z.to_nat (a + 1)); reflexivity.
Qed.

Lemma rd_base_pure (s : VMs) :
  rd_base s =
    with_state
      (match base s with
       | Some a =>
           if Lst.in_range E4_PMEM_SZ a && Lst.in_range E4_PMEM_SZ (a + 1)
           then match v (pmem s) !! Z.to_nat a, v (pmem s) !! Z.to_nat (a + 1) with
                | Some b0, Some b1 => Ok (b0 + 256 * b1)
                | _, _ => Err (Undefined "pmem read")
                end
           else Err (Undefined "pmem read")
       | None => Err (Undefined "null base")
       end) s.
Proof.
  unfold rd_base. unfold bind at 1. unfold gets at 1.
  destruct (base s) as [a|]; [apply rd16_pure | reflexivity].
Qed.

Lemma parse_number_frame (idiom : string) (s s1 : VMs) (r : Z * bool) :
  pmem s1 = pmem s -> base s1 = base s ->
  eval (parse_number idiom) s = Ok r ->
  parse_number idiom s1 = Ok (r, s1).
Proof.
  intros Hp Hb. unfold eval, parse_number.
  unfold bind at 1 2. rewrite (rd_base_pure s), (rd_base_pure s1), Hp, Hb.
  destruct (match base s with Some _ => _ | None => _ end) as [b0|];
    cbn [with_state]; [|discriminate].
  destruct (match idiom with EmptyString => _ | String _ _ => _ end) as [b t].
  destruct (strtol t b) as [[n p] e]. unfold ret.
  intros H. injection H as <-. reflexivity.
Qed.

Lemma find_in_le (d : List Code) (pm : List Z) (uc : bool) (nm : string) (n : nat) (w : Z) :
  find_in d pm uc n nm = Ok w -> 0 <= w <= Z.of_nat n.
Proof.
  induction n as [|k IH]; cbn [find_in]; intros H.
  - injection H as <-. lia.
  - destruct (Lst.get _ _ _); [|discriminate].
    destruct (name_in _ _); [|discriminate].
    destruct (if uc then _ else _).
    + injection H as <-. lia.
    + apply IH in H. lia.
Qed.

Lemma find_in_hit (d : List Code) (pm : List Z) (uc : bool) (n : nat) (nm t : string)
      (c : Code) :
  (0 < n)%nat ->
  Lst.get E4_DICT_SZ d (Z.of_nat n) = Ok c ->
  name_in pm (name c) = Ok t ->
  (if uc then strcasecmp_eq nm t else strcmp_eq nm t) = true ->
  find_in d pm uc n nm = Ok (Z.of_nat n).
Proof.
  intros Hn Hc Ht He. destruct n as [|k]; [lia|].
  cbn [find_in]. rewrite Hc, Ht, He. reflexivity.
Qed.

Lemma dict_push_Ok (c : Code) (s : VMs) :
  0 <= idx (dict s) < E4_DICT_SZ ->
  dict_push c s =
    Ok (tt, set_dict (mkList (<[Z.to_nat (idx (dict s)) := c]> (v (dict s)))
                             (idx (dict s) + 1)) s).
Proof.
  intros H. unfold dict_push, bind, gets, lift, Lst.push, modify.
  rewrite in_range_true by exact H. reflexivity.
Qed.

Lemma new_Code_Ok (n : name_ptr) (fp : Z) (im : bool) (s : VMs) :
  new_Code n fp im s =
    Ok (mkCode n fp (if im then IMM_ATTR else 0) 0,
        set_XT0 (if fp <? XT0 s then fp else XT0 s) s).
Proof.
  unfold new_Code, bind, gets, modify, ret.
  destruct (fp <? XT0 s); [reflexivity|].
  destruct s; reflexivity.
Qed.

Lemma colon_Ok (nm : string) (s : VMs) :
  pmem_wf s -> 0 <= HERE s -> HERE s + STRLEN nm <= E4_PMEM_SZ ->
  0 <= idx (dict s) < E4_DICT_SZ ->
  colon nm s =
    Ok (tt, set_dict (mkList (<[Z.to_nat (idx (dict s)) := colon_code (HERE s) nm]>
                                (v (dict s))) (idx (dict s) + 1))
              (set_XT0 (if FPTR_ones <? XT0 s then FPTR_ones else XT0 s)
                 (set_pmem (blit (map to_U8 (cstr_bytes nm)) (pmem s)) s))).
Proof.
  intros Hwf H0 Hroom Hd.
  pose proof (length_cstr_bytes nm) as Hlen.
  unfold colon.
  rewrite (bind_Ok _ _ _ _ _ eq_refl).
  rewrite (bind_Ok _ _ _ _ _ (pmem_push_n_Ok (cstr_bytes nm) s Hwf H0 ltac:(lia))).
  rewrite (bind_Ok _ _ _ _ _ (new_Code_Ok _ _ _ _)).
  rewrite (bind_Ok _ _ _ _ _ eq_refl).
  rewrite dict_push_Ok by exact Hd.
  unfold colon_code, HERE. cbn [pmem set_pmem set_XT0 idx blit name xt dict XT0].
  rewrite length_map, Hlen. reflexivity.
Qed.

(** *** The header of a variable *)

Lemma add_w_VAR (s : VMs) : add_w VAR s = add_iu VAR s.
Proof. reflexivity. Qed.

Lemma add_var_VAR_Ok (s : VMs) :
  pmem_wf s -> 0 <= HERE s -> after_var (HERE s) <= E4_PMEM_SZ ->
  add_var VAR s = Ok (tt, set_pmem (var_image (pmem s)) s).
Proof.
  intros Hwf H0 Hroom. pose proof (after_var_gt (HERE s)) as Hgt.
  unfold after_var in *. pose proof (DALIGN_ge (HERE s + 2)) as Hal.
  unfold HERE, pmem_wf in *.
  unfold add_var.
  rewrite (bind_Ok _ _ s tt _
             (eq_trans (add_w_VAR s) (add_iu_Ok VAR s Hwf H0 ltac:(unfold HERE; lia)))).
  change (VAR =? VBRAN) with false. change (VAR =? VAR) with true.
  cbv iota. rewrite (bind_Ok _ _ _ tt _ eq_refl).
  change (to_U8 (to_IU VAR)) with 5. change (to_U8 (to_IU VAR `div` 256)) with 128.
  unfold var_image.
  assert (Hlen : length (v (blit [5; 128] (pmem s))) = length (v (pmem s)))
    by (apply blit_length; cbn [length]; lia).
  revert Hroom Hgt. destruct DO_WASM; intros Hroom Hgt.
  - unfold bind at 1. unfold bind at 1. unfold gets, modify.
    cbn [pmem set_pmem].
    rewrite add_du_Ok.
    + reflexivity.
    + unfold pmem_wf. cbn [pmem set_pmem v]. rewrite Hlen. exact Hwf.
    + unfold HERE. cbn [pmem set_pmem v idx blit length].
      replace (idx (pmem s) + Z.of_nat 2) with (idx (pmem s) + 2) by lia. lia.
    + unfold HERE. cbn [pmem set_pmem v idx blit length].
      replace (idx (pmem s) + Z.of_nat 2) with (idx (pmem s) + 2) by lia. lia.
  - unfold bind at 1. unfold ret.
    rewrite add_du_Ok.
    + reflexivity.
    + unfold pmem_wf. cbn [pmem set_pmem]. rewrite Hlen. exact Hwf.
    + unfold HERE. cbn [pmem set_pmem v idx blit length]. lia.
    + unfold HERE. cbn [pmem set_pmem v idx blit length]. lia.
Qed.

Lemma var_image_idx (l : List Z) : idx (var_image l) = after_var (idx l).
Proof.
  unfold var_image, after_var.
  destruct DO_WASM; cbn [idx blit v];
    change (Z.of_nat (length [0; 0; 0; 0])) with 4;
    change (Z.of_nat (length [5; 128])) with 2; reflexivity.
Qed.

Lemma var_image_spec (l : List Z) :
  0 <= idx l -> (Z.to_nat (after_var (idx l)) <= length (v l))%nat ->
  length (v (var_image l)) = length (v l) /\
  v (var_image l) !! Z.to_nat (idx l) = Some 5 /\
  v (var_image l) !! Z.to_nat (idx l + 1) = Some 128 /\
  (forall k, (k < 4)%nat ->
     v (var_image l) !! (Z.to_nat (after_var (idx l) - 4) + k)%nat = Some 0).
Proof.
  intros H0 Hroom. pose proof (after_var_gt (idx l)) as Hgt.
  pose proof (DALIGN_ge (idx l + 2)) as Hal.
  assert (Hlen : length (v (blit [5; 128] l)) = length (v l))
    by (apply blit_length; cbn [length]; lia).
  unfold var_image, after_var in *.
  set (l2 := if DO_WASM then _ else _).
  assert (Hv2 : v l2 = v (blit [5; 128] l)) by (unfold l2; destruct DO_WASM; reflexivity).
  assert (Hi2 : idx l2 = (if DO_WASM then DALIGN (idx l + 2) else idx l + 2)).
  { unfold l2. destruct DO_WASM; cbn [idx blit];
      change (Z.of_nat (length [5; 128])) with 2; reflexivity. }
  assert (Hle : (Z.to_nat (idx l2) + 4 <= length (v l2))%nat) by (rewrite Hv2, Hlen, Hi2; lia).
  split; [|split; [|split]].
  - rewrite blit_length; cbn [length]; [congruence | lia | exact Hle].
  - rewrite blit_lookup_lt by (rewrite ?Hi2; destruct DO_WASM; lia).
    rewrite Hv2.
    replace (Z.to_nat (idx l)) with (Z.to_nat (idx l) + 0)%nat at 1 by lia.
    rewrite blit_lookup_in; cbn [length]; [reflexivity | lia | lia].
  - rewrite blit_lookup_lt by (rewrite ?Hi2; destruct DO_WASM; lia).
    rewrite Hv2.
    replace (Z.to_nat (idx l + 1)) with (Z.to_nat (idx l) + 1)%nat by lia.
    rewrite blit_lookup_in; cbn [length]; [reflexivity | lia | lia].
  - intros k Hk.
    replace (Z.to_nat ((if DO_WASM then DALIGN (idx l + 2) else idx l + 2) + 4 - 4))
      with (Z.to_nat (idx l2)) by (rewrite Hi2; f_equal; lia).
    rewrite blit_lookup_in; cbn [length]; [| lia | lia].
    destruct k as [|[|[|[|k]]]]; try reflexivity; lia.
Qed.

(** ** The outer interpreter on a token that is neither a word nor a number *)

(** Whatever the mode: the token is printed with a question mark, the
    compile flag is cleared, the machine is stopped, and then the value that
    [parse_number] returned is pushed all the same, because the error branch
    of [forth_core] falls through to the code for a number. *)
Lemma forth_core_bad_token (fuel : nat) (idiom : string) (n : Z) (s : VMs) :
  eval (find idiom) s = Ok 0 ->
  eval (parse_number idiom) s = Ok (n, true) ->
  ss_wf s -> 0 <= idx (ss s) < E4_SS_SZ ->
  exists s',
    exec (forth_core fuel idiom) s = Ok s' /\
    output s' = (output s ++ idiom ++ "? " ++ nl)%string /\
    compile s' = false /\
    VM s' = STOP /\
    stack s' = (stack s ++ [to_DU n])%list.
Proof.
  intros Hfind0 Hparse0 Hwf Hidx. unfold ss_wf in Hwf.
  set (s1 := set_VM QUERY s) in *.
  assert (Hfind : find idiom s1 = Ok (0, s1)).
  { apply find_eval. unfold eval in *. rewrite find_is_pure in *.
    change (dict s1) with (dict s). change (pmem s1) with (pmem s).
    change (ucase s1) with (ucase s).
    destruct (find_pure _ _ _ _); [exact Hfind0 | discriminate]. }
  assert (Hparse : parse_number idiom s1 = Ok ((n, true), s1)).
  { apply (parse_number_frame idiom s s1); [reflexivity | reflexivity | exact Hparse0]. }
  set (s2 := set_VM STOP (set_compile false
               (set_fout (mkOut EmptyString (obase (fout s)))
                  (set_sent (sent s ++ [(obuf (fout s) ++ idiom ++ "? " ++ nl)%string])%list
                     s1)))).
  set (s' := set_top (to_DU n)
               (set_ss (mkList (<[Z.to_nat (idx (ss s)) := top s]> (v (ss s)))
                               (idx (ss s) + 1)) s2)).
  exists s'.
  assert (Hrun : forth_core fuel idiom s = Ok (tt, s')).
  { unfold forth_core.
    rewrite (bind_Ok _ _ _ _ _ eq_refl). fold s1.
    rewrite (bind_Ok _ _ _ _ _ Hfind). cbn [Z.eqb negb].
    rewrite (bind_Ok _ _ _ _ _ Hparse). cbv iota beta.
    assert (Herr : (fout_str idiom;; fout_str "? ";; ENDL;;
                    modify (set_compile false);; modify (set_VM STOP)) s1 = Ok (tt, s2)).
    { rewrite (bind_Ok _ _ _ _ _ (fout_str_Ok idiom s1)).
      rewrite (bind_Ok _ _ _ _ _ (fout_str_Ok _ _)).
      rewrite (bind_Ok _ _ _ _ _ (ENDL_Ok _)).
      rewrite (bind_Ok _ _ _ _ _ eq_refl).
      unfold modify, s2. cbn [fout set_fout obuf obase sent set_sent set_compile].
      rewrite !str_app_assoc. reflexivity. }
    rewrite (bind_Ok _ _ _ _ _ Herr).
    rewrite (bind_Ok _ _ _ _ _ eq_refl). change (compile s2) with false. cbv iota.
    apply (PUSH_Ok n s2). exact Hidx. }
  split; [unfold exec; rewrite Hrun; reflexivity|].
  split; [apply output_flushed; reflexivity|].
  split; [reflexivity|]. split; [reflexivity|].
  unfold stack. change (top s') with (to_DU n).
  change (ss s') with (mkList (<[Z.to_nat (idx (ss s)) := top s]> (v (ss s))) (idx (ss s) + 1)).
  rewrite live_push by lia. rewrite <- app_assoc. reflexivity.
Qed.

(** ** The quoted string in interpret mode *)

(** C7, as stated: the value pushed behind the address would be the length
    of the string.  For the text [hello] (5 characters) waiting in the input
    stream, [s_quote] in interpret mode pushes the address 16 and then 6: what
    [add_str] returns, the size [STRLEN] of the copy (the characters, the
    NUL, rounded up to IU alignment), in both build flavours. *)
Lemma s_quote_pushes_size_not_length :
  strlen "hello" = 5 /\
  Run.stack_of (exec (s_quote (cfg := build false) STR) (Run.quoting false))
    = Ok [-1; 16; 6] /\
  Run.stack_of (exec (s_quote (cfg := build true) STR) (Run.quoting true))
    = Ok [-1; 16; 6].
Proof. vm_compute. repeat split; reflexivity. Qed.

(** C7, amended.  In interpret mode (compile flag false), with the text [c t]
    and the closing quote waiting in the input stream ([c] is the blank behind
    the word, [t] the string),
    [s_quote] copies [t] with its NUL to the free end of the parameter memory,
    pushes the address of the copy and then its size as the program counts
    it ([STRLEN]: with the NUL, rounded up to IU alignment; not the number of
    characters), and leaves the write offset [HERE] where it was: the copy is
    transient. *)
Theorem s_quote_interpret (op : Z) (c : ascii) (t rest : string) (s : VMs) :
  compile s = false ->
  igood (fin s) = true ->
  ibuf (fin s) = (String c t ++ String dquote rest)%string ->
  has_char dquote (String c t) = false ->
  cstr_ok (String c t) = true ->
  pmem_wf s -> 0 <= HERE s < 65536 -> HERE s + STRLEN t <= E4_PMEM_SZ ->
  ss_wf s -> 0 <= idx (ss s) -> idx (ss s) + 2 <= E4_SS_SZ ->
  exists s',
    exec (s_quote op) s = Ok s' /\
    stack s' = (stack s ++ [HERE s; to_DU (STRLEN t)])%list /\
    HERE s' = HERE s /\
    eval (cstr_at (HERE s)) s' = Ok t /\
    dict s' = dict s /\ output s' = output s.
Proof.
  intros Hc Hgood Hbuf Hdq Hok Hwf Hh Hroom Hswf Hs0 Hs2.
  pose proof (STRLEN_bounds t) as Hsl. pose proof (strlen_nonneg t) as Hsn.
  pose proof (length_cstr_bytes t) as Hlen.
  assert (Hok' : cstr_ok t = true).
  { cbn [cstr_ok] in Hok. apply andb_true_iff in Hok. tauto. }
  assert (Hget : getline dquote (fin s) = (Some (String c t), mkIn rest false false)).
  { unfold getline. rewrite Hgood, Hbuf, span_delim_app by exact Hdq. reflexivity. }
  set (s1 := set_pad (String c t) (set_fin (mkIn rest false false) s)).
  assert (Hscan : scan dquote s = Ok (String c t, s1)).
  { rewrite scan_Ok, Hget. cbn [fst snd]. rewrite c_str_ok by exact Hok. reflexivity. }
  set (s2 := set_pmem (blit (map to_U8 (cstr_bytes t)) (pmem s)) s1).
  assert (Hadd : add_str t s1 = Ok (STRLEN t, s2)).
  { assert (H1 : 0 <= HERE s1) by (change (HERE s1) with (HERE s); lia).
    assert (H2 : HERE s1 + Z.of_nat (length (cstr_bytes t)) <= E4_PMEM_SZ)
      by (change (HERE s1) with (HERE s); lia).
    unfold add_str.
    rewrite (bind_Ok _ _ _ _ _ (pmem_push_n_Ok (cstr_bytes t) s1 Hwf H1 H2)).
    reflexivity. }
  unfold pmem_wf, ss_wf, HERE in *.
  assert (Hih : to_IU (idx (pmem s)) = idx (pmem s))
    by (unfold to_IU; apply Z.mod_small; lia).
  set (l1 := mkList (<[Z.to_nat (idx (ss s)) := top s]> (v (ss s))) (idx (ss s) + 1)).
  set (l2 := mkList (<[Z.to_nat (idx l1) := to_DU (idx (pmem s))]> (v l1)) (idx l1 + 1)).
  set (s' := set_pmem (mkList (v (blit (map to_U8 (cstr_bytes t)) (pmem s))) (idx (pmem s)))
               (set_top (to_DU (STRLEN t)) (set_ss l2 s2))).
  assert (Hrun : s_quote op s = Ok (tt, s')).
  { unfold s_quote. rewrite (bind_Ok _ _ _ _ _ Hscan).
    rewrite (bind_Ok _ _ _ _ _ eq_refl). change (compile s1) with (compile s). rewrite Hc.
    rewrite (bind_Ok _ _ _ _ _ eq_refl). unfold HERE. change (pmem s1) with (pmem s).
    rewrite Hih.
    rewrite (bind_Ok _ _ _ _ _ Hadd).
    assert (Hp1 : 0 <= idx (ss s2) < E4_SS_SZ) by (change (ss s2) with (ss s); lia).
    rewrite (bind_Ok _ _ _ _ _ (PUSH_Ok _ s2 Hp1)).
    change (ss s2) with (ss s). change (top s2) with (top s). fold l1.
    set (s3 := set_top _ (set_ss l1 s2)).
    assert (Hp2 : 0 <= idx (ss s3) < E4_SS_SZ)
      by (change (idx (ss s3)) with (idx (ss s) + 1); lia).
    rewrite (bind_Ok _ _ _ _ _ (PUSH_Ok _ s3 Hp2)).
    reflexivity. }
  exists s'.
  split; [unfold exec; rewrite Hrun; reflexivity|].
  split.
  { unfold stack. change (ss s') with l2. change (top s') with (to_DU (STRLEN t)).
    unfold l2. rewrite live_push.
    - unfold l1. rewrite live_push by lia.
      rewrite (to_DU_small (idx (pmem s))) by lia.
      rewrite <- !app_assoc. reflexivity.
    - unfold l1. cbn [idx]. lia.
    - unfold l1. cbn [idx v]. rewrite length_insert. lia. }
  split; [reflexivity|].
  split; [|repeat split; reflexivity].
  unfold eval. rewrite (cstr_at_blit t (pmem s) s' Hok'); try lia; reflexivity.
Qed.

(** ** Redefinition *)

(** C8. For every name that [find] already finds (a C string, not empty),
    [def_word] prints the name followed by [ reDef? ], still pushes a new
    dictionary entry, and afterwards [find] returns the index of that new
    entry, which lies above the entry found before: the backward scan meets
    the newer entry first. *)
Theorem redefinition_found_first (nm : string) (w : Z) (s : VMs) :
  is_empty nm = false ->
  cstr_ok nm = true ->
  eval (find nm) s = Ok w ->
  w <> 0 ->
  pmem_wf s -> 0 <= HERE s -> HERE s + STRLEN nm <= E4_PMEM_SZ ->
  dict_wf s -> 0 < idx (dict s) < E4_DICT_SZ ->
  exists s',
    exec (def_word nm) s = Ok s' /\
    output s' = (output s ++ nm ++ " reDef? " ++ nl)%string /\
    idx (dict s') = idx (dict s) + 1 /\
    eval (find nm) s' = Ok (idx (dict s)) /\
    w < idx (dict s).
Proof.
  intros Hne Hok Hfind0 Hw Hwf H0 Hroom [Hdl Hd16] Hidx.
  assert (Hfind : find nm s = Ok (w, s)) by (apply find_eval; exact Hfind0).
  pose proof (STRLEN_bounds nm) as Hsl. pose proof (strlen_nonneg nm) as Hsn.
  set (s3 := set_fout (mkOut EmptyString (obase (fout s)))
               (set_sent (sent s ++ [(obuf (fout s) ++ nm ++ " reDef? " ++ nl)%string])%list s)).
  assert (Hwarn : (fout_str nm;; fout_str " reDef? ";; ENDL) s = Ok (tt, s3)).
  { rewrite (bind_Ok _ _ _ _ _ (fout_str_Ok nm s)).
    rewrite (bind_Ok _ _ _ _ _ (fout_str_Ok _ _)).
    rewrite ENDL_Ok. unfold s3. cbn [fout set_fout obuf obase sent].
    rewrite !str_app_assoc. reflexivity. }
  assert (Hcol := colon_Ok nm s3 Hwf H0 Hroom ltac:(change (dict s3) with (dict s); lia)).
  change (dict s3) with (dict s) in Hcol. change (pmem s3) with (pmem s) in Hcol.
  change (HERE s3) with (HERE s) in Hcol. change (XT0 s3) with (XT0 s) in Hcol.
  set (s' := set_dict _ _) in Hcol.
  exists s'.
  assert (Hrun : def_word nm s = Ok (1, s')).
  { unfold def_word. rewrite Hne.
    rewrite (bind_Ok _ _ _ _ _ Hfind).
    replace (w =? 0) with false by (symmetry; apply Z.eqb_neq; exact Hw).
    cbn [negb].
    rewrite (bind_Ok _ _ _ _ _ Hwarn).
    rewrite (bind_Ok _ _ _ _ _ Hcol). reflexivity. }
  split; [unfold exec; rewrite Hrun; reflexivity|].
  split; [apply output_flushed; reflexivity|]. split; [reflexivity|].
  rewrite find_is_pure in Hfind.
  destruct (find_pure (dict s) (pmem s) (ucase s) nm) as [w1|] eqn:Hfp; [|discriminate].
  cbn [with_state] in Hfind. injection Hfind as ->.
  unfold find_pure in Hfp. apply find_in_le in Hfp.
  unfold to_IU in Hfp. rewrite Z.mod_small in Hfp by lia.
  split; [|lia].
  unfold eval. rewrite find_is_pure. unfold find_pure.
  change (idx (dict s')) with (idx (dict s) + 1).
  replace (idx (dict s) + 1 - 1) with (idx (dict s)) by lia.
  unfold to_IU. rewrite Z.mod_small by lia.
  rewrite (find_in_hit _ _ _ _ nm nm (colon_code (HERE s) nm)).
  - rewrite Z2Nat.id by lia. reflexivity.
  - lia.
  - rewrite Z2Nat.id by lia. unfold Lst.get, Lst.slot.
    replace (idx (dict s) <? 0) with false by (symmetry; apply Z.ltb_ge; lia).
    rewrite in_range_true by lia.
    change (v (dict s'))
      with (<[Z.to_nat (idx (dict s)) := colon_code (HERE s) nm]> (v (dict s))).
    rewrite list_lookup_insert_eq by lia. reflexivity.
  - cbn [name colon_code name_in].
    rewrite in_range_true by (unfold HERE in *; lia).
    change (v (pmem s')) with (v (blit (map to_U8 (cstr_bytes nm)) (pmem s))).
    unfold blit at 1. cbn [v].
    rewrite drop_app_length' by (rewrite length_take; unfold pmem_wf, HERE in *; lia).
    rewrite cstr_from_cstr_bytes by exact Hok. reflexivity.
  - rewrite strcmp_eq_refl, strcasecmp_eq_refl. destruct (ucase s'); reflexivity.
Qed.

(** ** Tick *)

(** C9. For every token behind ['] that [find] does not find, the word
    pushes nothing and prints nothing: the machine is left as it was, stacks,
    dictionary, memory, output and flags included; only the input stream has
    moved past the token, which is now in the token buffer [pad]. *)
Theorem tick_unknown_word (s : VMs) :
  eval (find (c_str (token_of (fst (extract (fin s)))))) s = Ok 0 ->
  exec tick s = Ok (set_pad (token_of (fst (extract (fin s))))
                      (set_fin (snd (extract (fin s))) s)).
Proof.
  intros Hf0. apply find_eval in Hf0 as Hf. unfold exec, tick.
  rewrite (bind_Ok _ _ _ _ _ (word_Ok s)).
  set (s1 := set_pad _ _).
  rewrite find_is_pure in Hf.
  assert (Hf1 : find (c_str (token_of (fst (extract (fin s))))) s1 = Ok (0, s1)).
  { rewrite find_is_pure. change (dict s1) with (dict s). change (pmem s1) with (pmem s).
    change (ucase s1) with (ucase s).
    destruct (find_pure _ _ _ _); [|discriminate].
    cbn [with_state] in *. injection Hf as ->. reflexivity. }
  rewrite (bind_Ok _ _ _ _ _ Hf1). reflexivity.
Qed.

(** ** A variable without a name *)

(** C10. When [variable] runs and no token is left in the input, it prints
    [ name?] and makes no dictionary entry, yet it appends the [VAR] header
    and a zero cell to the parameter memory: [HERE] has advanced although no
    word was created. *)
Theorem variable_without_name (s : VMs) :
  fst (extract (fin s)) = None ->
  pmem_wf s ->
  0 <= HERE s ->
  after_var (HERE s) <= E4_PMEM_SZ ->
  exists s',
    exec variable s = Ok s' /\
    output s' = (output s ++ " name?" ++ nl)%string /\
    dict s' = dict s /\
    HERE s' = after_var (HERE s) /\
    HERE s < HERE s' /\
    eval (rd16 (HERE s)) s' = Ok VAR /\
    eval (rd32 (HERE s' - 4)) s' = Ok DU0.
Proof.
  intros Htok Hwf H0 Hroom.
  pose proof (after_var_gt (HERE s)) as Hgt.
  set (s1 := set_pad EmptyString (set_fin (snd (extract (fin s))) s)).
  set (s2 := set_fout (mkOut EmptyString (obase (fout s)))
               (set_sent (sent s ++ [(obuf (fout s) ++ " name?" ++ nl)%string])%list s1)).
  assert (Hrun : variable s = Ok (tt, set_pmem (var_image (pmem s)) s2)).
  { unfold variable.
    rewrite (bind_Ok _ _ _ _ _ (word_Ok s)). rewrite Htok. cbn [token_of c_str].
    fold s1.
    assert (Hdef : def_word EmptyString s1 = Ok (0, s2)).
    { unfold def_word. cbn [is_empty].
      rewrite (bind_Ok _ _ _ _ _ (fout_str_Ok " name?" s1)).
      rewrite (bind_Ok _ _ _ _ _ (ENDL_Ok _)).
      unfold ret, s2. cbn [fout set_fout obuf obase sent].
      rewrite str_app_assoc. reflexivity. }
    rewrite (bind_Ok _ _ _ _ _ Hdef).
    apply (add_var_VAR_Ok s2); assumption. }
  pose proof (var_image_spec (pmem s) H0
                ltac:(unfold pmem_wf, HERE in *; lia)) as (Hl & Hb0 & Hb1 & Hz).
  exists (set_pmem (var_image (pmem s)) s2).
  split; [unfold exec; rewrite Hrun; reflexivity|].
  split; [apply output_flushed; reflexivity|]. split; [reflexivity|].
  assert (Hh : HERE (set_pmem (var_image (pmem s)) s2) = after_var (HERE s))
    by (unfold HERE; cbn [pmem set_pmem]; apply var_image_idx).
  split; [exact Hh|]. split; [lia|].
  split.
  - change VAR with (5 + 256 * 128). unfold eval.
    rewrite (rd16_Ok _ 5 128); unfold HERE in *; cbn [pmem set_pmem];
      try lia; try assumption; reflexivity.
  - rewrite Hh. change DU0 with (to_DU (0 + 256 * 0 + 65536 * 0 + 16777216 * 0)).
    unfold eval.
    rewrite (rd32_Ok _ 0 0 0 0); [reflexivity | | | | | |];
      unfold HERE in *; cbn [pmem set_pmem]; try lia.
    + specialize (Hz 0%nat ltac:(lia)). rewrite Nat.add_0_r in Hz. exact Hz.
    + specialize (Hz 1%nat ltac:(lia)).
      replace (Z.to_nat (after_var (idx (pmem s)) - 4 + 1))
        with (Z.to_nat (after_var (idx (pmem s)) - 4) + 1)%nat by lia. exact Hz.
    + specialize (Hz 2%nat ltac:(lia)).
      replace (Z.to_nat (after_var (idx (pmem s)) - 4 + 2))
        with (Z.to_nat (after_var (idx (pmem s)) - 4) + 2)%nat by lia. exact Hz.
    + specialize (Hz 3%nat ltac:(lia)).
      replace (Z.to_nat (after_var (idx (pmem s)) - 4 + 3))
        with (Z.to_nat (after_var (idx (pmem s)) - 4) + 3)%nat by lia. exact Hz.
Qed.

(** ** More fuel changes no result *)

Lemma extends_refl {A} (m : M A) : extends m m.
Proof. intros s r H. exact H. Qed.

Lemma extends_bind {A B} (m1 m2 : M A) (k1 k2 : A -> M B) :
  extends m1 m2 -> (forall a, extends (k1 a) (k2 a)) ->
  extends (bind m1 k1) (bind m2 k2).
Proof.
  intros Hm Hk s r. unfold bind.
  destruct (m1 s) as [[a s1]|e] eqn:E; [|discriminate].
  rewrite (Hm _ _ E). apply Hk.
Qed.

Ltac ext :=
  repeat first
    [ apply extends_refl
    | assumption
    | match goal with
      | H : _ |- extends _ _ => solve [apply H]
      end
    | apply extends_bind; [|intro]
    | match goal with
      | |- extends (if ?c then _ else _) (if ?c then _ else _) => destruct c
      | |- extends (match ?c with _ => _ end) (match ?c with _ => _ end) => destruct c
      end ].

Lemma nest_step_extends (E1 E2 : Z -> M unit) :
  (forall ix, extends (E1 ix) (E2 ix)) ->
  extends (nest_step E1) (nest_step E2).
Proof. intros HE. unfold nest_step. ext. Qed.

Lemma nest_loop_extends (E1 E2 : Z -> M unit) :
  (forall ix, extends (E1 ix) (E2 ix)) ->
  forall f1 f2 : nat, (f1 <= f2)%nat ->
  extends (nest_loop E1 f1) (nest_loop E2 f2).
Proof.
  intros HE. induction f1 as [|f1 IH]; intros f2 Hle.
  - intros s r H. discriminate.
  - destruct f2 as [|f2]; [lia|]. cbn [nest_loop].
    pose proof (nest_step_extends E1 E2 HE).
    pose proof (IH f2 ltac:(lia)).
    ext.
Qed.

Lemma builtins_extends (C1 C2 : Z -> M unit) :
  (forall w, extends (C1 w) (C2 w)) ->
  Forall2 (fun e1 e2 => extends (snd e1) (snd e2)) (builtins C1) (builtins C2).
Proof.
  intros HC. unfold builtins. destruct DO_WASM.
  - repeat (constructor; [cbn [snd CODE IMMD]; ext|]). constructor.
  - repeat (constructor; [cbn [snd CODE IMMD]; ext|]). constructor.
Qed.

Lemma call_xt_extends (C1 C2 : Z -> M unit) (fp : Z) :
  (forall w, extends (C1 w) (C2 w)) ->
  extends (call_xt C1 fp) (call_xt C2 fp).
Proof.
  intros HC. unfold call_xt. destruct (0 <=? fp); [|apply extends_refl].
  pose proof (builtins_extends C1 C2 HC) as HF.
  destruct (builtins C1 !! Z.to_nat fp) as [e1|] eqn:E1.
  - destruct (Forall2_lookup_l _ _ _ _ _ HF E1) as (e2 & E2 & He).
    rewrite E2. exact He.
  - intros s r H. discriminate.
Qed.

Lemma Code_exec_extends (C1 C2 : Z -> M unit) (ix : Z) :
  (forall w, extends (C1 w) (C2 w)) ->
  extends (Code_exec C1 ix) (Code_exec C2 ix).
Proof.
  intros HC. unfold Code_exec. apply extends_bind; [apply extends_refl|].
  intros x0. apply call_xt_extends. exact HC.
Qed.

Lemma CALL_extends : forall f1 f2 : nat, (f1 <= f2)%nat ->
  forall w, extends (CALL f1 w) (CALL f2 w).
Proof.
  induction f1 as [|f1 IH]; intros f2 Hle w.
  - intros s r H. discriminate.
  - destruct f2 as [|f2]; [lia|]. cbn [CALL].
    assert (HC : forall w, extends (CALL f1 w) (CALL f2 w)) by (apply IH; lia).
    pose proof (fun ix => Code_exec_extends _ _ ix HC) as HE.
    pose proof (nest_loop_extends _ _ HE f1 f2 ltac:(lia)) as HN.
    pose proof (fun c => call_xt_extends _ _ (xt c) HC) as HX.
    unfold nest. ext.
Qed.

Lemma forth_core_extends (f1 f2 : nat) (idiom : string) :
  (f1 <= f2)%nat -> extends (forth_core f1 idiom) (forth_core f2 idiom).
Proof.
  intros Hle. pose proof (CALL_extends f1 f2 Hle) as HC.
  unfold forth_core. ext.
Qed.

Lemma forth_vm_loop_extends (f1 f2 : nat) :
  (f1 <= f2)%nat ->
  forall n1 n2 : nat, (n1 <= n2)%nat ->
  forall resume, extends (forth_vm_loop f1 n1 resume) (forth_vm_loop f2 n2 resume).
Proof.
  intros Hle. pose proof (CALL_extends f1 f2 Hle) as HC.
  pose proof (fun ix => Code_exec_extends _ _ ix HC) as HE.
  pose proof (nest_loop_extends _ _ HE f1 f2 Hle) as HN.
  pose proof (fun i => forth_core_extends f1 f2 i Hle) as HF.
  induction n1 as [|n1 IH]; intros n2 Hn resume.
  - intros s r H. discriminate.
  - destruct n2 as [|n2]; [lia|]. cbn [forth_vm_loop].
    pose proof (fun r => IH n2 ltac:(lia) r) as IH'.
    unfold nest. ext.
Qed.

Lemma forth_vm_extends (f1 f2 : nat) (line : string) :
  (f1 <= f2)%nat -> extends (forth_vm f1 line) (forth_vm f2 line).
Proof.
  intros Hle. pose proof (forth_vm_loop_extends f1 f2 Hle f1 f2 Hle) as HL.
  unfold forth_vm. ext.
Qed.

End Laws.

(** ** The general theorems at concrete states *)

Ltac crunch :=
  vm_compute; repeat split; first [reflexivity | (intro; discriminate) | idtac].

Lemma s_quote_interpret_witness :
  compile (Run.quoting false) = false /\
  HERE (Run.quoting false) = 16 /\
  exists s',
    exec (s_quote (cfg := build false) STR) (Run.quoting false) = Ok s' /\
    stack s' = (stack (Run.quoting false) ++ [HERE (Run.quoting false); to_DU (STRLEN "hello")])%list /\
    HERE s' = HERE (Run.quoting false) /\
    eval (cstr_at (cfg := build false) (HERE (Run.quoting false))) s' = Ok "hello" /\
    dict s' = dict (Run.quoting false) /\ output s' = output (Run.quoting false).
Proof.
  split; [vm_compute; reflexivity|]. split; [vm_compute; reflexivity|].
  apply (@s_quote_interpret (build false) STR " "%char "hello" " 1" (Run.quoting false));
    crunch.
Defined.

Lemma redefinition_found_first_witness :
  eval (find (cfg := build false) "dup") (Run.start false) = Ok 1 /\
  exists s',
    exec (def_word (cfg := build false) "dup") (Run.start false) = Ok s' /\
    output s' = (output (Run.start false) ++ "dup" ++ " reDef? " ++ nl)%string /\
    idx (dict s') = idx (dict (Run.start false)) + 1 /\
    eval (find (cfg := build false) "dup") s' = Ok (idx (dict (Run.start false))) /\
    1 < idx (dict (Run.start false)).
Proof.
  split; [vm_compute; reflexivity|].
  apply (@redefinition_found_first (build false) "dup" 1 (Run.start false)); crunch.
Defined.

Lemma tick_unknown_word_witness :
  eval (find (cfg := build false) "zz") (Run.reading false "zz 1") = Ok 0 /\
  exec (tick (cfg := build false)) (Run.reading false "zz 1") =
    Ok (set_pad "zz" (set_fin (mkIn " 1" false false) (Run.reading false "zz 1"))).
Proof.
  split; [vm_compute; reflexivity|].
  apply (@tick_unknown_word (build false) (Run.reading false "zz 1")).
  vm_compute; reflexivity.
Defined.

Lemma variable_without_name_witness :
  fst (extract (fin (Run.start true))) = None /\
  exists s',
    exec (variable (cfg := build true)) (Run.start true) = Ok s' /\
    output s' = (output (Run.start true) ++ " name?" ++ nl)%string /\
    dict s' = dict (Run.start true) /\
    HERE s' = after_var (cfg := build true) (HERE (Run.start true)) /\
    HERE (Run.start true) < HERE s' /\
    eval (rd16 (cfg := build true) (HERE (Run.start true))) s' = Ok VAR /\
    eval (rd32 (cfg := build true) (HERE s' - 4)) s' = Ok DU0.
Proof.
  split; [vm_compute; reflexivity|].
  apply (@variable_without_name (build true) (Run.start true)); crunch.
Defined.

(** ** Runs of the outer interpreter from the initial state *)

Lemma feed_failed (wasm : bool) (f : nat) (lines : list string) (e : fault) :
  fold_left (Run.feed wasm f) lines (Err e) = Err e.
Proof. induction lines as [|l lines IH]; [reflexivity | exact IH]. Qed.

Lemma feed_more_fuel (wasm : bool) (f1 f2 : nat) (lines : list string) :
  (f1 <= f2)%nat ->
  forall (r : result VMs) (s : VMs),
    fold_left (Run.feed wasm f1) lines r = Ok s ->
    fold_left (Run.feed wasm f2) lines r = Ok s.
Proof.
  intros Hle. induction lines as [|l lines IH]; intros r s H; [exact H|].
  cbn [fold_left] in *. destruct r as [s0|e].
  - cbn [Run.feed] in *. unfold exec in *.
    destruct (forth_vm (cfg := Run.cfg wasm) f1 l s0) as [[b s1]|e] eqn:E.
    + rewrite (forth_vm_extends (cfg := Run.cfg wasm) f1 f2 l Hle _ _ E).
      apply IH. exact H.
    + rewrite feed_failed in H. discriminate.
  - cbn [Run.feed] in *. rewrite feed_failed in H. discriminate.
Qed.

(** A session that succeeds with the fuel [Run.fuel] gives the same result
    with any larger fuel. *)
Lemma session_any_fuel (wasm : bool) (f : nat) (lines : list string) :
  (Run.fuel <= f)%nat ->
  Run.ok (Run.session wasm Run.fuel lines) = true ->
  Run.session wasm f lines = Run.session wasm Run.fuel lines.
Proof.
  intros Hle Hok. unfold Run.session in *.
  destruct (fold_left (Run.feed wasm Run.fuel) lines (Run.booted wasm)) as [s|e] eqn:E;
    [|discriminate].
  apply (feed_more_fuel wasm Run.fuel f lines Hle). exact E.
Qed.

Ltac by_running wasm :=
  destruct wasm; vm_compute; repeat split; reflexivity.

Ltac by_running_with wasm Hf :=
  repeat split;
  (rewrite (session_any_fuel _ _ _ Hf) by (destruct wasm; vm_compute; reflexivity));
  destruct wasm; vm_compute; reflexivity.

(** C1. The claim: after a token that is neither a word nor a number, the
    rest of the input line is abandoned.  The code sets [VM = STOP] (its
    comment: skip the entire input buffer), but the loop of [forth_vm] does
    not look at it: on the line [foo 7] the token [7] is still read and
    pushed (after the 0 that the bad token itself leaves), and on the line
    [foo : sq dup * ;] the definition behind the bad token is still compiled
    into the dictionary. *)
Theorem rest_of_line_still_processed (wasm : bool) :
  Run.shows "foo? " (Run.session wasm Run.fuel ["foo 7"]) = true /\
  Run.stack_of (Run.session wasm Run.fuel ["foo 7"]) = Ok [-1; 0; 7] /\
  Run.extent (Run.session wasm Run.fuel []) = Ok (125, 16, Some 0) /\
  Run.extent (Run.session wasm Run.fuel ["foo : sq dup * ;"]) = Ok (126, 26, Some 0).
Proof. by_running wasm. Qed.

(** C2. The claim: a token that is not in the dictionary and fails number
    parsing pushes no value.  In interpret mode [forth_core] prints the token
    with [?], resets the compile flag and stops the machine, and then falls
    through to the code for a number: the value that the failed parse
    returned (0 for [foo]) is pushed. *)
Theorem bad_token_pushes_a_value (wasm : bool) :
  Run.stack_of (Run.booted wasm) = Ok [-1] /\
  Run.text (Run.core wasm "foo" (Run.booted wasm)) = Ok ("foo? " ++ nl)%string /\
  Run.mode (Run.core wasm "foo" (Run.booted wasm)) = Ok (false, STOP) /\
  Run.stack_of (Run.core wasm "foo" (Run.booted wasm)) = Ok [-1; 0].
Proof. by_running wasm. Qed.

(** C3, as stated: the line [HEX 255 . DECIMAL 255 .] from the initial state.
    The dictionary holds [hex] and [decimal] in lower case and [find]
    compares with [strcmp] unless [ucase] is set, so the two words are not
    found: the output does not contain [ff 255]. *)
Lemma upper_case_hex_line_prints_no_ff :
  Run.shows "ff 255" (Run.session false Run.fuel ["HEX 255 . DECIMAL 255 ."]) = false /\
  Run.shows "ff 255" (Run.session true Run.fuel ["HEX 255 . DECIMAL 255 ."]) = false /\
  Run.shows "HEX? " (Run.session false Run.fuel ["HEX 255 . DECIMAL 255 ."]) = true /\
  Run.shows "DECIMAL? " (Run.session false Run.fuel ["HEX 255 . DECIMAL 255 ."]) = true.
Proof. vm_compute. repeat split; reflexivity. Qed.

(** C3, amended: with the words spelled as the dictionary has them, the line
    [255 hex . decimal 255 .] prints [ff 255]: 255 is read in decimal, printed
    in hexadecimal as ff, then 255 is read and printed in decimal.  On the
    line [hex 255 . decimal 255 .] the first 255 is read after the radix has
    changed, in base 16, and is printed in hexadecimal as 255: the output
    contains [255 255] and no [ff].  The upper-case spelling behaves the same
    once [0 case!] has made the search case-insensitive.  This holds in both
    build flavours and with any fuel from [Run.fuel] on. *)
Theorem hex_and_decimal_printing (wasm : bool) (f : nat) :
  (Run.fuel <= f)%nat ->
  Run.shows "ff 255 " (Run.session wasm f ["255 hex . decimal 255 ."]) = true /\
  Run.shows "255 255 " (Run.session wasm f ["hex 255 . decimal 255 ."]) = true /\
  Run.shows "ff" (Run.session wasm f ["hex 255 . decimal 255 ."]) = false /\
  Run.shows "ff 255 " (Run.session wasm f ["0 case!"; "255 HEX . DECIMAL 255 ."]) = true /\
  Run.shows "255 255 " (Run.session wasm f ["0 case!"; "HEX 255 . DECIMAL 255 ."]) = true.
Proof. intros Hf. by_running_with wasm Hf. Qed.

Lemma hex_and_decimal_printing_witness :
  (Run.fuel <= Run.fuel)%nat /\
  (Run.shows "ff 255 " (Run.session true Run.fuel ["255 hex . decimal 255 ."]) = true /\
   Run.shows "255 255 " (Run.session true Run.fuel ["hex 255 . decimal 255 ."]) = true /\
   Run.shows "ff" (Run.session true Run.fuel ["hex 255 . decimal 255 ."]) = false /\
   Run.shows "ff 255 " (Run.session true Run.fuel ["0 case!"; "255 HEX . DECIMAL 255 ."]) = true /\
   Run.shows "255 255 " (Run.session true Run.fuel ["0 case!"; "HEX 255 . DECIMAL 255 ."]) = true).
Proof.
  split; [lia|]. apply (hex_and_decimal_printing true Run.fuel). lia.
Defined.

(** C4. The claim: [forth_init] is idempotent.  The guard [if (init) return]
    is there, but [init] is never set: a second call allocates a second pair
    of user cells, moves [base] to it and compiles all built-in words into
    the dictionary once more. *)
Theorem forth_init_twice_differs (wasm : bool) :
  Run.extent (Run.booted wasm) = Ok (125, 16, Some 0) /\
  Run.extent (Run.again wasm (Run.booted wasm)) = Ok (250, 20, Some 16).
Proof. by_running wasm. Qed.

(** C5, as stated: the lines [: CONST CREATE , DOES> @ ;], [99 CONST Z], [Z]
    from the initial state.  [CREATE] and [DOES>] are not found (the
    dictionary has [create] and [does>]): the body of [CONST] refers to
    neither, [Z] is never created and is reported as unknown, and the top of
    the stack is 0, not 99. *)
Lemma upper_case_create_does_leaves_no_99 :
  Run.stack_of (Run.session false Run.fuel [": CONST CREATE , DOES> @ ;"; "99 CONST Z"; "Z"])
    = Ok [-1; 10; 99; 0; 0] /\
  Run.shows "CREATE? " (Run.session false Run.fuel [": CONST CREATE , DOES> @ ;"]) = true /\
  Run.shows "Z? " (Run.session false Run.fuel [": CONST CREATE , DOES> @ ;"; "99 CONST Z"; "Z"]) = true.
Proof. vm_compute. repeat split; reflexivity. Qed.

(** C5, amended: with the built-in words spelled as the dictionary has them
    ([: CONST create , does> @ ;], then [99 CONST Z]), or with the text as
    written once [0 case!] has made the search case-insensitive, executing
    [Z] leaves 99 on top of the parameter stack.  The word [Z] made by
    [create] starts with [VBRAN], the target stored behind it points just
    past the [DOES] opcode in the body of [CONST], and its data cell holds
    99.  This holds in both build flavours and with any fuel from [Run.fuel]
    on. *)
Theorem create_does_constant (wasm : bool) (f : nat) :
  (Run.fuel <= f)%nat ->
  Run.stack_of (Run.session wasm f [": CONST create , does> @ ;"; "99 CONST Z"]) = Ok [-1] /\
  Run.created wasm "Z" (Run.session wasm f [": CONST create , does> @ ;"; "99 CONST Z"])
    = Ok (VBRAN, DOES, 99) /\
  Run.stack_of (Run.session wasm f [": CONST create , does> @ ;"; "99 CONST Z"; "Z"])
    = Ok [-1; 99] /\
  Run.stack_of (Run.session wasm f [": CONST create , does> @ ;  99 CONST Z  Z"])
    = Ok [-1; 99] /\
  Run.stack_of (Run.session wasm f ["0 case!"; ": CONST CREATE , DOES> @ ;"; "99 CONST Z"; "Z"])
    = Ok [-1; 99].
Proof. intros Hf. by_running_with wasm Hf. Qed.

Lemma create_does_constant_witness :
  (Run.fuel <= Run.fuel)%nat /\
  (Run.stack_of (Run.session true Run.fuel [": CONST create , does> @ ;"; "99 CONST Z"]) = Ok [-1] /\
   Run.created true "Z" (Run.session true Run.fuel [": CONST create , does> @ ;"; "99 CONST Z"])
     = Ok (VBRAN, DOES, 99) /\
   Run.stack_of (Run.session true Run.fuel [": CONST create , does> @ ;"; "99 CONST Z"; "Z"])
     = Ok [-1; 99] /\
   Run.stack_of (Run.session true Run.fuel [": CONST create , does> @ ;  99 CONST Z  Z"])
     = Ok [-1; 99] /\
   Run.stack_of (Run.session true Run.fuel ["0 case!"; ": CONST CREATE , DOES> @ ;"; "99 CONST Z"; "Z"])
     = Ok [-1; 99]).
Proof.
  split; [lia|]. apply (create_does_constant true Run.fuel). lia.
Defined.

(** C6, as stated: the lines [: T 5 0 DO I LOOP ;], [T] from the initial
    state.  [DO], [I] and [LOOP] are not found (the dictionary has [do], [i]
    and [loop]); the body of [T] is only the two literals, and executing it
    pushes 5 and 0. *)
Lemma upper_case_do_loop_pushes_5_0 :
  Run.stack_of (Run.session false Run.fuel [": T 5 0 DO I LOOP ;"]) = Ok [-1; 0; 0; 0] /\
  Run.stack_of (Run.session false Run.fuel [": T 5 0 DO I LOOP ;"; "T"]) = Ok [-1; 0; 0; 0; 5; 0] /\
  Run.shows "DO? " (Run.session false Run.fuel [": T 5 0 DO I LOOP ;"]) = true.
Proof. vm_compute. repeat split; reflexivity. Qed.

(** C6, amended: with the built-in words spelled as the dictionary has them
    ([: T 5 0 do i loop ;]), or with the text as written once [0 case!] has
    made the search case-insensitive, executing [T] pushes 0 1 2 3 4 onto the
    parameter stack in that order (the stack holds only the initial -1
    before).  This holds in both build flavours and with any fuel from
    [Run.fuel] on. *)
Theorem do_loop_counts (wasm : bool) (f : nat) :
  (Run.fuel <= f)%nat ->
  Run.stack_of (Run.session wasm f [": T 5 0 do i loop ;"]) = Ok [-1] /\
  Run.stack_of (Run.session wasm f [": T 5 0 do i loop ;"; "T"]) = Ok [-1; 0; 1; 2; 3; 4] /\
  Run.stack_of (Run.session wasm f ["0 case!"; ": T 5 0 DO I LOOP ;"]) = Ok [-1] /\
  Run.stack_of (Run.session wasm f ["0 case!"; ": T 5 0 DO I LOOP ;"; "T"])
    = Ok [-1; 0; 1; 2; 3; 4].
Proof. intros Hf. by_running_with wasm Hf. Qed.

Lemma do_loop_counts_witness :
  (Run.fuel <= Run.fuel)%nat /\
  (Run.stack_of (Run.session false Run.fuel [": T 5 0 do i loop ;"]) = Ok [-1] /\
   Run.stack_of (Run.session false Run.fuel [": T 5 0 do i loop ;"; "T"]) = Ok [-1; 0; 1; 2; 3; 4] /\
   Run.stack_of (Run.session false Run.fuel ["0 case!"; ": T 5 0 DO I LOOP ;"]) = Ok [-1] /\
   Run.stack_of (Run.session false Run.fuel ["0 case!"; ": T 5 0 DO I LOOP ;"; "T"])
     = Ok [-1; 0; 1; 2; 3; 4]).
Proof.
  split; [lia|]. apply (do_loop_counts false Run.fuel). lia.
Defined.

(** * Further properties *)

Section More.
Context `{cfg : Config}.

(** *** The search of the dictionary *)

Lemma eval_bind {A B} (m : M A) (k : A -> M B) s a :
  m s = Ok (a, s) -> eval (bind m k) s = eval (k a) s.
Proof. intros H. unfold eval, bind. rewrite H. reflexivity. Qed.

Lemma entry_matches_pure (nm : string) (j : Z) (s : VMs) :
  eval (entry_matches nm j) s =
    match Lst.get E4_DICT_SZ (dict s) j with
    | Ok c =>
        match name_in (pmem s) (name c) with
        | Ok t => Ok (if ucase s then strcasecmp_eq nm t else strcmp_eq nm t)
        | Err e => Err e
        end
    | Err e => Err e
    end.
Proof.
  unfold eval, entry_matches, dict_get. unfold bind at 1 2. unfold gets at 1. unfold lift.
  destruct (Lst.get E4_DICT_SZ (dict s) j) as [c|e]; [|reflexivity].
  unfold bind at 1. rewrite name_str_pure.
  destruct (name_in (pmem s) (name c)) as [t|e]; [|reflexivity].
  reflexivity.
Qed.

Lemma find_in_spec (d : List Code) (pm : List Z) (uc : bool) (nm : string) (n : nat) (w : Z) :
  find_in d pm uc n nm = Ok w ->
  (w = 0 \/
   (1 <= w <= Z.of_nat n /\
    exists c t, Lst.get E4_DICT_SZ d w = Ok c /\ name_in pm (name c) = Ok t /\
                (if uc then strcasecmp_eq nm t else strcmp_eq nm t) = true)) /\
  (forall j, w < j <= Z.of_nat n ->
     exists c t, Lst.get E4_DICT_SZ d j = Ok c /\ name_in pm (name c) = Ok t /\
                 (if uc then strcasecmp_eq nm t else strcmp_eq nm t) = false).
Proof.
  revert w. induction n as [|k IH]; intros w H; cbn [find_in] in H.
  - injection H as <-. split; [left; reflexivity | intros j Hj; lia].
  - destruct (Lst.get E4_DICT_SZ d (Z.of_nat (S k))) as [c|] eqn:Ec; [|discriminate].
    destruct (name_in pm (name c)) as [t|] eqn:Et; [|discriminate].
    destruct (if uc then strcasecmp_eq nm t else strcmp_eq nm t) eqn:Em.
    + injection H as <-. split.
      * right. split; [lia|]. exists c, t. auto.
      * intros j Hj. lia.
    + destruct (IH w H) as [Hw Hlater]. split.
      * destruct Hw as [-> | (Hr & c' & t' & ?)]; [left; reflexivity|].
        right. split; [lia|]. exists c', t'. assumption.
      * intros j Hj. destruct (Z.eq_dec j (Z.of_nat (S k))) as [->|Hne].
        -- exists c, t. auto.
        -- apply Hlater. lia.
Qed.

(** X1. [find] returns the greatest index, from 1 up to the last entry, whose
    name compares equal to the token, and 0 when there is none: the entry 0
    is never returned for a match, and a later definition hides an earlier
    one of the same name. *)
Theorem find_returns_latest_match (nm : string) (w : Z) (s : VMs) :
  0 < idx (dict s) <= 65536 ->
  eval (find nm) s = Ok w ->
  (w = 0 \/ (0 < w < idx (dict s) /\ eval (entry_matches nm w) s = Ok true)) /\
  (forall j, w < j < idx (dict s) -> eval (entry_matches nm j) s = Ok false).
Proof.
  intros Hidx Hf. unfold eval in Hf. rewrite find_is_pure in Hf.
  destruct (find_pure (dict s) (pmem s) (ucase s) nm) as [w'|] eqn:E; [|discriminate].
  cbn [with_state] in Hf. injection Hf as ->.
  unfold find_pure in E. apply find_in_spec in E as [Hw Hlater].
  assert (Hn : Z.of_nat (Z.to_nat (to_IU (idx (dict s) - 1))) = idx (dict s) - 1).
  { unfold to_IU. rewrite Z.mod_small by lia. lia. }
  rewrite Hn in *. split.
  - destruct Hw as [-> | (Hr & c & t & Hc & Ht & Hm)]; [left; reflexivity|].
    right. split; [lia|]. rewrite entry_matches_pure, Hc, Ht, Hm. reflexivity.
  - intros j Hj. destruct (Hlater j ltac:(lia)) as (c & t & Hc & Ht & Hm).
    rewrite entry_matches_pure, Hc, Ht, Hm. reflexivity.
Qed.

(** *** Case-insensitive search *)

Lemma strcasecmp_eq_trans_l (a b t : string) :
  strcasecmp_eq a b = true -> strcasecmp_eq a t = strcasecmp_eq b t.
Proof.
  revert b t. induction a as [|x a IH]; intros [|y b] [|z t] H; cbn in *;
    try reflexivity; try discriminate.
  apply andb_true_iff in H as [Hx Ha]. apply Z.eqb_eq in Hx.
  rewrite Hx, (IH b t Ha). reflexivity.
Qed.

Lemma find_in_casefold (d : List Code) (pm : List Z) (a b : string) (n : nat) :
  strcasecmp_eq a b = true ->
  find_in d pm true n a = find_in d pm true n b.
Proof.
  intros H. induction n as [|k IH]; [reflexivity|]. cbn [find_in].
  destruct (Lst.get E4_DICT_SZ d (Z.of_nat (S k))) as [c|]; [|reflexivity].
  destruct (name_in pm (name c)) as [t|]; [|reflexivity].
  rewrite (strcasecmp_eq_trans_l a b t H), IH. reflexivity.
Qed.

(** X2. Once [case!] has set [ucase], [find] does not tell two spellings of
    a token apart that differ only in the case of their letters. *)
Theorem find_ignores_case (a b : string) (s : VMs) :
  ucase s = true ->
  strcasecmp_eq a b = true ->
  find a s = find b s.
Proof.
  intros Hu H. rewrite !find_is_pure, Hu. unfold find_pure.
  rewrite (find_in_casefold _ _ a b _ H). reflexivity.
Qed.
End More.

Lemma find_returns_latest_match_witness :
  (125 = 0 \/
   (0 < 125 < idx (dict (Probe.after false [": dup 7 ;"])) /\
    eval (entry_matches (cfg := build false) "dup" 125) (Probe.after false [": dup 7 ;"]) = Ok true)) /\
  (forall j, 125 < j < idx (dict (Probe.after false [": dup 7 ;"])) ->
             eval (entry_matches (cfg := build false) "dup" j) (Probe.after false [": dup 7 ;"]) = Ok false).
Proof.
  apply (@find_returns_latest_match (build false) "dup" 125 (Probe.after false [": dup 7 ;"])); crunch.
Defined.

Lemma find_ignores_case_witness :
  find (cfg := build false) "DUP" (Probe.after false ["0 case!"]) =
  find (cfg := build false) "dup" (Probe.after false ["0 case!"]).
Proof.
  apply (@find_ignores_case (build false) "DUP" "dup" (Probe.after false ["0 case!"])); crunch.
Defined.

Section Fresh.
Context `{cfg : Config}.

Lemma eval_find (x : string) (s : VMs) :
  eval (find x) s = find_pure (dict s) (pmem s) (ucase s) x.
Proof.
  unfold eval. rewrite find_is_pure. destruct (find_pure _ _ _ _); reflexivity.
Qed.

Lemma get_nonneg {A} (N : Z) (l : List A) (j : Z) :
  0 <= j < N ->
  Lst.get N l j = match v l !! Z.to_nat j with
                  | Some t => Ok t
                  | None => Err (Undefined "List index")
                  end.
Proof.
  intros Hj. unfold Lst.get, Lst.slot.
  replace (j <? 0) with false by (symmetry; apply Z.ltb_ge; lia).
  rewrite in_range_true by lia. reflexivity.
Qed.






Lemma name_settled_readable (pm : List Z) (c : Code) :
  name_settled pm c = true -> exists t, name_in pm (name c) = Ok t.
Proof.
  unfold name_settled. destruct (name c) as [|t|a]; intros Hs; [discriminate|eauto|].
  apply andb_true_iff in Hs as [Ha Hs]. apply andb_true_iff in Ha as [Ha Hp].
  apply Z.leb_le in Ha, Hp.
  destruct (cstr_from (drop (Z.to_nat a) (v pm))) as [t|] eqn:Et; [|discriminate].
  apply Z.ltb_lt in Hs. pose proof (strlen_nonneg t).
  exists t. cbn [name_in]. rewrite in_range_true by lia. rewrite Et. reflexivity.
Qed.

Lemma find_in_frame (d d' : List Code) (pm pm' : List Z) (uc : bool) (nm : string) (n : nat) :
  (forall j, 1 <= j <= Z.of_nat n -> Lst.get E4_DICT_SZ d' j = Lst.get E4_DICT_SZ d j) ->
  (forall j c, 1 <= j <= Z.of_nat n -> Lst.get E4_DICT_SZ d j = Ok c ->
               name_in pm' (name c) = name_in pm (name c)) ->
  find_in d' pm' uc n nm = find_in d pm uc n nm.
Proof.
  induction n as [|k IH]; intros Hd Hn; [reflexivity|].
  cbn [find_in]. rewrite Hd by lia.
  destruct (Lst.get E4_DICT_SZ d (Z.of_nat (S k))) as [c|e] eqn:Ec; [|reflexivity].
  assert (Hr : 1 <= Z.of_nat (S k) <= Z.of_nat (S k)) by lia.
  rewrite (Hn _ c Hr Ec).
  destruct (name_in pm (name c)) as [t|e]; [|reflexivity].
  destruct (if uc then _ else _); [reflexivity|].
  apply IH.
  - intros j Hj. apply Hd. lia.
  - intros j c' Hj Hc'. apply (Hn j c'); [lia|exact Hc'].
Qed.

Lemma find_in_total (d : List Code) (pm : List Z) (uc : bool) (nm : string) (n : nat) :
  (forall j, 1 <= j <= Z.of_nat n ->
             exists c t, Lst.get E4_DICT_SZ d j = Ok c /\ name_in pm (name c) = Ok t) ->
  exists w, find_in d pm uc n nm = Ok w.
Proof.
  induction n as [|k IH]; intros H; [exists 0; reflexivity|].
  cbn [find_in].
  destruct (H (Z.of_nat (S k)) ltac:(lia)) as (c & t & -> & ->).
  destruct (if uc then _ else _); [eauto|].
  apply IH. intros j Hj. apply H. lia.
Qed.

(** The search below an entry does not depend on what lies above it. *)
Lemma find_in_below (d : List Code) (pm : List Z) (uc : bool) (nm : string) (n m : nat) (w : Z) :
  find_in d pm uc n nm = Ok w -> (m <= n)%nat -> w <= Z.of_nat m ->
  find_in d pm uc m nm = Ok w.
Proof.
  induction n as [|k IH]; intros H Hm Hw.
  - replace m with 0%nat by lia. exact H.
  - destruct (decide (m = S k)) as [->|Hne]; [exact H|].
    cbn [find_in] in H.
    destruct (Lst.get _ _ _); [|discriminate].
    destruct (name_in _ _); [|discriminate].
    destruct (if uc then _ else _).
    + injection H as <-. lia.
    + apply IH; [exact H|lia|exact Hw].
Qed.

Lemma settled_entry (s : VMs) (j : Z) (c : Code) :
  names_settled s = true ->
  0 <= j < idx (dict s) ->
  Lst.get E4_DICT_SZ (dict s) j = Ok c ->
  name_settled (pmem s) c = true.
Proof.
  intros Hs Hj Hc. unfold names_settled, Lst.live in Hs.
  rewrite forallb_forall in Hs. apply Hs.
  unfold Lst.get, Lst.slot in Hc.
  replace (j <? 0) with false in Hc by (symmetry; apply Z.ltb_ge; lia).
  destruct (Lst.in_range E4_DICT_SZ j); [|discriminate].
  destruct (v (dict s) !! Z.to_nat j) as [c'|] eqn:E; [|discriminate].
  injection Hc as ->.
  apply list_elem_of_In. apply (list_elem_of_lookup_2 _ (Z.to_nat j)).
  rewrite lookup_take_lt by lia. exact E.
Qed.

Lemma find_total (nm : string) (s : VMs) :
  names_settled s = true -> dict_wf s -> 0 < idx (dict s) <= E4_DICT_SZ ->
  exists w, find nm s = Ok (w, s).
Proof.
  intros Hs [Hdl Hd16] Hidx.
  destruct (find_in_total (dict s) (pmem s) (ucase s) nm
              (Z.to_nat (to_IU (idx (dict s) - 1)))) as [w Hw].
  - intros j Hj. unfold to_IU in Hj. rewrite Z.mod_small in Hj by lia.
    destruct (v (dict s) !! Z.to_nat j) as [c|] eqn:Ec.
    + assert (Hg : Lst.get E4_DICT_SZ (dict s) j = Ok c)
        by (rewrite get_nonneg by lia; rewrite Ec; reflexivity).
      destruct (name_settled_readable (pmem s) c) as [t Ht].
      { apply (settled_entry s j c Hs); [lia|exact Hg]. }
      exists c, t. split; assumption.
    + apply lookup_ge_None in Ec. lia.
  - exists w. rewrite find_is_pure. unfold find_pure. rewrite Hw. reflexivity.
Qed.


Lemma blit_wf (bs : list Z) (l : List Z) :
  0 <= idx l -> idx l + Z.of_nat (length bs) <= Z.of_nat (length (v l)) ->
  length (v (blit bs l)) = length (v l).
Proof.
  intros H0 H. unfold blit. cbn [v].
  rewrite !length_app, length_take, length_drop. lia.
Qed.

(** *** What [colon] leaves *)

Lemma colon_is (nm : string) (s : VMs) :
  pmem_wf s -> 0 <= HERE s -> HERE s + STRLEN nm <= E4_PMEM_SZ ->
  0 <= idx (dict s) < E4_DICT_SZ ->
  colon nm s = Ok (tt, after_colon nm s).
Proof. intros. apply colon_Ok; assumption. Qed.

Lemma after_colon_HERE (nm : string) (s : VMs) :
  HERE (after_colon nm s) = HERE s + STRLEN nm.
Proof.
  unfold after_colon, HERE. cbn [pmem set_dict set_XT0 set_pmem blit idx].
  rewrite length_map, length_cstr_bytes. reflexivity.
Qed.

Lemma after_colon_top (nm : string) (s : VMs) :
  dict_wf s -> 0 <= idx (dict s) < E4_DICT_SZ ->
  Lst.get E4_DICT_SZ (dict (after_colon nm s)) (idx (dict s)) = Ok (colon_code (HERE s) nm).
Proof.
  intros [Hdl _] Hidx. rewrite get_nonneg by lia.
  unfold after_colon. cbn [dict set_dict v].
  rewrite list_lookup_insert_eq by lia. reflexivity.
Qed.




Lemma after_colon_pmem_wf (nm : string) (s : VMs) :
  pmem_wf s -> 0 <= HERE s -> HERE s + STRLEN nm <= E4_PMEM_SZ ->
  pmem_wf (after_colon nm s).
Proof.
  intros Hwf H0 Hroom. unfold pmem_wf in *. unfold after_colon.
  cbn [pmem set_dict set_XT0 set_pmem].
  rewrite blit_wf; [exact Hwf|exact H0|].
  rewrite length_map, length_cstr_bytes. unfold HERE in *. lia.
Qed.



(** [def_word] with a name: the warning when the name is found, then
    [colon]. *)
Lemma def_word_is (nm : string) (s : VMs) :
  is_empty nm = false ->
  names_settled s = true ->
  pmem_wf s -> 0 <= HERE s -> HERE s + STRLEN nm <= E4_PMEM_SZ ->
  dict_wf s -> 0 < idx (dict s) < E4_DICT_SZ ->
  exists s0,
    def_word nm s = Ok (1, after_colon nm s0) /\
    (eval (find nm) s = Ok 0 -> s0 = s) /\
    rs s0 = rs s /\ ss s0 = ss s /\ top s0 = top s /\ dict s0 = dict s /\
    pmem s0 = pmem s /\ ucase s0 = ucase s /\ fin s0 = fin s /\ compile s0 = compile s.
Proof.
  intros Hne Hset Hwf H0 Hroom Hdw Hidx.
  destruct (find_total nm s Hset Hdw ltac:(lia)) as [w Hfind].
  unfold def_word. rewrite Hne. rewrite (bind_Ok _ _ _ _ _ Hfind).
  destruct (w =? 0) eqn:Ew; cbn [negb].
  - exists s. rewrite (bind_Ok _ _ s tt _ eq_refl).
    rewrite (bind_Ok _ _ _ _ _ (colon_is nm s Hwf H0 Hroom ltac:(lia))).
    repeat split; reflexivity.
  - set (s3 := set_fout (mkOut EmptyString (obase (fout s)))
               (set_sent (sent s ++ [(obuf (fout s) ++ nm ++ " reDef? " ++ nl)%string])%list s)).
    assert (Hwarn : (fout_str nm;; fout_str " reDef? ";; ENDL) s = Ok (tt, s3)).
    { rewrite (bind_Ok _ _ _ _ _ (fout_str_Ok nm s)).
      rewrite (bind_Ok _ _ _ _ _ (fout_str_Ok _ _)).
      rewrite ENDL_Ok. unfold s3. cbn [fout set_fout obuf obase sent].
      rewrite !str_app_assoc. reflexivity. }
    exists s3. rewrite (bind_Ok _ _ _ _ _ Hwarn).
    rewrite (bind_Ok _ _ _ _ _ (colon_is nm s3 Hwf H0 Hroom ltac:(change (dict s3) with (dict s); lia))).
    split; [reflexivity|]. split; [|repeat split; reflexivity].
    intros Hf. unfold eval in Hf. rewrite Hfind in Hf. injection Hf as ->. discriminate.
Qed.


End Fresh.


Section Forget.
Context `{cfg : Config}.
Variable C : Z -> M unit.

(** The body of [forget] in the table of built-in words. *)
Lemma builtin_forget :
  builtin C "forget" =
    (s <- word;; w <- find s;;
     if w =? 0 then ret tt
     else
       fb <- find "boot";;
       let b := to_IU (fb + 1) in
       if w >? b then
         c <- dict_get w;; nm <- name_str (name c);;
         l <- gets pmem;; modify (set_pmem (Lst.clear (pfa c - STRLEN nm) l));;
         d <- gets dict;; modify (set_dict (Lst.clear w d))
       else
         l <- gets pmem;; modify (set_pmem (Lst.clear USER_AREA l));;
         d <- gets dict;; modify (set_dict (Lst.clear b d))).
Proof. reflexivity. Qed.

Lemma dict_get_Ok (j : Z) (c : Code) (s : VMs) :
  Lst.get E4_DICT_SZ (dict s) j = Ok c -> dict_get j s = Ok (c, s).
Proof. intros H. unfold dict_get, bind, gets, lift. rewrite H. reflexivity. Qed.

Lemma name_str_Ok (n : name_ptr) (t : string) (s : VMs) :
  name_in (pmem s) n = Ok t -> name_str n s = Ok (t, s).
Proof. intros H. rewrite name_str_pure, H. reflexivity. Qed.

Lemma get_clear {A} (N : Z) (l : List A) (i j : Z) :
  0 <= j -> Lst.get N (Lst.clear i l) j = Lst.get N l j.
Proof.
  intros Hj. unfold Lst.get, Lst.slot, Lst.clear. cbn [v idx].
  replace (j <? 0) with false by (symmetry; apply Z.ltb_ge; lia). reflexivity.
Qed.

(** X4. [forget] of a word that [find] finds cuts the dictionary at that
    word, but never below the entry behind [boot]: the dictionary then ends at
    the larger of the two; no entry and no byte of the parameter memory is
    overwritten; and every name that was found below the cut is still found at
    the same entry. *)
Theorem forget_cuts_above_boot (s : VMs) (w fb : Z) :
  eval (find (c_str (token_of (fst (extract (fin s)))))) s = Ok w ->
  w <> 0 ->
  eval (find "boot") s = Ok fb ->
  0 < idx (dict s) < 65536 ->
  exists s',
    exec (builtin C "forget") s = Ok s' /\
    idx (dict s') = Z.max w (fb + 1) /\
    v (dict s') = v (dict s) /\ v (pmem s') = v (pmem s) /\
    (w <= fb + 1 -> HERE s' = USER_AREA) /\
    (forall x wx, eval (find x) s = Ok wx -> wx < Z.max w (fb + 1) ->
                  eval (find x) s' = Ok wx).
Proof.
  intros Hw Hw0 Hfb Hidx.
  set (tok := token_of (fst (extract (fin s)))) in *.
  set (s1 := set_pad tok (set_fin (snd (extract (fin s))) s)).
  assert (Hw1 : find (c_str tok) s1 = Ok (w, s1)).
  { apply find_eval. rewrite eval_find. rewrite eval_find in Hw. exact Hw. }
  assert (Hfb1 : find "boot" s1 = Ok (fb, s1)).
  { apply find_eval. rewrite eval_find. rewrite eval_find in Hfb. exact Hfb. }
  rewrite eval_find in Hw, Hfb. unfold find_pure in Hw, Hfb.
  assert (Hk : to_IU (idx (dict s) - 1) = idx (dict s) - 1)
    by (unfold to_IU; rewrite Z.mod_small by lia; reflexivity).
  rewrite Hk in Hw, Hfb.
  pose proof (find_in_le _ _ _ _ _ _ Hw) as Hwle.
  pose proof (find_in_le _ _ _ _ _ _ Hfb) as Hfble.
  assert (Hb : to_IU (fb + 1) = fb + 1)
    by (unfold to_IU; rewrite Z.mod_small by lia; reflexivity).
  assert (Hfound : forall i h x wx,
            1 <= i <= idx (dict s) ->
            eval (find x) s = Ok wx -> wx < i ->
            eval (find x)
              (set_dict (Lst.clear i (dict s1)) (set_pmem (Lst.clear h (pmem s1)) s1)) = Ok wx).
  { intros i h x wx Hi Hx Hlt. rewrite eval_find in Hx |- *. unfold find_pure in Hx |- *.
    rewrite Hk in Hx. cbn [dict pmem ucase set_dict set_pmem Lst.clear idx].
    replace (to_IU (i - 1)) with (i - 1) by (unfold to_IU; rewrite Z.mod_small by lia; reflexivity).
    rewrite (find_in_frame (dict s) _ (pmem s) _).
    - apply (find_in_below _ _ _ _ _ _ _ Hx); lia.
    - intros j Hj. apply (get_clear E4_DICT_SZ (dict s) i j). lia.
    - intros j c Hj Hc. reflexivity. }
  destruct (find_in_spec _ _ _ _ _ _ Hw) as [[Hz|(Hr & c & t & Hc & Ht & _)] _]; [contradiction|].
  unfold exec. rewrite builtin_forget.
  rewrite (bind_Ok _ _ _ _ _ (word_Ok s)). fold tok. fold s1.
  rewrite (bind_Ok _ _ _ _ _ Hw1).
  replace (w =? 0) with false by (symmetry; apply Z.eqb_neq; exact Hw0).
  rewrite (bind_Ok _ _ _ _ _ Hfb1). cbv zeta. rewrite Hb.
  destruct (w >? fb + 1) eqn:Egt.
  - apply Z.gtb_lt in Egt.
    rewrite (bind_Ok _ _ _ _ _ (dict_get_Ok w c s1 Hc)).
    rewrite (bind_Ok _ _ _ _ _ (name_str_Ok (name c) t s1 Ht)).
    eexists. split; [reflexivity|].
    rewrite Z.max_l by lia.
    split; [reflexivity|]. split; [reflexivity|]. split; [reflexivity|].
    split; [intros; lia|].
    intros x wx Hx Hlt. apply Hfound; [lia|exact Hx|exact Hlt].
  - assert (w <= fb + 1) by (destruct (Z.gtb_spec w (fb + 1)); [discriminate|lia]).
    eexists. split; [reflexivity|].
    rewrite Z.max_r by lia.
    split; [reflexivity|]. split; [reflexivity|]. split; [reflexivity|].
    split; [reflexivity|].
    intros x wx Hx Hlt. apply Hfound; [lia|exact Hx|exact Hlt].
Qed.



End Forget.

Lemma forget_cuts_above_boot_witness :
  exists s',
    exec (builtin (cfg := build false) (fun _ => ret tt) "forget")
         (Probe.reading false [": cube dup dup * * ;"; ": sq dup * ;"] "sq") = Ok s' /\
    idx (dict s') = Z.max 126 (124 + 1) /\
    v (dict s') = v (dict (Probe.reading false [": cube dup dup * * ;"; ": sq dup * ;"] "sq")) /\
    v (pmem s') = v (pmem (Probe.reading false [": cube dup dup * * ;"; ": sq dup * ;"] "sq")) /\
    (126 <= 124 + 1 -> HERE s' = USER_AREA) /\
    (forall x wx,
        eval (find (cfg := build false) x)
             (Probe.reading false [": cube dup dup * * ;"; ": sq dup * ;"] "sq") = Ok wx ->
        wx < Z.max 126 (124 + 1) ->
        eval (find (cfg := build false) x) s' = Ok wx).
Proof.
  apply (@forget_cuts_above_boot (build false) (fun _ => ret tt)
           (Probe.reading false [": cube dup dup * * ;"; ": sq dup * ;"] "sq") 126 124); crunch.
Defined.



Section Running.
Context `{cfg : Config}.

(** *** Bytes of an IU and of a DU *)

Lemma iu_bytes (x : Z) : to_U8 (to_IU x) + 256 * to_U8 (to_IU x / 256) = to_IU x.
Proof. unfold to_U8, to_IU. Z.div_mod_to_equations. lia. Qed.

Lemma du_bytes (x : Z) :
  in_DU x ->
  to_DU (to_U8 (UINT x) + 256 * to_U8 (UINT x / 256) + 65536 * to_U8 (UINT x / 65536)
         + 16777216 * to_U8 (UINT x / 16777216)) = x.
Proof.
  unfold in_DU, to_DU, to_U8, UINT. intros H. Z.div_mod_to_equations. lia.
Qed.

(** *** Stack operations that succeed *)

Lemma ss_pop_Ok (t : Z) (s : VMs) :
  0 < idx (ss s) <= E4_SS_SZ ->
  v (ss s) !! Z.to_nat (idx (ss s) - 1) = Some t ->
  ss_pop s = Ok (t, set_ss (mkList (v (ss s)) (idx (ss s) - 1)) s).
Proof.
  intros Hi Ht. unfold ss_pop, bind, gets, lift, Lst.pop, modify, ret.
  rewrite in_range_true by lia. rewrite Ht. reflexivity.
Qed.

Lemma POP_Ok (t : Z) (s : VMs) :
  0 < idx (ss s) <= E4_SS_SZ ->
  v (ss s) !! Z.to_nat (idx (ss s) - 1) = Some t ->
  POP s = Ok (top s, set_top t (set_ss (mkList (v (ss s)) (idx (ss s) - 1)) s)).
Proof.
  intros Hi Ht. unfold POP.
  rewrite (bind_Ok _ _ s (top s) _ eq_refl).
  rewrite (bind_Ok _ _ _ _ _ (ss_pop_Ok t s Hi Ht)). reflexivity.
Qed.

Lemma rs_push_Ok (x : Z) (s : VMs) :
  0 <= idx (rs s) < E4_RS_SZ ->
  rs_push x s = Ok (tt, set_rs (mkList (<[Z.to_nat (idx (rs s)) := x]> (v (rs s)))
                                       (idx (rs s) + 1)) s).
Proof.
  intros H. unfold rs_push, bind, gets, lift, Lst.push, modify.
  rewrite in_range_true by exact H. reflexivity.
Qed.

Lemma rs_pop_Ok (t : Z) (s : VMs) :
  0 < idx (rs s) <= E4_RS_SZ ->
  v (rs s) !! Z.to_nat (idx (rs s) - 1) = Some t ->
  rs_pop s = Ok (t, set_rs (mkList (v (rs s)) (idx (rs s) - 1)) s).
Proof.
  intros Hi Ht. unfold rs_pop, bind, gets, lift, Lst.pop, modify, ret.
  rewrite in_range_true by lia. rewrite Ht. reflexivity.
Qed.

(** *** Reading what was pushed *)

Lemma blit_at (bs : list Z) (l : List Z) (a : Z) :
  0 <= idx l -> (Z.to_nat (idx l) <= length (v l))%nat ->
  idx l <= a < idx l + Z.of_nat (length bs) ->
  v (blit bs l) !! Z.to_nat a = bs !! Z.to_nat (a - idx l).
Proof.
  intros H0 Hl Ha.
  replace (Z.to_nat a) with (Z.to_nat (idx l) + Z.to_nat (a - idx l))%nat by lia.
  apply blit_lookup_in; [lia|exact Hl].
Qed.

Lemma blit_below (bs : list Z) (l : List Z) (a : Z) :
  0 <= a < idx l -> (Z.to_nat (idx l) <= length (v l))%nat ->
  v (blit bs l) !! Z.to_nat a = v l !! Z.to_nat a.
Proof. intros Ha Hl. apply blit_lookup_lt; [lia|exact Hl]. Qed.

Lemma add_w_prim (op : Z) (c : Code) (s : VMs) :
  IS_PRIM op = true ->
  op_prim !! Z.to_nat (not_EXT_FLAG op) = Some c ->
  add_w op s = add_iu (xt c) s.
Proof.
  intros Hp Hc. unfold add_w. rewrite Hp, Hc.
  rewrite (bind_Ok _ _ s c _ eq_refl).
  unfold IS_PRIM in Hp. apply andb_true_iff in Hp as [-> _].
  rewrite (bind_Ok _ _ s (to_IU (xt c)) _ eq_refl).
  unfold add_iu, to_IU. rewrite !Z.mod_mod by lia. reflexivity.
Qed.

Lemma blit_blit (a b : list Z) (l : List Z) :
  0 <= idx l -> (Z.to_nat (idx l) + length a <= length (v l))%nat ->
  blit b (blit a l) = blit (a ++ b)%list l.
Proof.
  intros H0 Hl. unfold blit. cbn [v idx].
  replace (Z.to_nat (idx l + Z.of_nat (length a))) with (Z.to_nat (idx l) + length a)%nat by lia.
  set (i := Z.to_nat (idx l)) in *.
  assert (Hlen : (i + length a)%nat = length (take i (v l) ++ a)%list)
    by (rewrite length_app, length_take; lia).
  assert (E1 : take (i + length a) (take i (v l) ++ a ++ drop (i + length a) (v l))%list =
               (take i (v l) ++ a)%list)
    by (rewrite app_assoc; apply take_app_length'; exact Hlen).
  assert (E2 : drop (i + length a + length b)
                 (take i (v l) ++ a ++ drop (i + length a) (v l))%list =
               drop (i + length (a ++ b)%list) (v l)).
  { rewrite app_assoc. rewrite (drop_app_add' _ _ _ _ Hlen), drop_drop, length_app.
    f_equal. lia. }
  rewrite E1, E2, <- !app_assoc, length_app.
  f_equal. lia.
Qed.

Lemma MEM_small (a : Z) : 0 <= a < 65536 -> MEM a = a.
Proof.
  intros H. unfold MEM, to_IU, UINT.
  rewrite (Z.mod_small a 4294967296) by lia. apply Z.mod_small. lia.
Qed.

Lemma IGET_Ok (p lo hi : Z) (s : VMs) :
  0 <= p -> p + 1 < E4_PMEM_SZ -> p < 65536 ->
  v (pmem s) !! Z.to_nat p = Some lo ->
  v (pmem s) !! Z.to_nat (p + 1) = Some hi ->
  IGET p s = Ok (lo + 256 * hi, s).
Proof.
  intros H0 H1 H2 Hlo Hhi. unfold IGET. rewrite MEM_small by lia.
  apply rd16_Ok; assumption.
Qed.

Lemma IP_add_Ok (n : Z) (s : VMs) :
  IP_add n s = Ok (tt, set_IP (to_IU (IP s + n)) s).
Proof. reflexivity. Qed.

Lemma nest_loop_step (X : Z -> M unit) (f : nat) (s : VMs) :
  VM s = NEST -> IP s <> 0 ->
  nest_loop X (S f) s = (nest_step X;; nest_loop X f) s.
Proof.
  intros Hvm Hip. cbn [nest_loop].
  rewrite (bind_Ok _ _ s (VM s) _ eq_refl), (bind_Ok _ _ s (IP s) _ eq_refl).
  rewrite Hvm. replace (IP s =? 0) with false by (symmetry; apply Z.eqb_neq; exact Hip).
  reflexivity.
Qed.

Lemma nest_loop_done (X : Z -> M unit) (f : nat) (s : VMs) :
  VM s <> NEST \/ IP s = 0 ->
  nest_loop X (S f) s = Ok (tt, s).
Proof.
  intros H. cbn [nest_loop].
  rewrite (bind_Ok _ _ s (VM s) _ eq_refl), (bind_Ok _ _ s (IP s) _ eq_refl).
  destruct H as [H|H].
  - destruct (VM s); try reflexivity. contradiction.
  - rewrite H. rewrite andb_false_r. reflexivity.
Qed.

(** The primitive [LIT]: the cell behind the opcode goes to the top of the
    data stack, and the instruction pointer moves behind the cell. *)
Lemma nest_step_LIT (X : Z -> M unit) (p b0 b1 b2 b3 : Z) (s : VMs) :
  IP s = p -> 0 <= p -> p + 6 <= E4_PMEM_SZ -> p + 6 < 65536 ->
  v (pmem s) !! Z.to_nat p = Some 4 ->
  v (pmem s) !! Z.to_nat (p + 1) = Some 128 ->
  v (pmem s) !! Z.to_nat (p + 2) = Some b0 ->
  v (pmem s) !! Z.to_nat (p + 2 + 1) = Some b1 ->
  v (pmem s) !! Z.to_nat (p + 2 + 2) = Some b2 ->
  v (pmem s) !! Z.to_nat (p + 2 + 3) = Some b3 ->
  0 <= idx (ss s) < E4_SS_SZ ->
  nest_step X s =
    Ok (tt, set_IP (p + 6)
              (set_top (to_DU (b0 + 256 * b1 + 65536 * b2 + 16777216 * b3))
                 (set_ss (mkList (<[Z.to_nat (idx (ss s)) := top s]> (v (ss s)))
                                 (idx (ss s) + 1))
                    (set_IP (p + 2) s)))).
Proof.
  intros Hip H0 H1 H2 Hl0 Hl1 Hb0 Hb1 Hb2 Hb3 Hss.
  unfold nest_step.
  rewrite (bind_Ok _ _ s (IP s) _ eq_refl). rewrite Hip.
  rewrite (bind_Ok _ _ _ _ _ (IGET_Ok p 4 128 s H0 ltac:(lia) ltac:(lia) Hl0 Hl1)).
  rewrite (bind_Ok _ _ _ _ _ (IP_add_Ok IU_SZ s)). rewrite Hip.
  change (4 + 256 * 128 =? EXIT) with false.
  change (4 + 256 * 128 =? NOP) with false.
  change (4 + 256 * 128 =? NEXT) with false.
  change (4 + 256 * 128 =? LOOP) with false.
  change (4 + 256 * 128 =? LIT) with true.
  cbv iota.
  replace (to_IU (p + IU_SZ)) with (p + 2)
    by (unfold to_IU, IU_SZ; rewrite Z.mod_small by lia; reflexivity).
  set (s1 := set_IP (p + 2) s).
  rewrite (bind_Ok _ _ s1 (top s) _ eq_refl).
  rewrite (bind_Ok _ _ _ _ _ (ss_push_Ok (top s) s1 Hss)).
  set (s2 := set_ss _ s1).
  rewrite (bind_Ok _ _ s2 (p + 2) _ eq_refl).
  rewrite MEM_small by lia.
  assert (Hr : rd32 (p + 2) s2 = Ok (to_DU (b0 + 256 * b1 + 65536 * b2 + 16777216 * b3), s2))
    by (apply rd32_Ok; [lia|lia|exact Hb0|exact Hb1|exact Hb2|exact Hb3]).
  rewrite (bind_Ok _ _ _ _ _ Hr).
  rewrite (bind_Ok _ _ s2 tt _ eq_refl).
  rewrite IP_add_Ok. cbn [IP set_top set_IP]. change (IP s2) with (p + 2).
  replace (to_IU (p + 2 + DU_SZ)) with (p + 6)
    by (unfold to_IU, DU_SZ; rewrite Z.mod_small by lia; lia).
  reflexivity.
Qed.

(** The primitive [EXIT]: the return address comes off the return stack;
    address 0 stops the inner interpreter. *)
Lemma nest_step_EXIT (X : Z -> M unit) (p r : Z) (s : VMs) :
  IP s = p -> 0 <= p -> p + 2 <= E4_PMEM_SZ -> p + 2 < 65536 ->
  v (pmem s) !! Z.to_nat p = Some 0 ->
  v (pmem s) !! Z.to_nat (p + 1) = Some 128 ->
  0 < idx (rs s) <= E4_RS_SZ ->
  v (rs s) !! Z.to_nat (idx (rs s) - 1) = Some r ->
  nest_step X s =
    Ok (tt, set_VM (if to_IU (UINT r) =? 0 then STOP else HOLD)
              (set_IP (to_IU (UINT r))
                 (set_rs (mkList (v (rs s)) (idx (rs s) - 1)) (set_IP (p + 2) s)))).
Proof.
  intros Hip H0 H1 H2 Hl0 Hl1 Hrs Hr.
  unfold nest_step.
  rewrite (bind_Ok _ _ s (IP s) _ eq_refl). rewrite Hip.
  rewrite (bind_Ok _ _ _ _ _ (IGET_Ok p 0 128 s H0 ltac:(lia) ltac:(lia) Hl0 Hl1)).
  rewrite (bind_Ok _ _ _ _ _ (IP_add_Ok IU_SZ s)). rewrite Hip.
  change (0 + 256 * 128 =? EXIT) with true. cbv iota.
  replace (to_IU (p + IU_SZ)) with (p + 2)
    by (unfold to_IU, IU_SZ; rewrite Z.mod_small by lia; reflexivity).
  unfold UNNEST.
  rewrite (bind_Ok _ _ _ _ _ (rs_pop_Ok r (set_IP (p + 2) s) Hrs Hr)).
  reflexivity.
Qed.

End Running.

Section Constant.
Context `{cfg : Config}.
Variable C : Z -> M unit.

Lemma builtin_constant :
  builtin C "constant" =
    (s <- word;; def_word s;; add_w LIT;; x <- POP;; add_du x;; add_w EXIT).
Proof. reflexivity. Qed.

Lemma IS_UDF_Ok (w : Z) (c : Code) (s : VMs) :
  Lst.get E4_DICT_SZ (dict s) w = Ok c ->
  IS_UDF w s = Ok (negb (Z.land (attr c) UDF_ATTR =? 0), s).
Proof.
  intros H. unfold IS_UDF. rewrite (bind_Ok _ _ _ _ _ (dict_get_Ok w c s H)). reflexivity.
Qed.

(** X6. [constant] and the call of the word it defines are inverse on the
    data stack: [constant] takes the top of the stack into a new colon word,
    and calling that word puts the value back, so that the stack is again
    what it was; the return stack is left as it was and the inner interpreter
    stops. *)
Theorem constant_round_trip (f : nat) (nm : string) (s : VMs) :
  (3 <= f)%nat ->
  c_str (token_of (fst (extract (fin s)))) = nm ->
  is_empty nm = false -> cstr_ok nm = true ->
  names_settled s = true ->
  pmem_wf s -> 0 <= HERE s ->
  HERE s + STRLEN nm + 8 <= E4_PMEM_SZ -> HERE s + STRLEN nm + 8 < 65536 ->
  dict_wf s -> 0 < idx (dict s) < E4_DICT_SZ ->
  ss_wf s -> 0 < idx (ss s) <= E4_SS_SZ ->
  rs_wf s -> 0 <= idx (rs s) < E4_RS_SZ ->
  in_DU (top s) ->
  exists s1 s2,
    exec (builtin C "constant") s = Ok s1 /\
    stack s1 = Lst.live (ss s) /\
    idx (dict s1) = idx (dict s) + 1 /\
    exec (CALL (S f) (idx (dict s))) s1 = Ok s2 /\
    stack s2 = stack s /\
    Lst.live (rs s2) = Lst.live (rs s) /\
    VM s2 = STOP /\ dict s2 = dict s1 /\ pmem s2 = pmem s1.
Proof.
  intros Hf Htok Hne Hok Hset Hwf H0 Hroom H16 Hdw Hidx Hssw Hssi Hrsw Hrsi Hx.
  pose proof (STRLEN_bounds nm) as Hsl. pose proof (strlen_nonneg nm) as Hsn.
  set (sw := set_pad (token_of (fst (extract (fin s)))) (set_fin (snd (extract (fin s))) s)).
  destruct (def_word_is nm sw Hne Hset Hwf H0 ltac:(change (HERE sw) with (HERE s); lia) Hdw Hidx)
    as (s0 & Hdef & _ & Hrs0 & Hss0 & Htop0 & Hd0 & Hp0 & _).
  change (rs sw) with (rs s) in Hrs0. change (ss sw) with (ss s) in Hss0.
  change (top sw) with (top s) in Htop0. change (dict sw) with (dict s) in Hd0.
  change (pmem sw) with (pmem s) in Hp0.
  assert (Hh0 : HERE s0 = HERE s) by (unfold HERE; rewrite Hp0; reflexivity).
  assert (Hwf0 : pmem_wf s0) by (unfold pmem_wf; rewrite Hp0; exact Hwf).
  assert (Hdw0 : dict_wf s0) by (unfold dict_wf; rewrite Hd0; exact Hdw).
  set (s1 := after_colon nm s0) in *.
  set (p := HERE s + STRLEN nm).
  assert (Hh1 : idx (pmem s1) = p)
    by (change (idx (pmem s1)) with (HERE s1); unfold s1; rewrite after_colon_HERE, Hh0; reflexivity).
  assert (Hwf1 : pmem_wf s1) by (apply after_colon_pmem_wf; [exact Hwf0|lia|lia]).
  (* the code field *)
  set (L := [4; 128]).
  set (D := [to_U8 (UINT (top s)); to_U8 (UINT (top s) / 256);
             to_U8 (UINT (top s) / 65536); to_U8 (UINT (top s) / 16777216)]).
  set (E := [0; 128]).
  assert (HL : add_w LIT s1 = Ok (tt, set_pmem (blit L (pmem s1)) s1)).
  { rewrite (add_w_prim LIT (mkCode (Static "lit") LIT 0 0)) by reflexivity.
    apply add_iu_Ok; [exact Hwf1|unfold HERE; lia|unfold HERE; lia]. }
  set (s2 := set_pmem (blit L (pmem s1)) s1) in *.
  destruct (v (ss s) !! Z.to_nat (idx (ss s) - 1)) as [t|] eqn:Et.
  2:{ apply lookup_ge_None in Et. unfold ss_wf in Hssw. lia. }
  assert (HP : POP s2 = Ok (top s, set_top t (set_ss (mkList (v (ss s)) (idx (ss s) - 1)) s2))).
  { assert (Hi2 : 0 < idx (ss s2) <= E4_SS_SZ) by (change (ss s2) with (ss s0); rewrite Hss0; exact Hssi).
    assert (Ht2 : v (ss s2) !! Z.to_nat (idx (ss s2) - 1) = Some t)
      by (change (ss s2) with (ss s0); rewrite Hss0; exact Et).
    rewrite <- Htop0, <- Hss0. exact (POP_Ok t s2 Hi2 Ht2). }
  set (s3 := set_top t _) in *.
  assert (Hwf2 : length (v (blit L (pmem s1))) = length (v (pmem s1)))
    by (apply blit_wf; unfold pmem_wf in Hwf1; cbn [length L]; lia).
  assert (HD : add_du (top s) s3 = Ok (tt, set_pmem (blit D (pmem s3)) s3)).
  { apply add_du_Ok.
    - unfold pmem_wf. change (pmem s3) with (blit L (pmem s1)). rewrite Hwf2. exact Hwf1.
    - change (HERE s3) with (idx (pmem s1) + 2). lia.
    - change (HERE s3) with (idx (pmem s1) + 2). lia. }
  set (s4 := set_pmem (blit D (pmem s3)) s3) in *.
  assert (Hpm4 : pmem s4 = blit (L ++ D)%list (pmem s1)).
  { change (pmem s4) with (blit D (blit L (pmem s1))).
    apply blit_blit; unfold pmem_wf in Hwf1; cbn [length L]; lia. }
  assert (HE : add_w EXIT s4 = Ok (tt, set_pmem (blit E (pmem s4)) s4)).
  { rewrite (add_w_prim EXIT (mkCode (Static ";") EXIT 0 0)) by reflexivity.
    apply add_iu_Ok.
    - unfold pmem_wf. rewrite Hpm4, blit_wf; [exact Hwf1|lia|].
      unfold pmem_wf in Hwf1. cbn [length L D app]. lia.
    - unfold HERE. rewrite Hpm4. cbn [idx blit length L D app]. lia.
    - unfold HERE. rewrite Hpm4. cbn [idx blit length L D app]. lia. }
  set (s5 := set_pmem (blit E (pmem s4)) s4) in *.
  assert (Hpm5 : pmem s5 = blit (L ++ D ++ E)%list (pmem s1)).
  { change (pmem s5) with (blit E (pmem s4)). rewrite Hpm4.
    rewrite blit_blit; [rewrite <- app_assoc; reflexivity|lia|].
    unfold pmem_wf in Hwf1. cbn [length L D app]. lia. }
  assert (Hbyte : forall k b, 0 <= k < 8 ->
            (L ++ D ++ E)%list !! Z.to_nat k = Some b ->
            forall a st, a = p + k -> pmem st = pmem s5 ->
            v (pmem st) !! Z.to_nat a = Some b).
  { intros k b Hk Hb a st -> ->. rewrite Hpm5, blit_at.
    - rewrite Hh1. replace (p + k - p) with k by lia. exact Hb.
    - lia.
    - unfold pmem_wf in Hwf1. lia.
    - rewrite Hh1. cbn [length L D E app]. lia. }
  exists s5.
  assert (Hrun1 : exec (builtin C "constant") s = Ok s5).
  { unfold exec. rewrite builtin_constant.
    rewrite (bind_Ok _ _ _ _ _ (word_Ok s)). fold sw. rewrite Htok.
    rewrite (bind_Ok _ _ _ _ _ Hdef).
    rewrite (bind_Ok _ _ _ _ _ HL).
    rewrite (bind_Ok _ _ _ _ _ HP).
    rewrite (bind_Ok _ _ _ _ _ HD).
    rewrite HE. reflexivity. }
  (* the call *)
  set (w := idx (dict s)).
  assert (Hc : Lst.get E4_DICT_SZ (dict s5) w = Ok (colon_code (HERE s0) nm)).
  { change (dict s5) with (dict (after_colon nm s0)). unfold w. rewrite <- Hd0.
    apply after_colon_top; [exact Hdw0|rewrite Hd0; lia]. }
  assert (Hpfa : pfa (colon_code (HERE s0) nm) = p).
  { cbn [pfa colon_code]. rewrite Hh0. unfold to_IU. rewrite Z.mod_small by lia. reflexivity. }
  set (s6 := set_rs (mkList (<[Z.to_nat (idx (rs s)) := DU0]> (v (rs s))) (idx (rs s) + 1)) s5).
  assert (H6 : rs_push DU0 s5 = Ok (tt, s6)).
  { assert (Hi : 0 <= idx (rs s5) < E4_RS_SZ)
      by (change (rs s5) with (rs s0); rewrite Hrs0; exact Hrsi).
    unfold s6. rewrite <- Hrs0. exact (rs_push_Ok DU0 s5 Hi). }
  set (s8 := set_VM NEST (set_IP p s6)).
  set (x := to_DU (to_U8 (UINT (top s)) + 256 * to_U8 (UINT (top s) / 256)
                   + 65536 * to_U8 (UINT (top s) / 65536)
                   + 16777216 * to_U8 (UINT (top s) / 16777216))).
  set (s9 := set_IP (p + 6)
               (set_top x
                  (set_ss (mkList (<[Z.to_nat (idx (ss s8)) := top s8]> (v (ss s8)))
                                  (idx (ss s8) + 1))
                     (set_IP (p + 2) s8)))).
  assert (H9 : forall X, nest_step X s8 = Ok (tt, s9)).
  { intros X. apply nest_step_LIT; try lia; try reflexivity.
    - apply (Hbyte 0); [lia|reflexivity|lia|reflexivity].
    - apply (Hbyte 1); [lia|reflexivity|lia|reflexivity].
    - apply (Hbyte 2); [lia|reflexivity|lia|reflexivity].
    - apply (Hbyte 3); [lia|reflexivity|lia|reflexivity].
    - apply (Hbyte 4); [lia|reflexivity|lia|reflexivity].
    - apply (Hbyte 5); [lia|reflexivity|lia|reflexivity].
    - change (idx (ss s8)) with (idx (ss s) - 1). lia. }
  set (s10 := set_VM STOP
                (set_IP 0
                   (set_rs (mkList (v (rs s9)) (idx (rs s9) - 1)) (set_IP (p + 6 + 2) s9)))).
  assert (H10 : forall X, nest_step X s9 = Ok (tt, s10)).
  { intros X. apply (nest_step_EXIT X (p + 6) 0 s9); try lia; try reflexivity.
    - apply (Hbyte 6); [lia|reflexivity|lia|reflexivity].
    - apply (Hbyte 7); [lia|reflexivity|lia|reflexivity].
    - change (idx (rs s9)) with (idx (rs s) + 1). lia.
    - change (rs s9) with (rs s6). unfold s6. cbn [rs set_rs v idx].
      replace (Z.to_nat (idx (rs s) + 1 - 1)) with (Z.to_nat (idx (rs s))) by lia.
      apply list_lookup_insert_eq. unfold rs_wf in Hrsw. lia. }
  exists s10.
  split; [exact Hrun1|].
  split.
  { unfold stack, Lst.live. change (ss s5) with (mkList (v (ss s)) (idx (ss s) - 1)).
    change (top s5) with t. cbn [v idx].
    replace (Z.to_nat (idx (ss s))) with (S (Z.to_nat (idx (ss s) - 1))) by lia.
    symmetry. apply take_S_r. exact Et. }
  split; [change (idx (dict s5)) with (idx (dict s0) + 1); rewrite Hd0; reflexivity|].
  split.
  { unfold exec. cbn [CALL].
    rewrite (bind_Ok _ _ _ _ _ (IS_UDF_Ok w _ s5 Hc)).
    change (negb (Z.land (attr (colon_code (HERE s0) nm)) UDF_ATTR =? 0)) with true. cbv iota.
    rewrite (bind_Ok _ _ _ _ _ H6).
    rewrite (bind_Ok _ _ _ _ _ (dict_get_Ok w _ s6 Hc)).
    rewrite Hpfa.
    rewrite (bind_Ok _ _ _ tt (set_IP p s6) eq_refl).
    unfold nest. rewrite (bind_Ok _ _ _ tt s8 eq_refl).
    destruct f as [|[|[|f']]]; try lia.
    rewrite nest_loop_step; [|reflexivity|change (IP s8) with p; lia].
    rewrite (bind_Ok _ _ _ _ _ (H9 _)).
    rewrite nest_loop_step; [|reflexivity|change (IP s9) with (p + 6); lia].
    rewrite (bind_Ok _ _ _ _ _ (H10 _)).
    rewrite nest_loop_done; [reflexivity|left; discriminate]. }
  assert (Hxx : x = top s) by (apply du_bytes; exact Hx).
  split.
  { unfold stack, Lst.live. change (top s10) with x. rewrite Hxx.
    change (ss s10)
      with (mkList (<[Z.to_nat (idx (ss s) - 1) := t]> (v (ss s))) (idx (ss s) - 1 + 1)).
    cbn [v idx]. rewrite list_insert_id by exact Et.
    replace (idx (ss s) - 1 + 1) with (idx (ss s)) by lia. reflexivity. }
  split.
  { unfold Lst.live. change (rs s10)
      with (mkList (<[Z.to_nat (idx (rs s)) := DU0]> (v (rs s))) (idx (rs s) + 1 - 1)).
    cbn [v idx]. replace (idx (rs s) + 1 - 1) with (idx (rs s)) by lia.
    apply take_insert_ge. lia. }
  split; [reflexivity|]. split; reflexivity.
Qed.

End Constant.

Lemma constant_round_trip_witness :
  exists s1 s2,
    exec (builtin (cfg := build false) (fun _ => ret tt) "constant")
         (Probe.reading false ["42"] " answer") = Ok s1 /\
    stack s1 = Lst.live (ss (Probe.reading false ["42"] " answer")) /\
    idx (dict s1) = idx (dict (Probe.reading false ["42"] " answer")) + 1 /\
    exec (CALL (cfg := build false) 4 (idx (dict (Probe.reading false ["42"] " answer")))) s1 = Ok s2 /\
    stack s2 = stack (Probe.reading false ["42"] " answer") /\
    Lst.live (rs s2) = Lst.live (rs (Probe.reading false ["42"] " answer")) /\
    VM s2 = STOP /\ dict s2 = dict s1 /\ pmem s2 = pmem s1.
Proof.
  apply (@constant_round_trip (build false) (fun _ => ret tt) 3 "answer"
           (Probe.reading false ["42"] " answer")); [lia|..]; crunch.
Defined.

Section Memory.
Context `{cfg : Config}.
Variable C : Z -> M unit.

Lemma wr8_Ok (a b : Z) (s : VMs) :
  0 <= a < E4_PMEM_SZ ->
  wr8 a b s = Ok (tt, set_pmem (mkList (<[Z.to_nat a := to_U8 b]> (v (pmem s))) (idx (pmem s))) s).
Proof. intros H. unfold wr8, bind, gets, modify. rewrite in_range_true by exact H. reflexivity. Qed.

Lemma wr32_Ok (a x : Z) (s : VMs) :
  0 <= a -> a + 3 < E4_PMEM_SZ ->
  wr32 a x s = Ok (tt, set_pmem (poke32 a x (pmem s)) s).
Proof.
  intros H0 H1. unfold wr32.
  rewrite (bind_Ok _ _ _ _ _ (wr8_Ok a _ s ltac:(lia))).
  rewrite (bind_Ok _ _ _ _ _ (wr8_Ok (a + 1) _ _ ltac:(lia))).
  rewrite (bind_Ok _ _ _ _ _ (wr8_Ok (a + 2) _ _ ltac:(lia))).
  rewrite (wr8_Ok (a + 3) _ _ ltac:(lia)).
  reflexivity.
Qed.

Lemma poke32_bytes (a x : Z) (l : List Z) :
  0 <= a -> (Z.to_nat a + 3 < length (v l))%nat ->
  v (poke32 a x l) !! Z.to_nat a = Some (to_U8 (UINT x)) /\
  v (poke32 a x l) !! Z.to_nat (a + 1) = Some (to_U8 (UINT x / 256)) /\
  v (poke32 a x l) !! Z.to_nat (a + 2) = Some (to_U8 (UINT x / 65536)) /\
  v (poke32 a x l) !! Z.to_nat (a + 3) = Some (to_U8 (UINT x / 16777216)).
Proof.
  intros H0 Hl. unfold poke32. cbn [v].
  repeat split.
  - rewrite !list_lookup_insert_ne by lia. apply list_lookup_insert_eq. lia.
  - rewrite !list_lookup_insert_ne by lia. apply list_lookup_insert_eq.
    rewrite !length_insert. lia.
  - rewrite list_lookup_insert_ne by lia. apply list_lookup_insert_eq.
    rewrite !length_insert. lia.
  - apply list_lookup_insert_eq. rewrite !length_insert. lia.
Qed.

Lemma iu_of_du_bytes (x : Z) :
  to_U8 (UINT x) + 256 * to_U8 (UINT x / 256) = UINT x mod 65536.
Proof. unfold to_U8, UINT. Z.div_mod_to_equations. lia. Qed.

Lemma builtin_store :
  builtin C "!" = (x <- POP;; let w := to_IU (UINT x) in y <- POP;; CELL_set w y).
Proof. reflexivity. Qed.

Lemma builtin_fetch :
  builtin C "@" =
    (x <- POP;; let w := to_IU (UINT x) in
     if w <? USER_AREA then y <- IGET w;; PUSH y
     else y <- CELL w;; PUSH y).
Proof. reflexivity. Qed.

(** X7. A value stored with [!] is what [@] fetches from the same address,
    when the address lies in the user area; below [USER_AREA], where the
    system variables are instruction units, [@] fetches the low 16 bits of
    what was stored.  [!] takes the address and the value off the stack, and
    [@] replaces the address by what it fetched. *)
Theorem store_then_fetch (a x y : Z) (s : VMs) :
  top s = a ->
  v (ss s) !! Z.to_nat (idx (ss s) - 1) = Some x ->
  v (ss s) !! Z.to_nat (idx (ss s) - 2) = Some y ->
  in_DU x ->
  0 <= a -> a + 3 < E4_PMEM_SZ -> a < 65536 ->
  pmem_wf s -> 2 <= idx (ss s) <= E4_SS_SZ ->
  exists s1 s2,
    exec (builtin C "!") s = Ok s1 /\
    top s1 = y /\ Lst.live (ss s1) = take (Z.to_nat (idx (ss s) - 2)) (v (ss s)) /\
    exec (PUSH a;; builtin C "@") s1 = Ok s2 /\
    top s2 = (if a <? USER_AREA then UINT x mod 65536 else x) /\
    Lst.live (ss s2) = (Lst.live (ss s1) ++ [y])%list /\
    pmem s2 = pmem s1 /\ dict s2 = dict s /\ HERE s1 = HERE s.
Proof.
  intros Ha Hsx Hsy Hx H0 H1 H2 Hwf Hss.
  assert (Hw : to_IU (UINT a) = a).
  { unfold to_IU, UINT. rewrite (Z.mod_small a 4294967296) by lia. apply Z.mod_small. lia. }
  set (sa := set_top x (set_ss (mkList (v (ss s)) (idx (ss s) - 1)) s)).
  assert (HPa : POP s = Ok (a, sa)).
  { rewrite <- Ha. apply POP_Ok; [lia|exact Hsx]. }
  set (sb := set_top y (set_ss (mkList (v (ss s)) (idx (ss s) - 1 - 1)) sa)).
  assert (HPb : POP sa = Ok (x, sb)).
  { apply (POP_Ok y sa); cbn [sa ss set_top set_ss idx v]; [lia|].
    replace (idx (ss s) - 1 - 1) with (idx (ss s) - 2) by lia. exact Hsy. }
  set (s1 := set_pmem (poke32 a x (pmem s)) sb).
  assert (Hst : CELL_set a x sb = Ok (tt, s1)).
  { unfold CELL_set, pmem_at.
    rewrite (bind_Ok _ _ sb (Lst.slot (pmem sb) a) sb eq_refl).
    unfold Lst.slot. replace (a <? 0) with false by (symmetry; apply Z.ltb_ge; lia).
    apply (wr32_Ok a x sb); lia. }
  destruct (poke32_bytes a x (pmem s) H0 ltac:(unfold pmem_wf in Hwf; lia)) as (B0 & B1 & B2 & B3).
  exists s1.
  assert (Hi1 : 0 <= idx (ss s1) < E4_SS_SZ) by (cbn [s1 sb sa ss set_pmem set_top set_ss idx]; lia).
  pose proof (PUSH_Ok a s1 Hi1) as HPush.
  set (s1p := set_top (to_DU a) _) in HPush.
  set (s1q := set_top y (set_ss (mkList (v (ss s1p)) (idx (ss s1p) - 1)) s1p)).
  assert (HPq : POP s1p = Ok (a, s1q)).
  { replace a with (top s1p) at 1
      by (cbn [s1p top set_top]; apply to_DU_small; lia).
    apply (POP_Ok y s1p).
    - cbn [s1p s1 sb sa ss set_pmem set_top set_ss idx]. lia.
    - cbn [s1p s1 sb sa ss set_pmem set_top set_ss idx v top].
      replace (Z.to_nat (idx (ss s) - 1 - 1 + 1 - 1)) with (Z.to_nat (idx (ss s) - 1 - 1)) by lia.
      apply list_lookup_insert_eq.
      apply lookup_lt_Some in Hsy. lia. }
  assert (Hi1q : 0 <= idx (ss s1q) < E4_SS_SZ)
    by (cbn [s1q s1p s1 sb sa ss set_pmem set_top set_ss idx]; lia).
  exists (set_top
            (to_DU (if a <? USER_AREA
                    then to_U8 (UINT x) + 256 * to_U8 (UINT x / 256)
                    else to_DU (to_U8 (UINT x) + 256 * to_U8 (UINT x / 256)
                                + 65536 * to_U8 (UINT x / 65536)
                                + 16777216 * to_U8 (UINT x / 16777216))))
            (set_ss (mkList (<[Z.to_nat (idx (ss s1q)) := top s1q]> (v (ss s1q)))
                            (idx (ss s1q) + 1)) s1q)).
  split; [unfold exec; rewrite builtin_store;
          rewrite (bind_Ok _ _ _ _ _ HPa); cbv zeta; rewrite Hw;
          rewrite (bind_Ok _ _ _ _ _ HPb); rewrite Hst; reflexivity|].
  split; [reflexivity|].
  split; [unfold Lst.live; cbn [s1 sb sa ss set_pmem set_top set_ss idx v];
          f_equal; lia|].
  split.
  { unfold exec. rewrite (bind_Ok _ _ _ _ _ HPush). rewrite builtin_fetch.
    rewrite (bind_Ok _ _ _ _ _ HPq). cbv zeta. rewrite Hw.
    destruct (a <? USER_AREA).
    - assert (Hg : IGET a s1q = Ok (to_U8 (UINT x) + 256 * to_U8 (UINT x / 256), s1q))
        by (apply IGET_Ok; [lia|lia|lia|exact B0|exact B1]).
      rewrite (bind_Ok _ _ _ _ _ Hg). rewrite (PUSH_Ok _ s1q Hi1q). reflexivity.
    - assert (Hg : CELL a s1q =
                   Ok (to_DU (to_U8 (UINT x) + 256 * to_U8 (UINT x / 256)
                              + 65536 * to_U8 (UINT x / 65536)
                              + 16777216 * to_U8 (UINT x / 16777216)), s1q)).
      { unfold CELL, pmem_at.
        rewrite (bind_Ok _ _ s1q (Lst.slot (pmem s1q) a) s1q eq_refl).
        unfold Lst.slot. replace (a <? 0) with false by (symmetry; apply Z.ltb_ge; lia).
        apply rd32_Ok; [lia|lia|exact B0|exact B1|exact B2|exact B3]. }
      rewrite (bind_Ok _ _ _ _ _ Hg). rewrite (PUSH_Ok _ s1q Hi1q). reflexivity. }
  split.
  { destruct (a <? USER_AREA); cbn [top set_top].
    - rewrite iu_of_du_bytes. apply to_DU_small.
      pose proof (Z.mod_pos_bound (UINT x) 65536 ltac:(lia)). lia.
    - rewrite du_bytes by exact Hx. apply to_DU_small. unfold in_DU in Hx. lia. }
  split.
  { assert (Hl : forall t, Lst.live (ss (set_top t
                 (set_ss (mkList (<[Z.to_nat (idx (ss s1q)) := top s1q]> (v (ss s1q)))
                                 (idx (ss s1q) + 1)) s1q))) =
               (Lst.live (ss s1) ++ [y])%list).
    { intros t. cbn [ss set_top set_ss].
      rewrite live_push.
      - f_equal. unfold Lst.live. cbn [s1q s1p s1 sb sa ss set_pmem set_top set_ss idx v].
        replace (idx (ss s) - 1 - 1 + 1 - 1) with (idx (ss s) - 1 - 1) by lia.
        apply take_insert_ge. lia.
      - cbn [s1q s1p s1 sb sa ss set_pmem set_top set_ss idx]. lia.
      - cbn [s1q s1p s1 sb sa ss set_pmem set_top set_ss idx v]. rewrite length_insert.
        apply lookup_lt_Some in Hsx. lia. }
    apply Hl. }
  repeat split; reflexivity.
Qed.

End Memory.

Lemma store_then_fetch_witness :
  exists s1 s2,
    exec (builtin (cfg := build false) (fun _ => ret tt) "!") (Probe.after false ["5 77 100"]) = Ok s1 /\
    top s1 = 5 /\
    Lst.live (ss s1) =
      take (Z.to_nat (idx (ss (Probe.after false ["5 77 100"])) - 2))
           (v (ss (Probe.after false ["5 77 100"]))) /\
    exec (PUSH (cfg := build false) 100;; builtin (cfg := build false) (fun _ => ret tt) "@") s1 = Ok s2 /\
    top s2 = (if 100 <? USER_AREA then UINT 77 mod 65536 else 77) /\
    Lst.live (ss s2) = (Lst.live (ss s1) ++ [5])%list /\
    pmem s2 = pmem s1 /\ dict s2 = dict (Probe.after false ["5 77 100"]) /\
    HERE s1 = HERE (Probe.after false ["5 77 100"]).
Proof.
  apply (@store_then_fetch (build false) (fun _ => ret tt) 100 77 5 (Probe.after false ["5 77 100"])); crunch.
Defined.

Section VariableWord.
Context `{cfg : Config}.

Lemma ALIGN2_even (x : Z) : Z.even x = true -> ALIGN2 x = x.
Proof.
  intros H. unfold ALIGN2.
  assert (E : Z.land (- x) 1 = (- x) mod 2)
    by (change 1 with (Z.ones 1); apply Z.land_ones; lia).
  rewrite E. apply Z.even_spec in H. destruct H as [k ->].
  replace (- (2 * k)) with ((- k) * 2) by lia. rewrite Z.mod_mul by lia. lia.
Qed.

(** The primitive [VAR]: the aligned address behind the opcode goes to the
    data stack, and the word returns. *)
Lemma nest_step_VAR (X : Z -> M unit) (p r : Z) (s : VMs) :
  IP s = p -> 0 <= p -> p + 2 <= E4_PMEM_SZ -> p + 2 < 65536 ->
  v (pmem s) !! Z.to_nat p = Some 5 ->
  v (pmem s) !! Z.to_nat (p + 1) = Some 128 ->
  0 <= idx (ss s) < E4_SS_SZ ->
  0 < idx (rs s) <= E4_RS_SZ ->
  v (rs s) !! Z.to_nat (idx (rs s) - 1) = Some r ->
  nest_step X s =
    Ok (tt, set_VM (if to_IU (UINT r) =? 0 then STOP else HOLD)
              (set_IP (to_IU (UINT r))
                 (set_rs (mkList (v (rs s)) (idx (rs s) - 1))
                    (set_top (to_DU (DALIGN (p + 2)))
                       (set_ss (mkList (<[Z.to_nat (idx (ss s)) := top s]> (v (ss s)))
                                       (idx (ss s) + 1))
                          (set_IP (p + 2) s)))))).
Proof.
  intros Hip H0 H1 H2 Hl0 Hl1 Hss Hrs Hr.
  unfold nest_step.
  rewrite (bind_Ok _ _ s (IP s) _ eq_refl). rewrite Hip.
  assert (Hg : IGET p s = Ok (5 + 256 * 128, s)) by (apply IGET_Ok; [lia|lia|lia|exact Hl0|exact Hl1]).
  rewrite (bind_Ok _ _ _ _ _ Hg).
  rewrite (bind_Ok _ _ _ _ _ (IP_add_Ok IU_SZ s)). rewrite Hip.
  change (5 + 256 * 128 =? EXIT) with false.
  change (5 + 256 * 128 =? NOP) with false.
  change (5 + 256 * 128 =? NEXT) with false.
  change (5 + 256 * 128 =? LOOP) with false.
  change (5 + 256 * 128 =? LIT) with false.
  change (5 + 256 * 128 =? VAR) with true.
  cbv iota.
  replace (to_IU (p + IU_SZ)) with (p + 2)
    by (unfold to_IU, IU_SZ; rewrite Z.mod_small by lia; reflexivity).
  set (s1 := set_IP (p + 2) s).
  rewrite (bind_Ok _ _ s1 (p + 2) _ eq_refl).
  rewrite (bind_Ok _ _ _ _ _ (PUSH_Ok (DALIGN (p + 2)) s1 Hss)).
  unfold UNNEST.
  set (s2 := set_top _ _).
  assert (Hp : rs_pop s2 = Ok (r, set_rs (mkList (v (rs s2)) (idx (rs s2) - 1)) s2))
    by (apply rs_pop_Ok; [exact Hrs|exact Hr]).
  rewrite (bind_Ok _ _ _ _ _ Hp). reflexivity.
Qed.

(** X8. [variable] with a name leaves the data stack as it was; calling the
    new word pushes one address; that address is the cell [variable]
    reserved, the last four bytes below [HERE], and the cell reads 0.  In the
    flavour without cell alignment this needs an even [HERE]. *)
Theorem variable_round_trip (f : nat) (nm : string) (s : VMs) :
  (2 <= f)%nat ->
  c_str (token_of (fst (extract (fin s)))) = nm ->
  is_empty nm = false -> cstr_ok nm = true ->
  names_settled s = true ->
  DO_WASM = true \/ Z.even (HERE s) = true ->
  pmem_wf s -> 0 <= HERE s ->
  HERE s + STRLEN nm + 9 <= E4_PMEM_SZ -> HERE s + STRLEN nm + 9 < 65536 ->
  dict_wf s -> 0 < idx (dict s) < E4_DICT_SZ ->
  ss_wf s -> 0 <= idx (ss s) < E4_SS_SZ ->
  rs_wf s -> 0 <= idx (rs s) < E4_RS_SZ ->
  exists s1 s2 a,
    exec variable s = Ok s1 /\
    stack s1 = stack s /\
    exec (CALL (S f) (idx (dict s))) s1 = Ok s2 /\
    top s2 = a /\ a + 4 = HERE s1 /\ HERE s < a /\
    Lst.live (ss s2) = stack s /\
    eval (CELL a) s2 = Ok 0 /\
    Lst.live (rs s2) = Lst.live (rs s) /\ VM s2 = STOP.
Proof.
  intros Hf Htok Hne Hok Hset Heven Hwf H0 Hroom H16 Hdw Hidx Hssw Hssi Hrsw Hrsi.
  pose proof (STRLEN_bounds nm) as Hsl. pose proof (strlen_nonneg nm) as Hsn.
  set (sw := set_pad (token_of (fst (extract (fin s)))) (set_fin (snd (extract (fin s))) s)).
  destruct (def_word_is nm sw Hne Hset Hwf H0 ltac:(change (HERE sw) with (HERE s); lia) Hdw Hidx)
    as (s0 & Hdef & _ & Hrs0 & Hss0 & Htop0 & Hd0 & Hp0 & _).
  change (rs sw) with (rs s) in Hrs0. change (ss sw) with (ss s) in Hss0.
  change (top sw) with (top s) in Htop0. change (dict sw) with (dict s) in Hd0.
  change (pmem sw) with (pmem s) in Hp0.
  assert (Hh0 : HERE s0 = HERE s) by (unfold HERE; rewrite Hp0; reflexivity).
  assert (Hwf0 : pmem_wf s0) by (unfold pmem_wf; rewrite Hp0; exact Hwf).
  assert (Hdw0 : dict_wf s0) by (unfold dict_wf; rewrite Hd0; exact Hdw).
  set (s1 := after_colon nm s0) in *.
  set (p := HERE s + STRLEN nm).
  assert (Hh1 : idx (pmem s1) = p)
    by (change (idx (pmem s1)) with (HERE s1); unfold s1; rewrite after_colon_HERE, Hh0; reflexivity).
  assert (Hwf1 : pmem_wf s1) by (apply after_colon_pmem_wf; [exact Hwf0|lia|lia]).
  pose proof (after_var_gt p) as Hgt.
  assert (Hvar : add_var VAR s1 = Ok (tt, set_pmem (var_image (pmem s1)) s1))
    by (apply add_var_VAR_Ok; [exact Hwf1|unfold HERE; lia|unfold HERE; rewrite Hh1; lia]).
  set (s5 := set_pmem (var_image (pmem s1)) s1) in *.
  pose proof (var_image_spec (pmem s1) ltac:(lia)
                ltac:(unfold pmem_wf in Hwf1; rewrite Hh1; lia)) as (Hl & Hb0 & Hb1 & Hz).
  rewrite Hh1 in Hb0, Hb1, Hz.
  assert (Hcell : DALIGN (p + 2) = after_var p - 4).
  { unfold after_var, DALIGN. destruct DO_WASM; [lia|].
    destruct Heven as [Hw|He]; [discriminate|].
    rewrite ALIGN2_even; [lia|].
    unfold p. rewrite !Z.even_add, He.
    unfold STRLEN. 
    assert (Hs : Z.even (ALIGN2 (strlen nm + 1)) = true).
    { unfold ALIGN2.
      assert (E : Z.land (- (strlen nm + 1)) 1 = (- (strlen nm + 1)) mod 2)
        by (change 1 with (Z.ones 1); apply Z.land_ones; lia).
      rewrite E. rewrite Z.even_spec. 
      exists ((strlen nm + 1 + (- (strlen nm + 1)) mod 2) / 2).
      Z.div_mod_to_equations. lia. }
    rewrite Hs. reflexivity. }
  set (a := after_var p - 4) in *.
  exists s5.
  assert (Hrun1 : exec variable s = Ok s5).
  { unfold exec, variable.
    rewrite (bind_Ok _ _ _ _ _ (word_Ok s)). fold sw. rewrite Htok.
    rewrite (bind_Ok _ _ _ _ _ Hdef). rewrite Hvar. reflexivity. }
  set (w := idx (dict s)).
  assert (Hc : Lst.get E4_DICT_SZ (dict s5) w = Ok (colon_code (HERE s0) nm)).
  { change (dict s5) with (dict (after_colon nm s0)). unfold w. rewrite <- Hd0.
    apply after_colon_top; [exact Hdw0|rewrite Hd0; lia]. }
  assert (Hpfa : pfa (colon_code (HERE s0) nm) = p).
  { cbn [pfa colon_code]. rewrite Hh0. unfold to_IU. rewrite Z.mod_small by lia. reflexivity. }
  set (s6 := set_rs (mkList (<[Z.to_nat (idx (rs s)) := DU0]> (v (rs s))) (idx (rs s) + 1)) s5).
  assert (H6 : rs_push DU0 s5 = Ok (tt, s6)).
  { assert (Hi : 0 <= idx (rs s5) < E4_RS_SZ)
      by (change (rs s5) with (rs s0); rewrite Hrs0; exact Hrsi).
    unfold s6. rewrite <- Hrs0. exact (rs_push_Ok DU0 s5 Hi). }
  set (s8 := set_VM NEST (set_IP p s6)).
  set (s9 := set_VM STOP
              (set_IP 0
                 (set_rs (mkList (v (rs s8)) (idx (rs s8) - 1))
                    (set_top (to_DU (DALIGN (p + 2)))
                       (set_ss (mkList (<[Z.to_nat (idx (ss s8)) := top s8]> (v (ss s8)))
                                       (idx (ss s8) + 1))
                          (set_IP (p + 2) s8)))))).
  assert (H9 : forall X, nest_step X s8 = Ok (tt, s9)).
  { intros X. apply (nest_step_VAR X p 0 s8); try lia; try reflexivity.
    - exact Hb0.
    - exact Hb1.
    - change (ss s8) with (ss s0). rewrite Hss0. exact Hssi.
    - change (idx (rs s8)) with (idx (rs s) + 1). lia.
    - change (rs s8) with (rs s6). unfold s6. cbn [rs set_rs v idx].
      replace (Z.to_nat (idx (rs s) + 1 - 1)) with (Z.to_nat (idx (rs s))) by lia.
      apply list_lookup_insert_eq. unfold rs_wf in Hrsw. lia. }
  exists s9, a.
  split; [exact Hrun1|].
  split; [unfold stack; change (ss s5) with (ss s0); change (top s5) with (top s0);
          rewrite Hss0, Htop0; reflexivity|].
  split.
  { unfold exec. cbn [CALL].
    rewrite (bind_Ok _ _ _ _ _ (IS_UDF_Ok w _ s5 Hc)).
    change (negb (Z.land (attr (colon_code (HERE s0) nm)) UDF_ATTR =? 0)) with true. cbv iota.
    rewrite (bind_Ok _ _ _ _ _ H6).
    rewrite (bind_Ok _ _ _ _ _ (dict_get_Ok w _ s6 Hc)).
    rewrite Hpfa.
    rewrite (bind_Ok _ _ _ tt (set_IP p s6) eq_refl).
    unfold nest. rewrite (bind_Ok _ _ _ tt s8 eq_refl).
    destruct f as [|[|f']]; try lia.
    rewrite nest_loop_step; [|reflexivity|change (IP s8) with p; lia].
    rewrite (bind_Ok _ _ _ _ _ (H9 _)).
    rewrite nest_loop_done; [reflexivity|left; discriminate]. }
  split.
  { change (top s9) with (to_DU (DALIGN (p + 2))). rewrite Hcell.
    apply to_DU_small. unfold a. lia. }
  split.
  { change (HERE s5) with (idx (var_image (pmem s1))). rewrite var_image_idx, Hh1.
    unfold a. lia. }
  split; [assert (Hpp : p = HERE s + STRLEN nm) by reflexivity; unfold a; lia|].
  split.
  { change (ss s9) with (mkList (<[Z.to_nat (idx (ss s0)) := top s0]> (v (ss s0))) (idx (ss s0) + 1)).
    rewrite live_push.
    - unfold stack. rewrite Hss0, Htop0. reflexivity.
    - rewrite Hss0. lia.
    - rewrite Hss0. unfold ss_wf in Hssw. lia. }
  split.
  { change DU0 with 0.
    change (Ok 0) with (Ok (A := Z) (to_DU (0 + 256 * 0 + 65536 * 0 + 16777216 * 0))).
    unfold eval, CELL, pmem_at.
    rewrite (bind_Ok _ _ s9 (Lst.slot (pmem s9) a) s9 eq_refl).
    unfold Lst.slot. replace (a <? 0) with false by (symmetry; apply Z.ltb_ge; unfold a; lia).
    rewrite (rd32_Ok a 0 0 0 0); [reflexivity|unfold a; lia|unfold a; lia| | | |];
      change (pmem s9) with (var_image (pmem s1)).
    - specialize (Hz 0%nat ltac:(lia)). rewrite Nat.add_0_r in Hz. exact Hz.
    - specialize (Hz 1%nat ltac:(lia)).
      replace (Z.to_nat (a + 1)) with (Z.to_nat a + 1)%nat by (unfold a; lia). exact Hz.
    - specialize (Hz 2%nat ltac:(lia)).
      replace (Z.to_nat (a + 2)) with (Z.to_nat a + 2)%nat by (unfold a; lia). exact Hz.
    - specialize (Hz 3%nat ltac:(lia)).
      replace (Z.to_nat (a + 3)) with (Z.to_nat a + 3)%nat by (unfold a; lia). exact Hz. }
  split; [|reflexivity].
  unfold Lst.live. change (rs s9)
    with (mkList (<[Z.to_nat (idx (rs s)) := DU0]> (v (rs s))) (idx (rs s) + 1 - 1)).
  cbn [v idx]. replace (idx (rs s) + 1 - 1) with (idx (rs s)) by lia.
  apply take_insert_ge. lia.
Qed.

End VariableWord.

Lemma variable_round_trip_witness :
  exists s1 s2 a,
    exec (variable (cfg := build false)) (Probe.reading false ["7"] " counter") = Ok s1 /\
    stack s1 = stack (Probe.reading false ["7"] " counter") /\
    exec (CALL (cfg := build false) 3 (idx (dict (Probe.reading false ["7"] " counter")))) s1 = Ok s2 /\
    top s2 = a /\ a + 4 = HERE s1 /\ HERE (Probe.reading false ["7"] " counter") < a /\
    Lst.live (ss s2) = stack (Probe.reading false ["7"] " counter") /\
    eval (CELL (cfg := build false) a) s2 = Ok 0 /\
    Lst.live (rs s2) = Lst.live (rs (Probe.reading false ["7"] " counter")) /\ VM s2 = STOP.
Proof.
  apply (@variable_round_trip (build false) 2 "counter" (Probe.reading false ["7"] " counter"));
    [lia|..]; try (right; vm_compute; reflexivity); crunch.
Defined.

Section Numbers.
Context `{cfg : Config}.

Lemma byte_of_char_of (y : Z) : 0 <= y < 256 -> byte_of (char_of y) = y.
Proof.
  intros H. unfold byte_of, char_of, to_U8. rewrite Z.mod_small by lia.
  rewrite N_ascii_embedding by lia. lia.
Qed.

Lemma byte_of_digit_char (d : Z) :
  0 <= d < 36 -> byte_of (digit_char d) = if 9 <? d then d + 87 else d + 48.
Proof.
  intros H. unfold digit_char. destruct (9 <? d) eqn:E.
  - apply Z.ltb_lt in E. rewrite byte_of_char_of by lia. lia.
  - apply Z.ltb_ge in E. rewrite byte_of_char_of by lia. lia.
Qed.

Lemma digit_val_digit_char (d : Z) : 0 <= d < 36 -> digit_val (digit_char d) = Some d.
Proof.
  intros H. unfold digit_val. rewrite byte_of_digit_char by exact H.
  destruct (9 <? d) eqn:E.
  - apply Z.ltb_lt in E.
    replace ((48 <=? d + 87) && (d + 87 <=? 57)) with false
      by (symmetry; apply andb_false_iff; right; apply Z.leb_gt; lia).
    replace ((97 <=? d + 87) && (d + 87 <=? 122)) with true
      by (symmetry; apply andb_true_iff; split; apply Z.leb_le; lia).
    f_equal. lia.
  - apply Z.ltb_ge in E.
    replace ((48 <=? d + 48) && (d + 48 <=? 57)) with true
      by (symmetry; apply andb_true_iff; split; apply Z.leb_le; lia).
    f_equal. lia.
Qed.

Lemma digit_val_byte (c : ascii) (d : Z) :
  digit_val c = Some d -> 48 <= byte_of c <= 122 /\ 0 <= d < 36.
Proof.
  unfold digit_val. pose proof (byte_of_range c).
  destruct ((48 <=? byte_of c) && (byte_of c <=? 57)) eqn:E1.
  { apply andb_true_iff in E1 as [A B]. apply Z.leb_le in A, B.
    intros E. injection E as <-. lia. }
  destruct ((97 <=? byte_of c) && (byte_of c <=? 122)) eqn:E2.
  { apply andb_true_iff in E2 as [A B]. apply Z.leb_le in A, B.
    intros E. injection E as <-. lia. }
  destruct ((65 <=? byte_of c) && (byte_of c <=? 90)) eqn:E3; [|discriminate].
  apply andb_true_iff in E3 as [A B]. apply Z.leb_le in A, B.
  intros E. injection E as <-. lia.
Qed.

(** What the loop of [rdx] leaves in its buffer: digits of the radix that
    [strtol] reads back as the number. *)
Lemma rdx_loop_spec (b : Z) (f : nat) :
  2 <= b <= 36 ->
  forall (n i : Z) (acc : string) (s : VMs),
    0 <= n < 2 ^ (i - 2) -> 2 <= i <= Z.of_nat f -> n <= DU_MAX ->
    exists i' c r,
      rdx_loop f b n i acc s = Ok ((i', String c r), s) /\
      1 <= i' /\
      (forall sn, digits_run b (String c r) 0 sn = digits_run b acc n true) /\
      (all_digits b acc = true -> all_digits b (String c r) = true) /\
      (cstr_ok acc = true -> cstr_ok (String c r) = true).
Proof.
  intros Hb. induction f as [|f IH]; intros n i acc s Hn Hi Hmax; [lia|].
  cbn [rdx_loop]. unfold cmod, cdiv.
  replace (b =? 0) with false by (symmetry; apply Z.eqb_neq; lia).
  rewrite (bind_Ok _ _ s (Z.rem n b) s eq_refl).
  rewrite Z.rem_mod_nonneg by lia. rewrite Z.quot_div_nonneg by lia.
  pose proof (Z.mod_pos_bound n b ltac:(lia)) as Hd.
  pose proof (Z.div_mod n b ltac:(lia)) as Hdm.
  assert (Hq : 0 <= n / b <= n).
  { split; [apply Z.div_pos; lia|]. apply Z.div_le_upper_bound; [lia|]. nia. }
  set (m := n mod b) in *. set (q := n / b) in *.
  clearbody m q.
  replace (to_U8 m) with m by (unfold to_U8; rewrite Z.mod_small; lia).
  replace ((DU_MIN <=? q) && (q <=? DU_MAX)) with true
    by (symmetry; apply andb_true_iff; unfold DU_MIN; split; apply Z.leb_le; lia).
  rewrite (bind_Ok _ _ s q s eq_refl).
  set (dc := digit_char m).
  assert (Hdv : digit_val dc = Some m) by (apply digit_val_digit_char; lia).
  assert (Hnz : negb (byte_of dc =? 0) = true).
  { apply negb_true_iff, Z.eqb_neq. apply digit_val_byte in Hdv. lia. }
  assert (Hrun : forall a rest sn,
            digits_run b (String dc rest) a sn = digits_run b rest (a * b + m) true).
  { intros a rest sn. cbn [digits_run]. rewrite Hdv.
    replace (m <? b) with true by (symmetry; apply Z.ltb_lt; lia). reflexivity. }
  destruct (q =? 0) eqn:Eq; cbn [negb andb].
  - apply Z.eqb_eq in Eq.
    exists (i - 1), dc, acc. split; [reflexivity|]. split; [lia|].
    split; [|split].
    + intros sn. rewrite Hrun. f_equal. nia.
    + intros Hacc. cbn [all_digits]. rewrite Hdv, Hacc.
      replace (m <? b) with true by (symmetry; apply Z.ltb_lt; lia). reflexivity.
    + intros Hacc. cbn [cstr_ok]. rewrite Hnz, Hacc. reflexivity.
  - apply Z.eqb_neq in Eq.
    assert (Hi3 : 3 <= i).
    { destruct (Z.le_gt_cases 3 i) as [|Hlt]; [assumption|].
      replace (i - 2) with 0 in Hn by lia. change (2 ^ 0) with 1 in Hn. nia. }
    replace (i - 1 =? 0) with false by (symmetry; apply Z.eqb_neq; lia).
    cbn [negb].
    assert (Hpow : 2 ^ (i - 2) = 2 * 2 ^ (i - 1 - 2)).
    { replace (i - 2) with (Z.succ (i - 1 - 2)) by lia. apply Z.pow_succ_r. lia. }
    destruct (IH q (i - 1) (String dc acc) s) as (i' & c & r & Hr & Hi' & Hdr & Hall & Hok).
    + split; [lia|]. nia.
    + lia.
    + lia.
    + exists i', c, r. split; [exact Hr|]. split; [exact Hi'|].
      split; [|split].
      * intros sn. rewrite Hdr. rewrite Hrun. f_equal. nia.
      * intros Hacc. apply Hall. cbn [all_digits]. rewrite Hdv, Hacc.
        replace (m <? b) with true by (symmetry; apply Z.ltb_lt; lia). reflexivity.
      * intros Hacc. apply Hok. cbn [cstr_ok]. rewrite Hnz, Hacc. reflexivity.
Qed.

Lemma is_x_digit (x : ascii) (d : Z) : digit_val x = Some d -> d < 33 -> is_x x = false.
Proof.
  unfold digit_val, is_x. intros H Hd.
  destruct (byte_of x =? 120) eqn:E1.
  { apply Z.eqb_eq in E1. rewrite E1 in H. cbn in H. injection H as <-. lia. }
  destruct (byte_of x =? 88) eqn:E2; [|reflexivity].
  apply Z.eqb_eq in E2. rewrite E2 in H. cbn in H. injection H as <-. lia.
Qed.

(** [strtol] on a run of digits of the radix, with or without a minus sign
    in front: the value of the run, clamped to a long. *)
Lemma strtol_digits (b : Z) (t : string) (neg : bool) :
  2 <= b <= 36 -> all_digits b t = true -> is_empty t = false ->
  strtol (if neg then String "-" t else t) b =
    (let '(n, rest, seen) := digits_run b t 0 false in
     if seen then
       let x := if neg then - n else n in
       let lo := - 2 ^ (LONG_BITS - 1) in
       let hi := 2 ^ (LONG_BITS - 1) - 1 in
       if x <? lo then (lo, rest, true)
       else if hi <? x then (hi, rest, true)
       else (x, rest, false)
     else (0, (if neg then String "-" t else t), false)).
Proof.
  intros Hb Hall Hne.
  destruct t as [|c r]; [discriminate|]. clear Hne.
  cbn [all_digits] in Hall.
  destruct (digit_val c) as [d|] eqn:Hdv; [|discriminate].
  apply andb_true_iff in Hall as [Hd Hall]. apply Z.ltb_lt in Hd.
  assert (Hx : match r with
               | String x _ => b = 16 -> is_x x = false
               | EmptyString => True
               end).
  { destruct r as [|x r']; [exact I|]. intros ->. cbn [all_digits] in Hall.
    destruct (digit_val x) as [dx|] eqn:Hdx; [|discriminate].
    apply andb_true_iff in Hall as [Hdx' _]. apply Z.ltb_lt in Hdx'.
    apply (is_x_digit x dx Hdx). lia. }
  unfold strtol.
  replace ((b <? 0) || (b =? 1) || (36 <? b)) with false
    by (symmetry; rewrite !orb_false_iff; repeat split;
        [apply Z.ltb_ge|apply Z.eqb_neq|apply Z.ltb_ge]; lia).
  replace (b =? 0) with false by (symmetry; apply Z.eqb_neq; lia).
  destruct c as [[] [] [] [] [] [] [] []]; try discriminate Hdv;
    destruct neg; destruct r as [|x [|h r']];
    first [ reflexivity
          | (simpl; destruct (b =? 16) eqn:E16;
             [apply Z.eqb_eq in E16; rewrite (Hx E16)|]; reflexivity) ].
Qed.

Lemma rd_base_eval (b : Z) (s : VMs) : eval rd_base s = Ok b -> rd_base s = Ok (b, s).
Proof.
  unfold eval. rewrite rd_base_pure.
  destruct (match base s with Some _ => _ | None => _ end); cbn [with_state];
    intros H; [injection H as ->; reflexivity|discriminate].
Qed.

Lemma parse_number_digits (b : Z) (t : string) (neg : bool) (s : VMs) :
  eval rd_base s = Ok b ->
  all_digits b t = true -> is_empty t = false ->
  parse_number (if neg then String "-" t else t) s =
    Ok (let '(n, p, errno) := strtol (if neg then String "-" t else t) b in
        (to_DU n, errno || negb (is_empty p)), s).
Proof.
  intros Hrd Hall Hne. apply rd_base_eval in Hrd.
  unfold parse_number. rewrite (bind_Ok _ _ _ _ _ Hrd).
  destruct t as [|c r]; [discriminate|].
  cbn [all_digits] in Hall.
  destruct (digit_val c) as [d|] eqn:Hdv; [|discriminate].
  destruct neg.
  - destruct (strtol (String "-" (String c r)) b) as [[n p] e]. reflexivity.
  - destruct c as [[] [] [] [] [] [] [] []]; try discriminate Hdv;
      match goal with |- context [strtol ?u b] => destruct (strtol u b) as [[n p] e] end;
      reflexivity.
Qed.

(** X9. The text that [rdx] (the number printer of [ss_dump]) writes for a
    cell in the radix kept in [base] is read back by [parse_number] as the
    same cell, without error: printing and parsing agree for every radix
    from 2 to 36 and every cell but the most negative one. *)
Theorem rdx_parse_round_trip (x b : Z) (s : VMs) :
  eval rd_base s = Ok b ->
  2 <= b <= 36 ->
  -2147483648 < x < 2147483648 ->
  32 <= LONG_BITS ->
  exists t, eval (rdx x b) s = Ok t /\ eval (parse_number t) s = Ok (x, false).
Proof.
  intros Hrd Hb Hx Hlong.
  assert (Habs : ABS x = Z.abs x).
  { unfold ABS. destruct (x <? 0) eqn:E; [apply Z.ltb_lt in E|apply Z.ltb_ge in E];
      rewrite to_DU_small by lia; lia. }
  destruct (rdx_loop_spec b 33 Hb (ABS x) 33 EmptyString s)
    as (i' & c & r & Hloop & Hi' & Hrun & Hall & Hok).
  { rewrite Habs. change (2 ^ (33 - 2)) with 2147483648. lia. }
  { lia. }
  { rewrite Habs. unfold DU_MAX. lia. }
  specialize (Hall eq_refl). specialize (Hok eq_refl).
  specialize (Hrun false).
  change (digits_run b EmptyString (ABS x) true) with (ABS x, EmptyString, true) in Hrun.
  set (t := String c r) in *.
  assert (Hpow : 2147483648 <= 2 ^ (LONG_BITS - 1)).
  { change 2147483648 with (2 ^ 31). apply Z.pow_le_mono_r; lia. }
  exists (if x <? 0 then String "-" t else t).
  split.
  - unfold eval, rdx. rewrite (bind_Ok _ _ _ _ _ Hloop). cbn [fst snd].
    change DU0 with 0. destruct (x <? 0).
    + replace (i' =? 0) with false by (symmetry; apply Z.eqb_neq; lia).
      unfold ret. rewrite c_str_ok; [reflexivity|].
      change (cstr_ok (String "-" t)) with (cstr_ok t). exact Hok.
    + unfold ret. rewrite c_str_ok by exact Hok. reflexivity.
  - unfold eval. rewrite (parse_number_digits b t (x <? 0) s Hrd Hall eq_refl).
    rewrite (strtol_digits b t (x <? 0) Hb Hall eq_refl).
    rewrite Hrun. rewrite Habs. cbv zeta.
    assert (Hv : (if x <? 0 then - Z.abs x else Z.abs x) = x)
      by (destruct (x <? 0) eqn:E; [apply Z.ltb_lt in E|apply Z.ltb_ge in E]; lia).
    rewrite Hv.
    replace (x <? - 2 ^ (LONG_BITS - 1)) with false by (symmetry; apply Z.ltb_ge; lia).
    replace (2 ^ (LONG_BITS - 1) - 1 <? x) with false by (symmetry; apply Z.ltb_ge; lia).
    rewrite to_DU_small by lia. reflexivity.
Qed.

End Numbers.

Lemma rdx_parse_round_trip_witness :
  exists t, eval (rdx (-255) 16) (Probe.after false ["hex"]) = Ok t /\
            eval (parse_number (cfg := build false) t) (Probe.after false ["hex"]) = Ok (-255, false).
Proof.
  apply (@rdx_parse_round_trip (build false) (-255) 16 (Probe.after false ["hex"])); crunch.
Defined.


Section Branch.
Context `{cfg : Config}.
Variable C : Z -> M unit.

Lemma wr16_Ok (a x : Z) (s : VMs) :
  0 <= a -> a + 1 < E4_PMEM_SZ ->
  wr16 a x s = Ok (tt, set_pmem (poke16 a x (pmem s)) s).
Proof.
  intros H0 H1. unfold wr16.
  rewrite (bind_Ok _ _ _ _ _ (wr8_Ok (cfg := cfg) a _ s ltac:(lia))).
  rewrite (wr8_Ok (cfg := cfg) (a + 1) _ _ ltac:(lia)).
  reflexivity.
Qed.

Lemma poke16_bytes (a x : Z) (l : List Z) :
  0 <= a -> (Z.to_nat a + 1 < length (v l))%nat ->
  v (poke16 a x l) !! Z.to_nat a = Some (to_U8 (to_IU x)) /\
  v (poke16 a x l) !! Z.to_nat (a + 1) = Some (to_U8 (to_IU x / 256)) /\
  (forall k, k <> Z.to_nat a -> k <> Z.to_nat (a + 1) -> v (poke16 a x l) !! k = v l !! k).
Proof.
  intros H0 Hl. unfold poke16. cbn [v].
  repeat split.
  - rewrite list_lookup_insert_ne by lia. apply list_lookup_insert_eq. lia.
  - apply list_lookup_insert_eq. rewrite length_insert. lia.
  - intros k Hk0 Hk1. rewrite !list_lookup_insert_ne by lia. reflexivity.
Qed.

(** The primitive [ZBRAN]: the flag comes off the data stack; zero jumps to
    the address kept behind the opcode, anything else steps over it. *)
Lemma nest_step_ZBRAN (X : Z -> M unit) (p lo hi t : Z) (s : VMs) :
  IP s = p -> 0 <= p -> p + 4 <= E4_PMEM_SZ -> p + 4 < 65536 ->
  v (pmem s) !! Z.to_nat p = Some 9 ->
  v (pmem s) !! Z.to_nat (p + 1) = Some 128 ->
  v (pmem s) !! Z.to_nat (p + 2) = Some lo ->
  v (pmem s) !! Z.to_nat (p + 2 + 1) = Some hi ->
  0 < idx (ss s) <= E4_SS_SZ ->
  v (ss s) !! Z.to_nat (idx (ss s) - 1) = Some t ->
  nest_step X s =
    Ok (tt, set_IP (if top s =? 0 then lo + 256 * hi else p + 4)
              (set_top t (set_ss (mkList (v (ss s)) (idx (ss s) - 1)) (set_IP (p + 2) s)))).
Proof.
  intros Hip H0 H1 H2 Hl0 Hl1 Hlo Hhi Hss Ht.
  unfold nest_step.
  rewrite (bind_Ok _ _ s (IP s) _ eq_refl). rewrite Hip.
  assert (Hg : IGET p s = Ok (9 + 256 * 128, s)) by (apply IGET_Ok; [lia|lia|lia|exact Hl0|exact Hl1]).
  rewrite (bind_Ok _ _ _ _ _ Hg).
  rewrite (bind_Ok _ _ _ _ _ (IP_add_Ok IU_SZ s)). rewrite Hip.
  change (9 + 256 * 128 =? EXIT) with false.
  change (9 + 256 * 128 =? NOP) with false.
  change (9 + 256 * 128 =? NEXT) with false.
  change (9 + 256 * 128 =? LOOP) with false.
  change (9 + 256 * 128 =? LIT) with false.
  change (9 + 256 * 128 =? VAR) with false.
  change (9 + 256 * 128 =? STR) with false.
  change (9 + 256 * 128 =? DOTQ) with false.
  change (9 + 256 * 128 =? BRAN) with false.
  change (9 + 256 * 128 =? ZBRAN) with true.
  cbv iota.
  replace (to_IU (p + IU_SZ)) with (p + 2)
    by (unfold to_IU, IU_SZ; rewrite Z.mod_small by lia; reflexivity).
  set (s1 := set_IP (p + 2) s).
  assert (HP : POP s1 = Ok (top s, set_top t (set_ss (mkList (v (ss s)) (idx (ss s) - 1)) s1)))
    by (exact (POP_Ok t s1 Hss Ht)).
  rewrite (bind_Ok _ _ _ _ _ HP).
  set (s2 := set_top t _).
  destruct (top s =? 0); cbn [negb].
  - unfold IP_jump. rewrite (bind_Ok _ _ s2 (p + 2) _ eq_refl).
    assert (Hj : IGET (p + 2) s2 = Ok (lo + 256 * hi, s2))
      by (apply IGET_Ok; [lia|lia|lia|exact Hlo|exact Hhi]).
    rewrite (bind_Ok _ _ _ _ _ Hj). reflexivity.
  - rewrite IP_add_Ok. change (IP s2) with (p + 2).
    replace (to_IU (p + 2 + IU_SZ)) with (p + 4)
      by (unfold to_IU, IU_SZ; rewrite Z.mod_small by lia; lia).
    reflexivity.
Qed.

Lemma builtin_if :
  builtin C "if" = (add_w ZBRAN;; h <- gets HERE;; PUSH h;; add_iu 0).
Proof. reflexivity. Qed.

Lemma builtin_then : builtin C "then" = (a <- POP;; SETJMP a).
Proof. reflexivity. Qed.

(** X10. [if] ... [then] compile a forward branch that the inner
    interpreter follows: whatever is compiled between the two words, [then]
    patches the address behind the [ZBRAN] of [if] with the offset where the
    body ends; the compile-time stack is left as it was.  At run time [ZBRAN]
    takes the flag off the stack; with a zero flag the instruction pointer
    lands at the end of the body, otherwise at its start. *)
Theorem if_then_branch (X : Z -> M unit) (bs : list Z) (s : VMs) :
  pmem_wf s -> 0 <= HERE s ->
  HERE s + 4 + Z.of_nat (length bs) <= E4_PMEM_SZ ->
  HERE s + 4 + Z.of_nat (length bs) < 65536 ->
  ss_wf s -> 0 <= idx (ss s) < E4_SS_SZ ->
  exists s1,
    exec (builtin C "if";; pmem_push_n bs;; builtin C "then") s = Ok s1 /\
    HERE s1 = HERE s + 4 + Z.of_nat (length bs) /\
    stack s1 = stack s /\ dict s1 = dict s /\
    forall st t,
      pmem st = pmem s1 -> IP st = HERE s ->
      0 < idx (ss st) <= E4_SS_SZ ->
      v (ss st) !! Z.to_nat (idx (ss st) - 1) = Some t ->
      exists st',
        exec (nest_step X) st = Ok st' /\
        IP st' = (if top st =? 0 then HERE s1 else HERE s + 4) /\
        top st' = t /\ idx (ss st') = idx (ss st) - 1 /\ pmem st' = pmem st.
Proof.
  intros Hwf H0 Hroom H16 Hssw Hssi.
  set (h := HERE s) in *. set (n := Z.of_nat (length bs)) in *.
  assert (Hn : 0 <= n) by (unfold n; lia).
  assert (Hh : idx (pmem s) = h) by reflexivity.
  assert (Hwf' := Hwf). unfold pmem_wf in Hwf'.
  (* if *)
  assert (HZ : add_w ZBRAN s = Ok (tt, set_pmem (blit [9; 128] (pmem s)) s)).
  { rewrite (add_w_prim ZBRAN (mkCode (Static "0bran") ZBRAN 0 0)) by reflexivity.
    apply add_iu_Ok; [exact Hwf|lia|lia]. }
  set (sa := set_pmem (blit [9; 128] (pmem s)) s) in *.
  assert (Hla : length (v (pmem sa)) = length (v (pmem s)))
    by (apply blit_wf; [exact H0|cbn [length]; lia]).
  assert (HPu : PUSH (h + 2) sa =
                Ok (tt, set_top (to_DU (h + 2))
                          (set_ss (mkList (<[Z.to_nat (idx (ss s)) := top s]> (v (ss s)))
                                          (idx (ss s) + 1)) sa)))
    by (exact (PUSH_Ok (h + 2) sa Hssi)).
  set (sb := set_top _ _) in HPu.
  assert (H00 : add_iu 0 sb = Ok (tt, set_pmem (blit [0; 0] (pmem sb)) sb)).
  { apply add_iu_Ok.
    - unfold pmem_wf. change (pmem sb) with (pmem sa). rewrite Hla. exact Hwf.
    - change (HERE sb) with (h + 2). lia.
    - change (HERE sb) with (h + 2). lia. }
  set (sc := set_pmem (blit [0; 0] (pmem sb)) sb) in *.
  assert (Hpc : pmem sc = blit [9; 128; 0; 0] (pmem s)).
  { change (pmem sc) with (blit [0; 0] (blit [9; 128] (pmem s))).
    rewrite blit_blit; [reflexivity|exact H0|cbn [length]; lia]. }
  assert (Hwfc : pmem_wf sc).
  { unfold pmem_wf. rewrite Hpc, blit_wf; [exact Hwf|exact H0|cbn [length]; lia]. }
  (* the body *)
  assert (Hbody : pmem_push_n bs sc = Ok (tt, set_pmem (blit (map to_U8 bs) (pmem sc)) sc)).
  { apply pmem_push_n_Ok; [exact Hwfc| |]; unfold HERE; rewrite Hpc; cbn [idx blit length]; lia. }
  set (sd := set_pmem (blit (map to_U8 bs) (pmem sc)) sc) in *.
  assert (Hpd : pmem sd = blit ([9; 128; 0; 0] ++ map to_U8 bs)%list (pmem s)).
  { change (pmem sd) with (blit (map to_U8 bs) (pmem sc)). rewrite Hpc.
    apply blit_blit; [exact H0|cbn [length]; lia]. }
  assert (Hld : length (v (pmem sd)) = length (v (pmem s))).
  { rewrite Hpd. apply blit_wf; [exact H0|].
    rewrite length_app, length_map. cbn [length]. lia. }
  assert (Hhd : idx (pmem sd) = h + 4 + n).
  { rewrite Hpd. cbn [idx blit]. rewrite length_app, length_map. cbn [length]. lia. }
  (* then *)
  assert (HPo : POP sd = Ok (h + 2, set_top (top s) (set_ss (mkList (v (ss sd)) (idx (ss sd) - 1)) sd))).
  { replace (h + 2) with (top sd) at 1
      by (change (top sd) with (to_DU (h + 2)); apply to_DU_small; lia).
    apply (POP_Ok (top s) sd).
    - change (idx (ss sd)) with (idx (ss s) + 1). lia.
    - change (ss sd) with (mkList (<[Z.to_nat (idx (ss s)) := top s]> (v (ss s))) (idx (ss s) + 1)).
      cbn [v idx]. replace (Z.to_nat (idx (ss s) + 1 - 1)) with (Z.to_nat (idx (ss s))) by lia.
      apply list_lookup_insert_eq. unfold ss_wf in Hssw. lia. }
  set (se := set_top (top s) _) in HPo.
  set (T := h + 4 + n).
  assert (HJ : SETJMP (h + 2) se = Ok (tt, set_pmem (poke16 (h + 2) T (pmem sd)) se)).
  { unfold SETJMP, pmem_at.
    rewrite (bind_Ok _ _ se (Lst.slot (pmem se) (h + 2)) se eq_refl).
    unfold Lst.slot. replace (h + 2 <? 0) with false by (symmetry; apply Z.ltb_ge; lia).
    rewrite (bind_Ok _ _ se (HERE se) se eq_refl).
    change (HERE se) with (idx (pmem sd)). rewrite Hhd.
    apply (wr16_Ok (h + 2) T se); lia. }
  set (s1 := set_pmem (poke16 (h + 2) T (pmem sd)) se) in *.
  destruct (poke16_bytes (h + 2) T (pmem sd) ltac:(lia) ltac:(rewrite Hld; lia))
    as (Blo & Bhi & Bother).
  exists s1.
  split.
  { assert (Hif : builtin C "if" s = Ok (tt, sc)).
    { rewrite builtin_if. rewrite (bind_Ok _ _ _ _ _ HZ).
      rewrite (bind_Ok _ _ sa (h + 2) sa eq_refl).
      rewrite (bind_Ok _ _ _ _ _ HPu). exact H00. }
    unfold exec. rewrite (bind_Ok _ _ _ _ _ Hif). rewrite builtin_then.
    rewrite (bind_Ok _ _ _ _ _ Hbody).
    rewrite (bind_Ok _ _ _ _ _ HPo). rewrite HJ. reflexivity. }
  split; [change (HERE s1) with (idx (pmem sd)); exact Hhd|].
  split.
  { unfold stack, Lst.live.
    change (ss s1) with (mkList (<[Z.to_nat (idx (ss s)) := top s]> (v (ss s))) (idx (ss s) + 1 - 1)).
    change (top s1) with (top s). cbn [v idx].
    replace (idx (ss s) + 1 - 1) with (idx (ss s)) by lia.
    rewrite take_insert_ge by lia. reflexivity. }
  split; [reflexivity|].
  intros st t Hpm Hip Hsi Ht.
  assert (Hcode : forall k b, 0 <= k < 2 ->
            [9; 128] !! Z.to_nat k = Some b -> v (pmem st) !! Z.to_nat (h + k) = Some b).
  { intros k b Hk Hb. rewrite Hpm. change (pmem s1) with (poke16 (h + 2) T (pmem sd)).
    rewrite Bother by lia. rewrite Hpd, blit_at.
    - rewrite Hh. replace (h + k - h) with k by lia.
      rewrite lookup_app_l by (cbn [length]; lia).
      assert (Hk' : k = 0 \/ k = 1) by lia.
      destruct Hk' as [->| ->]; exact Hb.
    - exact H0.
    - lia.
    - rewrite length_app. cbn [length]. lia. }
  assert (HT : to_U8 (to_IU T) + 256 * to_U8 (to_IU T / 256) = T).
  { rewrite iu_bytes. unfold to_IU. apply Z.mod_small. unfold T. lia. }
  eexists. split.
  { unfold exec.
    rewrite (nest_step_ZBRAN X h (to_U8 (to_IU T)) (to_U8 (to_IU T / 256)) t st);
      [reflexivity|exact Hip|exact H0|lia|lia| | | | |exact Hsi|exact Ht].
    - replace h with (h + 0) at 1 by lia. apply Hcode; [lia|reflexivity].
    - apply Hcode; [lia|reflexivity].
    - rewrite Hpm. exact Blo.
    - rewrite Hpm. exact Bhi. }
  cbn [IP set_IP top set_top ss set_ss idx pmem].
  rewrite HT. change (HERE s1) with (idx (pmem sd)). rewrite Hhd.
  repeat split; reflexivity.
Qed.

End Branch.

Lemma if_then_branch_witness :
  exists s1,
    exec (builtin (cfg := build false) (fun _ => ret tt) "if";;
          pmem_push_n (cfg := build false) [1; 2; 3; 4];;
          builtin (cfg := build false) (fun _ => ret tt) "then") (Probe.after false ["7"]) = Ok s1 /\
    HERE s1 = HERE (Probe.after false ["7"]) + 4 + Z.of_nat (length [1; 2; 3; 4]) /\
    stack s1 = stack (Probe.after false ["7"]) /\ dict s1 = dict (Probe.after false ["7"]) /\
    forall st t,
      pmem st = pmem s1 -> IP st = HERE (Probe.after false ["7"]) ->
      0 < idx (ss st) <= E4_SS_SZ (Config := build false) ->
      v (ss st) !! Z.to_nat (idx (ss st) - 1) = Some t ->
      exists st',
        exec (nest_step (cfg := build false) (fun _ => ret tt)) st = Ok st' /\
        IP st' = (if top st =? 0 then HERE s1 else HERE (Probe.after false ["7"]) + 4) /\
        top st' = t /\ idx (ss st') = idx (ss st) - 1 /\ pmem st' = pmem st.
Proof.
  apply (@if_then_branch (build false) (fun _ => ret tt) (fun _ => ret tt) [1; 2; 3; 4]
           (Probe.after false ["7"])); crunch.
Defined.

Section DotQuote.
Context `{cfg : Config}.

(** The primitive [DOTQ]: the string behind the opcode is printed and
    stepped over. *)
Lemma nest_step_DOTQ (X : Z -> M unit) (p : Z) (t : string) (s : VMs) :
  IP s = p -> 0 <= p -> p + 2 < E4_PMEM_SZ -> p + 2 + STRLEN t < 65536 ->
  v (pmem s) !! Z.to_nat p = Some 7 ->
  v (pmem s) !! Z.to_nat (p + 1) = Some 128 ->
  (forall u, pmem u = pmem s -> cstr_at (p + 2) u = Ok (t, u)) ->
  nest_step X s =
    Ok (tt, set_IP (p + 2 + STRLEN t)
              (set_fout (mkOut (obuf (fout s) ++ t)%string (obase (fout s)))
                 (set_IP (p + 2) s))).
Proof.
  intros Hip H0 H1 H2 Hl0 Hl1 Hstr. pose proof (STRLEN_bounds t). pose proof (strlen_nonneg t).
  unfold nest_step.
  rewrite (bind_Ok _ _ s (IP s) _ eq_refl). rewrite Hip.
  assert (Hg : IGET p s = Ok (7 + 256 * 128, s)) by (apply IGET_Ok; [lia|lia|lia|exact Hl0|exact Hl1]).
  rewrite (bind_Ok _ _ _ _ _ Hg).
  rewrite (bind_Ok _ _ _ _ _ (IP_add_Ok IU_SZ s)). rewrite Hip.
  change (7 + 256 * 128 =? EXIT) with false.
  change (7 + 256 * 128 =? NOP) with false.
  change (7 + 256 * 128 =? NEXT) with false.
  change (7 + 256 * 128 =? LOOP) with false.
  change (7 + 256 * 128 =? LIT) with false.
  change (7 + 256 * 128 =? VAR) with false.
  change (7 + 256 * 128 =? STR) with false.
  change (7 + 256 * 128 =? DOTQ) with true.
  cbv iota.
  replace (to_IU (p + IU_SZ)) with (p + 2)
    by (unfold to_IU, IU_SZ; rewrite Z.mod_small by lia; reflexivity).
  set (s1 := set_IP (p + 2) s).
  rewrite (bind_Ok _ _ s1 (p + 2) _ eq_refl).
  rewrite MEM_small by lia.
  rewrite (bind_Ok _ _ _ _ _ (Hstr s1 eq_refl)).
  rewrite (bind_Ok _ _ _ _ _ (fout_str_Ok t s1)).
  rewrite IP_add_Ok. cbn [IP set_fout]. change (IP s1) with (p + 2).
  replace (to_IU (p + 2 + STRLEN t)) with (p + 2 + STRLEN t)
    by (unfold to_IU; rewrite Z.mod_small by lia; reflexivity).
  reflexivity.
Qed.

(** X11. The text between the word dot-quote and the closing quote, compiled into a colon
    word, is what the inner interpreter prints when it reaches the compiled
    [DOTQ]: compiling prints nothing and leaves the stack alone; running
    prints exactly the quoted text, leaves the stack alone and continues
    behind the string. *)
Theorem dot_quote_prints (X : Z -> M unit) (c : ascii) (t rest : string) (s : VMs) :
  compile s = true ->
  igood (fin s) = true ->
  ibuf (fin s) = (String c t ++ String dquote rest)%string ->
  has_char dquote (String c t) = false ->
  cstr_ok (String c t) = true ->
  pmem_wf s -> 0 <= HERE s ->
  HERE s + 2 + STRLEN t <= E4_PMEM_SZ -> HERE s + 2 + STRLEN t < 65536 ->
  exists s1,
    exec (s_quote DOTQ) s = Ok s1 /\
    HERE s1 = HERE s + 2 + STRLEN t /\
    stack s1 = stack s /\ output s1 = output s /\ dict s1 = dict s /\
    forall st,
      pmem st = pmem s1 -> IP st = HERE s ->
      exists st',
        exec (nest_step X) st = Ok st' /\
        output st' = (output st ++ t)%string /\
        IP st' = HERE s1 /\ stack st' = stack st /\ pmem st' = pmem st.
Proof.
  intros Hc Hgood Hbuf Hdq Hok Hwf H0 Hroom H16.
  pose proof (STRLEN_bounds t) as Hsl. pose proof (strlen_nonneg t) as Hsn.
  pose proof (length_cstr_bytes t) as Hlen.
  assert (Hok' : cstr_ok t = true).
  { cbn [cstr_ok] in Hok. apply andb_true_iff in Hok. tauto. }
  assert (Hget : getline dquote (fin s) = (Some (String c t), mkIn rest false false)).
  { unfold getline. rewrite Hgood, Hbuf, span_delim_app by exact Hdq. reflexivity. }
  set (s0 := set_pad (String c t) (set_fin (mkIn rest false false) s)).
  assert (Hscan : scan dquote s = Ok (String c t, s0)).
  { rewrite scan_Ok, Hget. cbn [fst snd]. rewrite c_str_ok by exact Hok. reflexivity. }
  set (h := HERE s) in *.
  assert (Hh : idx (pmem s) = h) by reflexivity.
  assert (Hwf' := Hwf). unfold pmem_wf in Hwf'.
  assert (HQ : add_w DOTQ s0 = Ok (tt, set_pmem (blit [7; 128] (pmem s)) s0)).
  { rewrite (add_w_prim DOTQ (mkCode (Static "dotq") DOTQ 0 0)) by reflexivity.
    apply (add_iu_Ok DOTQ s0); [exact Hwf|exact H0|change (HERE s0) with h; lia]. }
  set (sa := set_pmem (blit [7; 128] (pmem s)) s0) in *.
  assert (Hla : length (v (pmem sa)) = length (v (pmem s)))
    by (apply blit_wf; [lia|cbn [length]; lia]).
  assert (Hstr : add_str t sa = Ok (STRLEN t, set_pmem (blit (map to_U8 (cstr_bytes t)) (pmem sa)) sa)).
  { unfold add_str.
    rewrite (bind_Ok _ _ _ _ _ (pmem_push_n_Ok (cfg := cfg) (cstr_bytes t) sa
               ltac:(unfold pmem_wf; rewrite Hla; exact Hwf')
               ltac:(change (HERE sa) with (h + 2); lia)
               ltac:(change (HERE sa) with (h + 2); lia))).
    reflexivity. }
  set (s1 := set_pmem (blit (map to_U8 (cstr_bytes t)) (pmem sa)) sa) in *.
  assert (Hh1 : HERE s1 = h + 2 + STRLEN t).
  { unfold HERE. cbn [s1 pmem set_pmem idx blit]. rewrite length_map, Hlen.
    change (idx (pmem sa)) with (h + 2). reflexivity. }
  exists s1.
  split.
  { unfold exec, s_quote. rewrite (bind_Ok _ _ _ _ _ Hscan).
    rewrite (bind_Ok _ _ s0 (compile s) s0 eq_refl). rewrite Hc.
    rewrite (bind_Ok _ _ _ _ _ HQ). rewrite (bind_Ok _ _ _ _ _ Hstr). reflexivity. }
  split; [exact Hh1|]. split; [reflexivity|]. split; [reflexivity|]. split; [reflexivity|].
  intros st Hpm Hip.
  assert (Hbelow : forall k, 0 <= k < 2 ->
            v (pmem st) !! Z.to_nat (h + k) = [7; 128] !! Z.to_nat k).
  { intros k Hk. rewrite Hpm. change (pmem s1) with (blit (map to_U8 (cstr_bytes t)) (pmem sa)).
    rewrite blit_below; [|change (idx (pmem sa)) with (h + 2); lia
                          |change (idx (pmem sa)) with (h + 2); rewrite Hla; lia].
    change (pmem sa) with (blit [7; 128] (pmem s)).
    rewrite blit_at; [|lia|lia|cbn [length]; lia].
    rewrite Hh. replace (h + k - h) with k by lia. reflexivity. }
  eexists. split.
  { unfold exec.
    rewrite (nest_step_DOTQ X h t st); [reflexivity|exact Hip|lia|lia|lia| | |].
    - replace h with (h + 0) at 1 by lia. rewrite Hbelow by lia. reflexivity.
    - rewrite Hbelow by lia. reflexivity.
    - intros u Hu.
      apply (cstr_at_blit t (pmem sa) u Hok').
      + change (idx (pmem sa)) with (h + 2). lia.
      + change (idx (pmem sa)) with (h + 2). lia.
      + change (idx (pmem sa)) with (h + 2). rewrite Hla. lia.
      + rewrite Hu, Hpm. reflexivity. }
  split.
  { unfold output. cbn [sent fout set_IP set_fout obuf]. rewrite str_app_assoc. reflexivity. }
  split; [rewrite Hh1; reflexivity|]. split; reflexivity.
Qed.

End DotQuote.

Lemma dot_quote_prints_witness :
  exists s1,
    exec (s_quote (cfg := build false) DOTQ)
         (Probe.reading false [": greet"] (" hi" ++ String dquote " ;")) = Ok s1 /\
    HERE s1 = HERE (Probe.reading false [": greet"] (" hi" ++ String dquote " ;")) + 2 + STRLEN "hi" /\
    stack s1 = stack (Probe.reading false [": greet"] (" hi" ++ String dquote " ;")) /\
    output s1 = output (Probe.reading false [": greet"] (" hi" ++ String dquote " ;")) /\
    dict s1 = dict (Probe.reading false [": greet"] (" hi" ++ String dquote " ;")) /\
    forall st,
      pmem st = pmem s1 ->
      IP st = HERE (Probe.reading false [": greet"] (" hi" ++ String dquote " ;")) ->
      exists st',
        exec (nest_step (cfg := build false) (fun _ => ret tt)) st = Ok st' /\
        output st' = (output st ++ "hi")%string /\
        IP st' = HERE s1 /\ stack st' = stack st /\ pmem st' = pmem st.
Proof.
  apply (@dot_quote_prints (build false) (fun _ => ret tt) " "%char "hi" " ;"
           (Probe.reading false [": greet"] (" hi" ++ String dquote " ;"))); crunch.
Defined.

Section BlankLine.
Context `{cfg : Config}.

Lemma forth_vm_loop_blank (f k : nat) (s : VMs) :
  fst (extract (fin s)) = None ->
  forth_vm_loop f (S k) false s = Ok (tt, set_fin (snd (extract (fin s))) s).
Proof.
  intros H. cbn [forth_vm_loop]. unfold bind at 1. unfold bind at 1. unfold gets at 1.
  destruct (extract (fin s)) as [r i']. cbn [fst snd] in *. subst r.
  reflexivity.
Qed.

(** X12. When the machine is not in a yield state ([VM] is neither [HOLD]
    nor [IO], so that [forth_vm] does not resume [nest]) and either compile
    mode is on or the build is the WASM flavour, a line without any token
    executes nothing: [forth_vm] returns without yielding, and stacks,
    dictionary, parameter memory, machine state and compile flag are what
    they were.  In compile mode nothing at all is printed; in the WASM flavour
    in interpret mode the prompt [ok] is.  Output still waiting in the buffer
    of [fout] is dropped.  (In the host flavour in interpret mode the line
    ends in the stack dump of [ss_dump], which is not covered here.) *)
Theorem forth_vm_blank_line (f : nat) (line : string) (s : VMs) :
  (1 <= f)%nat ->
  is_yield (VM s) = false ->
  fst (extract (istream_str (c_str line))) = None ->
  compile s = true \/ DO_WASM = true ->
  exists s',
    forth_vm f line s = Ok (false, s') /\
    stack s' = stack s /\ rs s' = rs s /\ dict s' = dict s /\ pmem s' = pmem s /\
    VM s' = VM s /\ compile s' = compile s /\
    output s' = (concat_str (sent s) ++ (if compile s then "" else "ok" ++ nl))%string.
Proof.
  intros Hf Hy Hblank Hmode.
  destruct f as [|k]; [lia|].
  set (s1 := set_fin (istream_str (c_str line))
               (set_fout (mkOut EmptyString (obase (fout s))) s)).
  assert (Hloop := forth_vm_loop_blank (S k) k s1 Hblank).
  set (s2 := set_fin _ s1) in Hloop.
  assert (Hpre : forth_vm (S k) line s =
                 (vm' <- gets VM;;
                  let yield := is_yield vm' in
                  c <- gets compile;;
                  (if yield then ip <- gets IP;; rs_push ip
                   else if negb c then ss_dump false else ret tt);;
                  ret yield) s2).
  { assert (Hinit : (o <- gets fout;; modify (set_fout (mkOut EmptyString (obase o)));;
                      modify (set_fin (istream_str (c_str line)))) s = Ok (tt, s1))
      by reflexivity.
    unfold forth_vm. rewrite (bind_Ok _ _ s (VM s) s eq_refl). cbv zeta. rewrite Hy.
    cbv iota. rewrite (bind_Ok _ _ _ _ _ Hinit).
    rewrite (bind_Ok _ _ _ _ _ Hloop). reflexivity. }
  rewrite Hpre. clear Hpre.
  rewrite (bind_Ok _ _ s2 (VM s) s2 eq_refl). cbv zeta. rewrite Hy. cbv iota.
  rewrite (bind_Ok _ _ s2 (compile s) s2 eq_refl).
  destruct (compile s) eqn:Ec; cbn [negb].
  - exists s2. split; [reflexivity|].
    repeat split; first [reflexivity | exact Ec].
  - destruct Hmode as [Hm|Hw]; [discriminate|].
    assert (Hd : ss_dump false s2 =
                 Ok (tt, set_fout (mkOut EmptyString (obase (fout s2)))
                           (set_sent (sent s2 ++ [(obuf (fout s2) ++ "ok" ++ nl)%string])%list s2))).
    { unfold ss_dump. rewrite Hw. cbn [negb andb].
      rewrite (bind_Ok _ _ _ _ _ (fout_str_Ok "ok" s2)).
      rewrite ENDL_Ok. cbn [fout set_fout obuf obase sent].
      rewrite str_app_assoc. reflexivity. }
    rewrite (bind_Ok _ _ _ _ _ Hd).
    eexists. split; [reflexivity|].
    repeat split; try reflexivity; try exact Ec.
    unfold output. cbn [sent fout set_fout set_sent set_fin obuf s2 s1].
    rewrite concat_str_snoc, str_app_empty. reflexivity.
Qed.

End BlankLine.

Lemma forth_vm_blank_line_witness :
  exists s',
    forth_vm (cfg := build true) 5 "   " (Probe.after true ["1 2"]) = Ok (false, s') /\
    stack s' = stack (Probe.after true ["1 2"]) /\
    rs s' = rs (Probe.after true ["1 2"]) /\
    dict s' = dict (Probe.after true ["1 2"]) /\
    pmem s' = pmem (Probe.after true ["1 2"]) /\
    VM s' = VM (Probe.after true ["1 2"]) /\
    compile s' = compile (Probe.after true ["1 2"]) /\
    output s' = (concat_str (sent (Probe.after true ["1 2"])) ++
                 (if compile (Probe.after true ["1 2"]) then "" else "ok" ++ nl))%string.
Proof.
  apply (@forth_vm_blank_line (build true) 5 "   " (Probe.after true ["1 2"]));
    [lia|vm_compute; reflexivity|vm_compute; reflexivity|right; reflexivity].
Defined.

Section Decode.
Context `{cfg : Config}.

Lemma land_EXT_small (a : Z) : 0 <= a < 32768 -> Z.land a EXT_FLAG = 0.
Proof.
  intros H. change EXT_FLAG with (2 ^ 15).
  apply Z.bits_inj'. intros n Hn.
  rewrite Z.land_spec, Z.pow2_bits_eqb, Z.bits_0 by lia.
  destruct (Z.eqb_spec 15 n) as [<-|Hne]; [|apply andb_false_r].
  rewrite andb_true_r.
  destruct (Z.eq_dec a 0) as [->|Hz]; [apply Z.bits_0|].
  apply Z.bits_above_log2; [lia|].
  apply Z.log2_lt_pow2; lia.
Qed.

Lemma lor_EXT_small (a : Z) : 0 <= a < 32768 -> Z.lor a EXT_FLAG = a + 32768.
Proof.
  intros H. pose proof (Z.add_lor_land a EXT_FLAG) as E.
  rewrite land_EXT_small in E by exact H. change EXT_FLAG with 32768 in *. lia.
Qed.

Lemma has_EXT_lor (a : Z) : 0 <= a < 32768 -> has_EXT_FLAG (Z.lor a EXT_FLAG) = true.
Proof.
  intros H. unfold has_EXT_FLAG.
  rewrite Z.land_lor_distr_l, land_EXT_small, Z.land_diag by exact H.
  reflexivity.
Qed.

Lemma not_EXT_lor (a : Z) : 0 <= a < 32768 -> not_EXT_FLAG (Z.lor a EXT_FLAG) = a.
Proof.
  intros H. unfold not_EXT_FLAG. rewrite lor_EXT_small by exact H.
  change (EXT_FLAG - 1) with (Z.ones 15). rewrite Z.land_ones by lia.
  change (2 ^ 15) with 32768.
  replace (a + 32768) with (a + 1 * 32768) by lia.
  rewrite Z.mod_add by lia. apply Z.mod_small. exact H.
Qed.

Lemma pfa2didx_loop_hit (ix p w : Z) (c : Code) (s : VMs) (n : nat) :
  has_EXT_FLAG ix = true ->
  0 < w <= Z.of_nat n ->
  Lst.get E4_DICT_SZ (dict s) w = Ok c -> pfa c = p ->
  (forall j, w < j <= Z.of_nat n ->
             exists c', Lst.get E4_DICT_SZ (dict s) j = Ok c' /\ pfa c' <> p) ->
  pfa2didx_loop n ix p s = Ok (w, s).
Proof.
  intros Hext Hw Hc Hp. induction n as [|k IH]; intros Habove; [lia|].
  cbn [pfa2didx_loop]. rewrite Hext.
  destruct (Z.eq_dec w (Z.of_nat (S k))) as [E|E].
  - rewrite <- E. rewrite (bind_Ok _ _ _ _ _ (dict_get_Ok w c s Hc)).
    rewrite Hp, Z.eqb_refl. reflexivity.
  - destruct (Habove (Z.of_nat (S k)) ltac:(lia)) as (c' & Hc' & Hne).
    rewrite (bind_Ok _ _ _ _ _ (dict_get_Ok _ c' s Hc')).
    replace (pfa c' =? p) with false by (symmetry; apply Z.eqb_neq; exact Hne).
    apply IH; [lia|]. intros j Hj. apply Habove. lia.
Qed.

(** X13. The reverse lookup [pfa2didx] undoes [add_w] for colon words: the
    instruction unit that [add_w] compiles for a colon word (its parameter
    field address with [EXT_FLAG]) is decoded back to the index of that word,
    provided the address lies above the primitive opcodes and no younger
    entry has the same address. *)
Theorem pfa2didx_decodes_add_w (w : Z) (c : Code) (s : VMs) :
  Lst.get E4_DICT_SZ (dict s) w = Ok c ->
  Z.land (attr c) UDF_ATTR <> 0 ->
  0 < w < idx (dict s) -> w < 32768 ->
  15 <= pfa c < 32768 ->
  forallb (fun c' => negb (pfa c' =? pfa c))
          (drop (Z.to_nat (w + 1)) (Lst.live (dict s))) = true ->
  dict_wf s -> idx (dict s) <= E4_DICT_SZ ->
  pmem_wf s -> 0 <= HERE s -> HERE s + 2 <= E4_PMEM_SZ -> HERE s + 2 < 65536 ->
  exists s' ix,
    exec (add_w w) s = Ok s' /\
    HERE s' = HERE s + 2 /\ dict s' = dict s /\
    eval (IGET (HERE s)) s' = Ok ix /\
    ix = pfa c + EXT_FLAG /\
    eval (pfa2didx ix) s' = Ok w.
Proof.
  intros Hc Hudf Hw Hw15 Hpfa Huniq [Hdl Hd16] Hidx Hwf H0 Hroom H16.
  assert (Hpfa0 : 0 <= pfa c < 32768) by lia.
  set (ix := Z.lor (pfa c) EXT_FLAG).
  assert (Hix : ix = pfa c + 32768) by (apply lor_EXT_small; exact Hpfa0).
  assert (Hprim : IS_PRIM w = false).
  { unfold IS_PRIM, has_EXT_FLAG. rewrite land_EXT_small by lia. reflexivity. }
  assert (Hadd : add_w w s = add_iu ix s).
  { unfold add_w. rewrite Hprim.
    rewrite (bind_Ok _ _ _ _ _ (dict_get_Ok w c s Hc)).
    replace (has_EXT_FLAG w) with false
      by (unfold has_EXT_FLAG; rewrite land_EXT_small by lia; reflexivity).
    replace (negb (Z.land (attr c) UDF_ATTR =? 0)) with true
      by (symmetry; apply negb_true_iff, Z.eqb_neq; exact Hudf).
    rewrite (bind_Ok _ _ s ix s eq_refl). reflexivity. }
  pose proof (add_iu_Ok ix s Hwf H0 Hroom) as Hiu. rewrite <- Hadd in Hiu.
  set (s' := set_pmem _ s) in Hiu.
  exists s', ix.
  split; [unfold exec; rewrite Hiu; reflexivity|].
  split; [reflexivity|]. split; [reflexivity|].
  assert (Hwf' := Hwf). unfold pmem_wf in Hwf'.
  split.
  { unfold eval. rewrite (IGET_Ok (HERE s) (to_U8 (to_IU ix)) (to_U8 (to_IU ix / 256)) s').
    - rewrite iu_bytes. unfold to_IU. rewrite Z.mod_small by lia. reflexivity.
    - exact H0.
    - lia.
    - lia.
    - cbn [s' pmem set_pmem]. rewrite blit_at; [|exact H0|unfold HERE in *; lia|cbn [length]; unfold HERE; lia].
      replace (HERE s - idx (pmem s)) with 0 by (unfold HERE; lia). reflexivity.
    - cbn [s' pmem set_pmem]. rewrite blit_at; [|exact H0|unfold HERE in *; lia|cbn [length]; unfold HERE; lia].
      replace (HERE s + 1 - idx (pmem s)) with 1 by (unfold HERE; lia). reflexivity. }
  split; [change EXT_FLAG with 32768; exact Hix|].
  unfold eval, pfa2didx.
  replace (IS_PRIM ix) with false.
  2:{ unfold IS_PRIM. unfold ix. rewrite has_EXT_lor by exact Hpfa0. fold ix.
      symmetry. apply Z.ltb_ge. unfold MAX_OP. change EXT_FLAG with 32768. lia. }
  rewrite (bind_Ok _ _ s' (dict s') s' eq_refl).
  unfold ix at 2. rewrite not_EXT_lor by exact Hpfa0.
  rewrite (pfa2didx_loop_hit ix (pfa c) w c s'); [reflexivity| | |exact Hc|reflexivity|].
  - unfold ix. apply has_EXT_lor. exact Hpfa0.
  - change (dict s') with (dict s). lia.
  - change (dict s') with (dict s). intros j Hj.
    destruct (v (dict s) !! Z.to_nat j) as [c'|] eqn:Ej.
    2:{ apply lookup_ge_None in Ej. lia. }
    exists c'. split; [rewrite get_nonneg by lia; rewrite Ej; reflexivity|].
    rewrite forallb_forall in Huniq.
    assert (Hin : In c' (drop (Z.to_nat (w + 1)) (Lst.live (dict s)))).
    { apply list_elem_of_In. apply (list_elem_of_lookup_2 _ (Z.to_nat j - Z.to_nat (w + 1))%nat).
      rewrite lookup_drop. unfold Lst.live. rewrite lookup_take_lt by lia.
      replace (Z.to_nat (w + 1) + (Z.to_nat j - Z.to_nat (w + 1)))%nat with (Z.to_nat j) by lia.
      exact Ej. }
    specialize (Huniq c' Hin). apply negb_true_iff, Z.eqb_neq in Huniq. exact Huniq.
Qed.

End Decode.

Lemma pfa2didx_decodes_add_w_witness :
  exists s' ix,
    exec (add_w (cfg := build false) 125) (Probe.after false [": cube dup dup * * ;"; ": sq dup * ;"]) = Ok s' /\
    HERE s' = HERE (Probe.after false [": cube dup dup * * ;"; ": sq dup * ;"]) + 2 /\
    dict s' = dict (Probe.after false [": cube dup dup * * ;"; ": sq dup * ;"]) /\
    eval (IGET (cfg := build false) (HERE (Probe.after false [": cube dup dup * * ;"; ": sq dup * ;"]))) s' = Ok ix /\
    ix = pfa (colon_code 16 "cube") + EXT_FLAG /\
    eval (pfa2didx (cfg := build false) ix) s' = Ok 125.
Proof.
  apply (@pfa2didx_decodes_add_w (build false) 125 (colon_code 16 "cube")
           (Probe.after false [": cube dup dup * * ;"; ": sq dup * ;"])); crunch.
Defined.

Section Safety.
Context `{cfg : Config}.

(** X14. On a dictionary whose live entries all have a readable name,
    [find] never leaves the defined behaviour, whatever the name searched: it
    returns 0 or the index of a live entry, and changes nothing. *)
Theorem find_never_faults (nm : string) (s : VMs) :
  names_settled s = true -> dict_wf s -> 0 < idx (dict s) <= E4_DICT_SZ ->
  exists w, find nm s = Ok (w, s) /\ 0 <= w < idx (dict s).
Proof.
  intros Hset Hdw Hidx.
  destruct (find_total nm s Hset Hdw Hidx) as [w Hw].
  exists w. split; [exact Hw|].
  rewrite find_is_pure in Hw. unfold find_pure in Hw.
  destruct (find_in _ _ _ _ _) as [w'|] eqn:E; [|discriminate].
  cbn [with_state] in Hw. injection Hw as ->.
  apply find_in_le in E. destruct Hdw as [_ Hd16].
  unfold to_IU in E. rewrite Z.mod_small in E by lia. lia.
Qed.

End Safety.

Lemma find_never_faults_witness :
  exists w, find (cfg := build false) "no-such-word" (Probe.after false [": sq dup * ;"]) =
              Ok (w, Probe.after false [": sq dup * ;"]) /\
            0 <= w < idx (dict (Probe.after false [": sq dup * ;"])).
Proof.
  apply (@find_never_faults (build false) "no-such-word" (Probe.after false [": sq dup * ;"])); crunch.
Defined.

